(** * Braille Cell Ignorer: the cell remapping core

    A shallow embedding of [cellMapping.py] and of the boundary conversion of
    [config.py], with the properties of the remapping engine: forward
    (logical to physical) placement, reverse (physical to logical) index
    translation, dimension adjustment and the hook bookkeeping.

    Python integers are unbounded, hence [Z]; a [set[int]] is a [gset Z];
    a [list[int]] is a [list Z]. *)

From Stdlib Require Import Ascii.
From stdpp Require Import base gmap sets list strings pretty sorting.

Open Scope Z_scope.

(** ** Python built-ins used by the source *)
Module Py.

(** [range(n)]: the integers [0 .. n-1], empty when [n <= 0]. *)
Definition range (n : Z) : list Z := seqZ 0 n.

(** [sum(xs)]: accumulation from [0], left to right. *)
Definition sum (xs : list Z) : Z := foldl Z.add 0 xs.

(** [sum(1 for x in xs if cond(x))]: the generator yields one [1] per
    element that passes the condition. *)
Definition sum_ones `(P : A → Prop) `{!∀ x, Decision (P x)} (xs : list A) : Z :=
  sum ((λ _, 1) <$> filter P xs).

(** Exceptions the modelled code can raise. *)
Inductive Exn := IndexError | TypeError | AttributeError.

(** [sorted(set(xs))]: the distinct elements in increasing order. *)
Definition sorted_set (xs : list Z) : list Z :=
  merge_sort Z.le (elements (list_to_set xs : gset Z)).

(** The characters of a string, in order. *)
Fixpoint chars (s : string) : list ascii :=
  match s with
  | EmptyString => []
  | String c rest => c :: chars rest
  end.

(** [s.split(sep)] for a one-character separator: the pieces between the
    separators, empty pieces included; the empty string gives one empty
    piece. *)
Fixpoint split (sep : ascii) (s : string) : list string :=
  match s with
  | EmptyString => [EmptyString]
  | String c rest =>
      if decide (c = sep) then EmptyString :: split sep rest
      else match split sep rest with
           | piece :: pieces => String c piece :: pieces
           | [] => [String c EmptyString]
           end
  end.

(** [s.split(sep, 1)]: a cut at the first separator only. *)
Fixpoint split1 (sep : ascii) (s : string) : list string :=
  match s with
  | EmptyString => [EmptyString]
  | String c rest =>
      if decide (c = sep) then [EmptyString; rest]
      else match split1 sep rest with
           | piece :: pieces => String c piece :: pieces
           | [] => [String c EmptyString]
           end
  end.

(** [d[key] = value] on a dictionary kept in its order of insertion: the
    value of a present key is replaced in place, an absent key is added at
    the end. *)
Fixpoint dict_set {A} (key : string) (value : A) (d : list (string * A))
    : list (string * A) :=
  match d with
  | [] => [(key, value)]
  | (k, v) :: rest =>
      if decide (k = key) then (k, value) :: rest
      else (k, v) :: dict_set key value rest
  end.

(** [l.remove(x)]: the list without the first occurrence of [x]; [None]
    where Python raises [ValueError]. *)
Fixpoint list_remove `{EqDecision A} (x : A) (l : list A) : option (list A) :=
  match l with
  | [] => None
  | y :: rest =>
      if decide (y = x) then Some rest
      else rest' ← list_remove x rest; Some (y :: rest')
  end.

(** The two built-ins on strings whose rules (Unicode white space, signs,
    digit grouping, length limits) the source relies on without showing:
    [s.strip()] and [int(s)], the latter [None] where Python raises
    [ValueError]. *)
Record Str := {
  strip : string → string;
  int : string → option Z;
}.

End Py.

(** ** The host's braille module, as far as this add-on touches it

    These are the shapes of the host objects the source reads and writes;
    the host itself is not part of this repository. *)

(** [braille.DisplayDimensions(numRows, numCols)] *)
Module DisplayDimensions.
Record t := mk { numRows : Z; numCols : Z }.
End DisplayDimensions.

(** The attributes of a braille display driver that the source reads. *)
Module BrailleDisplayDriver.
Record t := {
  name : string;
  numCells : Z;
  numRows : Z;
  numCols : Z;
  isThreadSafe : bool;
  _awaitingAck : bool;
}.
End BrailleDisplayDriver.

(** The attributes of [braille.handler] that the source reads and writes.
    [_displayDimensions] is [None] when the attribute does not exist
    ([hasattr] is false), [Some None] when it holds Python's [None]. *)
Module BrailleHandler.
Record t := {
  display : option BrailleDisplayDriver.t;
  _displayDimensions : option (option DisplayDimensions.t);
  _rawText : string;
  buffer : list Z;
}.
End BrailleHandler.

(** A gesture; [_routingIndex] is [None] when the attribute does not exist,
    [Some None] when it holds Python's [None]. *)
Module BrailleDisplayGesture.
Record t := { _routingIndex : option (option Z) }.
End BrailleDisplayGesture.

(** ** config.py *)
Module Config.

(** [IgnoredCellsProfile]: [ignoredCells] holds 1-based indices. *)
Record IgnoredCellsProfile := {
  driverName : string;
  numCells : Z;
  ignoredCells : list Z;
}.

(** [IgnoredCellsProfile.key]: ["{driverName}:{numCells}"]. *)
Definition key (self : IgnoredCellsProfile) : string :=
  driverName self +:+ ":" +:+ pretty (numCells self).

(** The comprehension [[cell - 1 for cell in cells if cell > 0]], unrolled:
    each element is tested in turn and, when kept, its image is appended. *)
Fixpoint zeroBased (cells : list Z) : list Z :=
  match cells with
  | [] => []
  | cell :: rest =>
      if decide (cell > 0) then (cell - 1) :: zeroBased rest
      else zeroBased rest
  end.

Definition getIgnoredCellsZeroBased (self : IgnoredCellsProfile) : list Z :=
  zeroBased (ignoredCells self).

(** [getActiveProfile(display)]; [profiles] is what [loadProfiles()]
    returns at the time of the call. *)
Definition getActiveProfile (profiles : gmap string IgnoredCellsProfile)
    (display : option BrailleDisplayDriver.t) : option IgnoredCellsProfile :=
  match display with
  | None => None
  | Some d =>
      if decide (BrailleDisplayDriver.name d = "noBraille") then None
      else
        let specificKey :=
          BrailleDisplayDriver.name d +:+ ":"
            +:+ pretty (BrailleDisplayDriver.numCells d) in
        profiles !! specificKey
  end.

Definition getIgnoredCellsForDisplay (profiles : gmap string IgnoredCellsProfile)
    (display : option BrailleDisplayDriver.t) : list Z :=
  match getActiveProfile profiles display with
  | Some profile => getIgnoredCellsZeroBased profile
  | None => []
  end.

(** What the host's configuration can hold under a profile key: a string, a
    list, or something else; an item of a list is an integer, a string, or
    a value on which [int] raises [TypeError]. *)
Inductive ConfItem := ItemInt (n : Z) | ItemStr (s : string) | ItemOther.

Inductive ConfValue :=
  | ValueStr (s : string)
  | ValueList (items : list ConfItem)
  | ValueOther.

(** [int(x)] on an item of a stored list; [None] where it raises. *)
Definition intOfItem (py : Py.Str) (x : ConfItem) : option Z :=
  match x with
  | ItemInt n => Some n
  | ItemStr s => Py.int py s
  | ItemOther => None
  end.

(** [_parseProfileFromNewFormat(key, cellList)]; every exception the body
    can raise is caught and gives [None]. *)
Definition _parseProfileFromNewFormat (py : Py.Str) (key : string)
    (cellList : ConfValue) : option IgnoredCellsProfile :=
  match Py.split1 ":" key with
  | [part0; part1] =>
      let driverName := Py.strip py part0 in
      numCells ← Py.int py (Py.strip py part1);
      cells ←
        match cellList with
        | ValueStr text =>
            mapM (λ x, Py.int py (Py.strip py x))
              (filter (λ x, Py.strip py x ≠ "") (Py.split "," text))
        | ValueList items => mapM (intOfItem py) items
        | ValueOther => None
        end;
      Some {| driverName := driverName; numCells := numCells;
              ignoredCells := Py.sorted_set cells |}
  | _ => None
  end.

(** [loadProfiles()]; [stored] is what the configuration section holds under
    ["profiles"], in the order of iteration, [None] when the key is
    absent. *)
Definition loadProfiles (py : Py.Str)
    (stored : option (list (string * ConfValue)))
    : gmap string IgnoredCellsProfile :=
  match stored with
  | None => ∅
  | Some profilesData =>
      foldl
        (λ profiles entry,
           match _parseProfileFromNewFormat py entry.1 entry.2 with
           | Some profile => <[key profile := profile]> profiles
           | None => profiles
           end)
        ∅ profilesData
  end.

(** [saveProfiles(profiles)]: the dictionary written under ["profiles"]. *)
Definition saveProfiles (profiles : gmap string IgnoredCellsProfile)
    : gmap string (list Z) :=
  ignoredCells <$> filter (λ entry, ignoredCells entry.2 ≠ []) profiles.

End Config.

(** ** cellMapping.py *)
Module CellMapping.

(** *** The pure algorithms *)

(** The body of the [for physicalIndex in range(physicalCellCount)] loop of
    [_remapCellsToPhysical], iterated over the remaining indices; the
    accumulators are the local variables [physicalCells] and
    [logicalIndex].  [logicalCells[logicalIndex]] raises [IndexError] out
    of range, which is [None] here. *)
Fixpoint remapLoop (logicalCells : list Z) (ignoredCells : gset Z)
    (indices : list Z) (physicalCells : list Z) (logicalIndex : nat)
    : option (list Z) :=
  match indices with
  | [] => Some physicalCells
  | physicalIndex :: rest =>
      if decide (physicalIndex ∈ ignoredCells) then
        remapLoop logicalCells ignoredCells rest (physicalCells ++ [0]) logicalIndex
      else if decide (logicalIndex < length logicalCells)%nat then
        match logicalCells !! logicalIndex with
        | Some cell =>
            remapLoop logicalCells ignoredCells rest
              (physicalCells ++ [cell]) (S logicalIndex)
        | None => None
        end
      else
        remapLoop logicalCells ignoredCells rest
          (physicalCells ++ [0]) (S logicalIndex)
  end.

Definition _remapCellsToPhysical (logicalCells : list Z)
    (physicalCellCount : Z) (ignoredCells : gset Z) : option (list Z) :=
  remapLoop logicalCells ignoredCells (Py.range physicalCellCount) [] 0%nat.

(** *** Objects and state *)

(** The function objects that can sit in the three patched attributes:
    whatever the host had there, or one of the closures built by the
    [_patch*] methods. *)
Inductive Callable :=
  | HostCallable (id : string)
  | PatchedWriteCells
  | PatchedRoutingIndex
  | PatchedRouteTo.

(** The fields of a [CellMappingManager]. *)
Record Manager := {
  _ignoredCells : gset Z;
  _originalRoutingIndexProperty : option Callable;
  _originalWriteCells : option Callable;
  _originalRouteTo : option Callable;
  _isRegistered : bool;
}.

(** [CellMappingManager.__init__] *)
Definition __init__ : Manager := {|
  _ignoredCells := ∅;
  _originalRoutingIndexProperty := None;
  _originalWriteCells := None;
  _originalRouteTo := None;
  _isRegistered := false;
|}.

Definition _physicalToLogicalIndex (self : Manager) (physicalIndex : Z)
    : option Z :=
  let ignoredCells := _ignoredCells self in
  if decide (physicalIndex ∈ ignoredCells) then None
  else
    let ignoredBefore :=
      Py.sum_ones (λ cell, cell < physicalIndex) (elements ignoredCells) in
    Some (physicalIndex - ignoredBefore).

(** [getRoutingIndex], the getter of the patched property; [manager] is the
    instance the closure captured, read at the time of the call. *)
Definition getRoutingIndex (manager : Manager)
    (gesture : BrailleDisplayGesture.t) : option Z :=
  let rawIndex := default None (BrailleDisplayGesture._routingIndex gesture) in
  match rawIndex with
  | None => None
  | Some rawIndex => _physicalToLogicalIndex manager rawIndex
  end.

(** [setRoutingIndex], the setter of the patched property. *)
Definition setRoutingIndex (gesture : BrailleDisplayGesture.t)
    (value : option Z) : BrailleDisplayGesture.t :=
  {| BrailleDisplayGesture._routingIndex := Some value |}.

(** Calls into the host that the source makes, in the order made. *)
Inductive Event :=
  | FilterRegister
  | FilterUnregister
  | HandlerUpdate
  | WriteCellsCall (f : Callable) (cells : list Z)
  | PreWriteCellsNotify (cells : list Z) (rawText : string) (currentCellCount : Z)
  | DisplayCall (cells : list Z)
  | LogError
  | HandleDisplayUnavailable
  | QueuedWrite (cells : list Z)
  | WriteCellsInBackground
  | RouteToCall (f : Callable) (windowPos : Z).

(** Everything the methods of the manager read or write: the instance, the
    module-level state of [braille], the configuration as [loadProfiles()]
    returns it, and the calls made so far.  The three patched class
    attributes hold a function object or Python's [None], which is [None]
    here. *)
Record World := {
  manager : Manager;
  handler : option BrailleHandler.t;
  filterRegistered : bool;
  _writeCells : option Callable;
  routingIndex : option Callable;
  routeTo : option Callable;
  profiles : gmap string Config.IgnoredCellsProfile;
  trace : list Event;
}.

(** *** State, exceptions and host calls *)

(** A method either returns a value or raises; in both cases it leaves a
    world behind. *)
Definition M (A : Type) : Type := World → (Py.Exn + A) * World.

#[global] Instance M_ret : MRet M := λ A a w, (inr a, w).

#[global] Instance M_bind : MBind M := λ A B f m w,
  match m w with
  | (inl e, w') => (inl e, w')
  | (inr a, w') => f a w'
  end.

Definition raise {A} (e : Py.Exn) : M A := λ w, (inl e, w).
Definition gets {A} (f : World → A) : M A := λ w, (inr (f w), w).
Definition modify (f : World → World) : M unit := λ w, (inr tt, f w).

Definition withManager (f : Manager → Manager) (w : World) : World := {|
  manager := f (manager w); handler := handler w;
  filterRegistered := filterRegistered w; _writeCells := _writeCells w;
  routingIndex := routingIndex w; routeTo := routeTo w;
  profiles := profiles w; trace := trace w |}.

Definition withHandler (f : BrailleHandler.t → BrailleHandler.t) (w : World)
    : World := {|
  manager := manager w; handler := f <$> handler w;
  filterRegistered := filterRegistered w; _writeCells := _writeCells w;
  routingIndex := routingIndex w; routeTo := routeTo w;
  profiles := profiles w; trace := trace w |}.

Definition withFilterRegistered (b : bool) (w : World) : World := {|
  manager := manager w; handler := handler w;
  filterRegistered := b; _writeCells := _writeCells w;
  routingIndex := routingIndex w; routeTo := routeTo w;
  profiles := profiles w; trace := trace w |}.

Definition with_writeCells (c : option Callable) (w : World) : World := {|
  manager := manager w; handler := handler w;
  filterRegistered := filterRegistered w; _writeCells := c;
  routingIndex := routingIndex w; routeTo := routeTo w;
  profiles := profiles w; trace := trace w |}.

Definition withRoutingIndex (c : option Callable) (w : World) : World := {|
  manager := manager w; handler := handler w;
  filterRegistered := filterRegistered w; _writeCells := _writeCells w;
  routingIndex := c; routeTo := routeTo w;
  profiles := profiles w; trace := trace w |}.

Definition withRouteTo (c : option Callable) (w : World) : World := {|
  manager := manager w; handler := handler w;
  filterRegistered := filterRegistered w; _writeCells := _writeCells w;
  routingIndex := routingIndex w; routeTo := c;
  profiles := profiles w; trace := trace w |}.

Definition withProfiles (ps : gmap string Config.IgnoredCellsProfile)
    (w : World) : World := {|
  manager := manager w; handler := handler w;
  filterRegistered := filterRegistered w; _writeCells := _writeCells w;
  routingIndex := routingIndex w; routeTo := routeTo w;
  profiles := ps; trace := trace w |}.

(** A call into the host is appended to the trace. *)
Definition emit (ev : Event) : M unit := modify (λ w, {|
  manager := manager w; handler := handler w;
  filterRegistered := filterRegistered w; _writeCells := _writeCells w;
  routingIndex := routingIndex w; routeTo := routeTo w;
  profiles := profiles w; trace := trace w ++ [ev] |}).

Definition set_ignoredCells (s : gset Z) (self : Manager) : Manager := {|
  _ignoredCells := s;
  _originalRoutingIndexProperty := _originalRoutingIndexProperty self;
  _originalWriteCells := _originalWriteCells self;
  _originalRouteTo := _originalRouteTo self;
  _isRegistered := _isRegistered self |}.

Definition set_originalRoutingIndexProperty (c : option Callable)
    (self : Manager) : Manager := {|
  _ignoredCells := _ignoredCells self;
  _originalRoutingIndexProperty := c;
  _originalWriteCells := _originalWriteCells self;
  _originalRouteTo := _originalRouteTo self;
  _isRegistered := _isRegistered self |}.

Definition set_originalWriteCells (c : option Callable) (self : Manager)
    : Manager := {|
  _ignoredCells := _ignoredCells self;
  _originalRoutingIndexProperty := _originalRoutingIndexProperty self;
  _originalWriteCells := c;
  _originalRouteTo := _originalRouteTo self;
  _isRegistered := _isRegistered self |}.

Definition set_originalRouteTo (c : option Callable) (self : Manager)
    : Manager := {|
  _ignoredCells := _ignoredCells self;
  _originalRoutingIndexProperty := _originalRoutingIndexProperty self;
  _originalWriteCells := _originalWriteCells self;
  _originalRouteTo := c;
  _isRegistered := _isRegistered self |}.

Definition set_isRegistered (b : bool) (self : Manager) : Manager := {|
  _ignoredCells := _ignoredCells self;
  _originalRoutingIndexProperty := _originalRoutingIndexProperty self;
  _originalWriteCells := _originalWriteCells self;
  _originalRouteTo := _originalRouteTo self;
  _isRegistered := b |}.

Definition set_displayDimensions (v : option (option DisplayDimensions.t))
    (h : BrailleHandler.t) : BrailleHandler.t := {|
  BrailleHandler.display := BrailleHandler.display h;
  BrailleHandler._displayDimensions := v;
  BrailleHandler._rawText := BrailleHandler._rawText h;
  BrailleHandler.buffer := BrailleHandler.buffer h |}.

(** *** The dimension filter *)

Definition _filterDisplayDimensions (displayDimensions : DisplayDimensions.t)
    : M DisplayDimensions.t :=
  h ← gets handler;
  let display :=
    match h with Some h => BrailleHandler.display h | None => None end in
  loaded ← gets profiles;
  let ignoredList := Config.getIgnoredCellsForDisplay loaded display in
  modify (withManager (set_ignoredCells (list_to_set ignoredList)));;
  self ← gets manager;
  if decide (_ignoredCells self = ∅) then mret displayDimensions
  else if decide (DisplayDimensions.numRows displayDimensions > 1)
  then mret displayDimensions
  else
    let validIgnoredCount :=
      Py.sum_ones
        (λ cell, 0 ≤ cell < DisplayDimensions.numCols displayDimensions)
        (elements (_ignoredCells self)) in
    let newNumCols :=
      Z.max 0 (DisplayDimensions.numCols displayDimensions - validIgnoredCount) in
    mret (DisplayDimensions.mk 1 newNumCols).

(** *** The patched route-to *)

(** [patchedRouteTo(handler, windowPos)]; the original is looked up on the
    manager at the time of the call, and calling Python's [None] raises
    [TypeError]. *)
Definition patchedRouteTo (windowPos : option Z) : M unit :=
  match windowPos with
  | None => mret tt
  | Some windowPos =>
      self ← gets manager;
      match _originalRouteTo self with
      | Some original => emit (RouteToCall original windowPos)
      | None => raise Py.TypeError
      end
  end.

(** *** Installing and removing the patches

    A patch saves whatever the attribute holds, [None] included; its removal
    restores only a saved value that is not [None]. *)

Definition _patchWriteCells : M unit :=
  original ← gets _writeCells;
  modify (withManager (set_originalWriteCells original));;
  modify (with_writeCells (Some PatchedWriteCells)).

Definition _unpatchWriteCells : M unit :=
  self ← gets manager;
  match _originalWriteCells self with
  | Some original =>
      modify (with_writeCells (Some original));;
      modify (withManager (set_originalWriteCells None))
  | None => mret tt
  end.

Definition _patchRoutingIndex : M unit :=
  original ← gets routingIndex;
  modify (withManager (set_originalRoutingIndexProperty original));;
  modify (withRoutingIndex (Some PatchedRoutingIndex)).

Definition _unpatchRoutingIndex : M unit :=
  self ← gets manager;
  match _originalRoutingIndexProperty self with
  | Some original =>
      modify (withRoutingIndex (Some original));;
      modify (withManager (set_originalRoutingIndexProperty None))
  | None => mret tt
  end.

Definition _patchRouteTo : M unit :=
  original ← gets routeTo;
  modify (withManager (set_originalRouteTo original));;
  modify (withRouteTo (Some PatchedRouteTo)).

Definition _unpatchRouteTo : M unit :=
  self ← gets manager;
  match _originalRouteTo self with
  | Some original =>
      modify (withRouteTo (Some original));;
      modify (withManager (set_originalRouteTo None))
  | None => mret tt
  end.

(** [braille.filter_displayDimensions.register(self._filterDisplayDimensions)]
    and its [unregister]: the registrar remembers whether the manager's
    filter is among its handlers. *)
Definition filter_register : M unit :=
  modify (withFilterRegistered true);; emit FilterRegister.

Definition filter_unregister : M unit :=
  modify (withFilterRegistered false);; emit FilterUnregister.

(** *** The host around the manager *)

(** What the host decides and the source cannot see: whether a dimension
    query may be answered from the value the handler holds, how a display
    size is derived from dimensions, the host's generic buffer resizing
    [_normalizeCellArraySize], and whether the driver's [display] call
    raises. *)
Record Host := {
  servesFromCache : BrailleHandler.t → bool;
  displaySizeOf : DisplayDimensions.t → Z;
  _normalizeCellArraySize : list Z → Z → Z → Z → Z → list Z;
  displayRaises : BrailleDisplayDriver.t → list Z → bool;
}.

Section WithHost.
Context (host : Host).

(** Modelled from the spec: the host's dimension query (the getter of
    [braille.handler.displayDimensions], which belongs to the host): the
    raw dimensions of the active device are passed through the
    dimension-query hook when it is installed, and the handler keeps
    the answer. *)
Definition queryDisplayDimensions (h : BrailleHandler.t)
    : M DisplayDimensions.t :=
  let raw :=
    match BrailleHandler.display h with
    | Some d =>
        DisplayDimensions.mk
          (BrailleDisplayDriver.numRows d) (BrailleDisplayDriver.numCols d)
    | None => DisplayDimensions.mk 0 0
    end in
  registered ← gets filterRegistered;
  filtered ← (if registered : bool then _filterDisplayDimensions raw
              else mret raw);
  modify (withHandler (set_displayDimensions (Some (Some filtered))));;
  mret filtered.

Definition handler_displayDimensions : M DisplayDimensions.t :=
  h ← gets handler;
  match h with
  | None => raise Py.AttributeError
  | Some h =>
      match BrailleHandler._displayDimensions h with
      | Some (Some held) =>
          if servesFromCache host h then mret held
          else queryDisplayDimensions h
      | _ => queryDisplayDimensions h
      end
  end.

(** Modelled from the spec: [handler.displaySize], the logical cell
    count the host derives from its dimensions. *)
Definition handler_displaySize : M Z :=
  dims ← handler_displayDimensions;
  mret (displaySizeOf host dims).

(** [patchedWriteCells(handler, cells)], with [handler] the host's
    [braille.handler]. *)
Definition patchedWriteCells (cells : list Z) : M unit :=
  logicalCellCount ← handler_displaySize;
  h ← gets handler;
  match h with
  | None => raise Py.AttributeError
  | Some h =>
      emit (PreWriteCellsNotify cells (BrailleHandler._rawText h)
              logicalCellCount);;
      match BrailleHandler.display h with
      | None => mret tt
      | Some display =>
          if decide (BrailleDisplayDriver.numCells display = 0) then mret tt
          else
            let physicalCellCount := BrailleDisplayDriver.numCells display in
            self ← gets manager;
            let ignoredCells := _ignoredCells self in
            let direct : M (list Z) :=
              dims ← handler_displayDimensions;
              mret (_normalizeCellArraySize host cells logicalCellCount
                      (DisplayDimensions.numRows dims) physicalCellCount
                      (BrailleDisplayDriver.numRows display)) in
            cells ←
              (if decide (ignoredCells = ∅) then direct
               else
                 dims ← handler_displayDimensions;
                 if decide (DisplayDimensions.numRows dims = 1) then
                   dims1 ← handler_displayDimensions;
                   dims2 ← handler_displayDimensions;
                   let cells :=
                     _normalizeCellArraySize host cells logicalCellCount
                       (DisplayDimensions.numRows dims1) logicalCellCount
                       (DisplayDimensions.numRows dims2) in
                   match _remapCellsToPhysical cells physicalCellCount
                           ignoredCells with
                   | Some cells => mret cells
                   | None => raise Py.IndexError
                   end
                 else direct);
            if BrailleDisplayDriver.isThreadSafe display then
              emit (QueuedWrite cells);;
              if BrailleDisplayDriver._awaitingAck display then mret tt
              else emit WriteCellsInBackground
            else
              emit (DisplayCall cells);;
              if displayRaises host display cells then
                emit LogError;; emit HandleDisplayUnavailable
              else mret tt
      end
  end.

(** Modelled from the spec: [braille.handler.update()], the host's
    re-render: the rendered buffer is handed to whatever [_writeCells]
    currently is; calling Python's [None] raises [TypeError]. *)
Definition handler_update : M unit :=
  h ← gets handler;
  match h with
  | None => raise Py.AttributeError
  | Some h =>
      emit HandlerUpdate;;
      write ← gets _writeCells;
      match write with
      | Some PatchedWriteCells => patchedWriteCells (BrailleHandler.buffer h)
      | Some write => emit (WriteCellsCall write (BrailleHandler.buffer h))
      | None => raise Py.TypeError
      end
  end.

Definition _refreshDisplay : M unit :=
  h ← gets handler;
  match h with
  | None => mret tt
  | Some h =>
      match BrailleHandler.display h with
      | None => mret tt
      | Some _ =>
          (match BrailleHandler._displayDimensions h with
           | Some _ => modify (withHandler (set_displayDimensions (Some None)))
           | None => mret tt
           end);;
          _ ← handler_displayDimensions;
          handler_update
      end
  end.

Definition registerHandlers : M unit :=
  self ← gets manager;
  if _isRegistered self then mret tt
  else
    filter_register;;
    _patchWriteCells;;
    _patchRoutingIndex;;
    _patchRouteTo;;
    modify (withManager (set_isRegistered true));;
    _refreshDisplay.

Definition unregisterHandlers : M unit :=
  self ← gets manager;
  if negb (_isRegistered self) then mret tt
  else
    filter_unregister;;
    _unpatchWriteCells;;
    _unpatchRoutingIndex;;
    _unpatchRouteTo;;
    modify (withManager (set_isRegistered false));;
    _refreshDisplay.

Definition refreshIgnoredCells : M unit := _refreshDisplay.

(** *** Histories *)

(** What can happen to a manager between its creation and now: its three
    public methods, the host querying dimensions or re-rendering, the host
    routing to a window position through whatever [routeTo] currently is,
    and the user saving another configuration.  An unpatched [routeTo]
    given [None] raises [TypeError], as the docstring of [_patchRouteTo]
    says. *)
Inductive Op :=
  | Register
  | Unregister
  | RefreshIgnoredCells
  | DimensionQuery
  | Render
  | RouteTo (windowPos : option Z)
  | SaveProfiles (saved : gmap string Config.IgnoredCellsProfile).

Definition step (op : Op) : M unit :=
  match op with
  | Register => registerHandlers
  | Unregister => unregisterHandlers
  | RefreshIgnoredCells => refreshIgnoredCells
  | DimensionQuery => _ ← handler_displayDimensions; mret tt
  | Render => handler_update
  | RouteTo windowPos =>
      route ← gets routeTo;
      match route with
      | Some PatchedRouteTo => patchedRouteTo windowPos
      | Some route =>
          match windowPos with
          | Some pos => emit (RouteToCall route pos)
          | None => raise Py.TypeError
          end
      | None => raise Py.TypeError
      end
  | SaveProfiles saved => modify (withProfiles saved)
  end.

(** An exception ends the call that raised it, not the history. *)
Definition run (ops : list Op) (w : World) : World :=
  foldl (λ w op, (step op w).2) w ops.

End WithHost.

End CellMapping.

(** ** settingsPanel.py *)
Module SettingsPanel.

(** The panel's own attributes, and the text of its edit control
    ([_cellsEdit.GetValue()]); the other controls are only shown, hidden
    and labelled.  [_pendingChanges] is kept in its order of insertion. *)
Record Panel := {
  _profiles : gmap string Config.IgnoredCellsProfile;
  _pendingChanges : list (string * list Z);
  _currentDisplayKey : option string;
  _profileKeys : list string;
  _selectedIndex : Z;
  _cellsEdit : string;
}.

(** What [_parseCellsFromInput] reports.  The messages are translated by
    the host, so an error is kept as the message it stands for and the
    values formatted into it. *)
Inductive ParseError :=
  | InvalidCharacters
  | NotANumber (value : string)
  | BelowOne
  | ExceedsDisplay (cells : list Z) (max : Z).

(** [set("0123456789, ")] *)
Definition allowedChars : list ascii := Py.chars "0123456789, ".

(** [_getCurrentDisplayCellCount()]; an absent and an empty key are both
    false. *)
Definition _getCurrentDisplayCellCount (self : Panel) : Z :=
  match _currentDisplayKey self with
  | None => 0
  | Some key =>
      if decide (key = "") then 0
      else match _profiles self !! key with
           | Some profile => Config.numCells profile
           | None => 0
           end
  end.

(** The loop of [_parseCellsFromInput] over the parts of the text, with the
    two lists it appends to; it stops at the first part that is no number
    or is below one. *)
Fixpoint parseParts (py : Py.Str) (maxCells : Z) (parts : list string)
    (cells outOfRange : list Z) : ParseError + (list Z * list Z) :=
  match parts with
  | [] => inr (cells, outOfRange)
  | part :: rest =>
      let part := Py.strip py part in
      if decide (part = "") then parseParts py maxCells rest cells outOfRange
      else
        match Py.int py part with
        | None => inl (NotANumber part)
        | Some value =>
            if decide (value < 1) then inl BelowOne
            else if decide (maxCells ≠ 0 ∧ value > maxCells)
            then parseParts py maxCells rest cells (outOfRange ++ [value])
            else parseParts py maxCells rest (cells ++ [value]) outOfRange
        end
  end.

(** [_parseCellsFromInput()]: the cells, or the error reported. *)
Definition _parseCellsFromInput (py : Py.Str) (self : Panel)
    : ParseError + list Z :=
  let text := Py.strip py (_cellsEdit self) in
  if decide (text = "") then inr []
  else if negb (forallb (λ c, bool_decide (c ∈ allowedChars)) (Py.chars text))
  then inl InvalidCharacters
  else
    let maxCells := _getCurrentDisplayCellCount self in
    match parseParts py maxCells (Py.split "," text) [] [] with
    | inl error => inl error
    | inr (cells, outOfRange) =>
        if decide (outOfRange ≠ []) then inl (ExceedsDisplay outOfRange maxCells)
        else inr (Py.sorted_set cells)
    end.

Definition set_pendingChanges (pending : list (string * list Z))
    (self : Panel) : Panel := {|
  _profiles := _profiles self;
  _pendingChanges := pending;
  _currentDisplayKey := _currentDisplayKey self;
  _profileKeys := _profileKeys self;
  _selectedIndex := _selectedIndex self;
  _cellsEdit := _cellsEdit self |}.

Definition set_profiles (profiles : gmap string Config.IgnoredCellsProfile)
    (self : Panel) : Panel := {|
  _profiles := profiles;
  _pendingChanges := _pendingChanges self;
  _currentDisplayKey := _currentDisplayKey self;
  _profileKeys := _profileKeys self;
  _selectedIndex := _selectedIndex self;
  _cellsEdit := _cellsEdit self |}.

(** [_saveCurrentEdits()] *)
Definition _saveCurrentEdits (py : Py.Str) (self : Panel) : Panel :=
  if decide (_selectedIndex self < 0
             ∨ _selectedIndex self >= Z.of_nat (length (_profileKeys self)))
  then self
  else
    match _profileKeys self !! Z.to_nat (_selectedIndex self) with
    | None => self
    | Some key =>
        if decide (Some key = _currentDisplayKey self) then
          match _parseCellsFromInput py self with
          | inr cells =>
              set_pendingChanges
                (Py.dict_set key cells (_pendingChanges self)) self
          | inl _ => self
          end
        else self
    end.

(** One turn of the loop of [onSave] over the pending changes; [None] when
    it raises ([parts[1]] on a key without colon, [int] on what follows the
    colon). *)
Definition applyPending (py : Py.Str)
    (profiles : gmap string Config.IgnoredCellsProfile)
    (entry : string * list Z) : option (gmap string Config.IgnoredCellsProfile) :=
  let key := entry.1 in
  let cells := entry.2 in
  match profiles !! key with
  | Some profile =>
      Some (<[key := {| Config.driverName := Config.driverName profile;
                        Config.numCells := Config.numCells profile;
                        Config.ignoredCells := cells |}]> profiles)
  | None =>
      if decide (cells ≠ []) then
        match Py.split1 ":" key with
        | part0 :: part1 :: _ =>
            numCells ← Py.int py part1;
            Some (<[key := {| Config.driverName := part0;
                              Config.numCells := numCells;
                              Config.ignoredCells := cells |}]> profiles)
        | _ => None
        end
      else Some profiles
  end.

Fixpoint applyAllPending (py : Py.Str)
    (profiles : gmap string Config.IgnoredCellsProfile)
    (pending : list (string * list Z))
    : option (gmap string Config.IgnoredCellsProfile) :=
  match pending with
  | [] => Some profiles
  | entry :: rest =>
      profiles ← applyPending py profiles entry;
      applyAllPending py profiles rest
  end.

(** [onSave()] up to and including its call of [saveProfiles]: the panel
    afterwards and the dictionary written to the configuration, [None] when
    the loop raises.  What follows in the source is the manager's
    [refreshIgnoredCells()]. *)
Definition onSave (py : Py.Str) (self : Panel)
    : option (Panel * gmap string (list Z)) :=
  let self := _saveCurrentEdits py self in
  profiles ← applyAllPending py (_profiles self) (_pendingChanges self);
  let profilesToSave :=
    filter (λ entry, Config.ignoredCells entry.2 ≠ []) profiles in
  Some (set_profiles profiles self, Config.saveProfiles profilesToSave).

(** The module's own variable and the host's list of panel classes, which
    are named here.  [_cellManager] is whether the variable holds the
    manager; there is one manager, the world's. *)
Record Registry := {
  _cellManager : bool;
  categoryClasses : list string;
}.

Definition BrailleCellIgnorerSettingsPanel : string :=
  "BrailleCellIgnorerSettingsPanel".

(** [register(cellManager)] *)
Definition register (registry : Registry) : Registry := {|
  _cellManager := true;
  categoryClasses :=
    categoryClasses registry ++ [BrailleCellIgnorerSettingsPanel] |}.

(** [unregister()]; the [ValueError] of [remove] is caught and passed
    over. *)
Definition unregister (registry : Registry) : Registry := {|
  _cellManager := false;
  categoryClasses :=
    match Py.list_remove BrailleCellIgnorerSettingsPanel
            (categoryClasses registry) with
    | Some classes => classes
    | None => categoryClasses registry
    end |}.

End SettingsPanel.

Import CellMapping.

(** ** Vocabulary of the properties *)

(** The number of non-ignored physical positions before [i]. *)
Definition validBefore (I : gset Z) (i : Z) : nat :=
  length (filter (λ j, j ∉ I) (Py.range i)).

(** The non-ignored physical positions of a device of [P] cells, in
    increasing order: its [k]-th element is the [k]-th non-ignored slot. *)
Definition validPositions (P : Z) (I : gset Z) : list Z :=
  filter (λ j, j ∉ I) (Py.range P).

(** What the remapping loop appends, position by position, from logical
    index [li] on. *)
Fixpoint emitted (L : list Z) (I : gset Z) (indices : list Z) (li : nat)
    : list Z :=
  match indices with
  | [] => []
  | x :: rest =>
      if decide (x ∈ I) then 0 :: emitted L I rest li
      else default 0 (L !! li) :: emitted L I rest (S li)
  end.

(** The ignored set the configuration holds for the active display: what a
    dimension query stores in [_ignoredCells]. *)
Definition configuredIgnored (w : World) : gset Z :=
  list_to_set
    (Config.getIgnoredCellsForDisplay (profiles w)
       (handler w ≫= BrailleHandler.display)).

(** The three patched entry points, as they stand in the host. *)
Definition entryPoints (w : World)
    : option Callable * option Callable * option Callable :=
  (_writeCells w, routingIndex w, routeTo w).

(** The manager's fields other than the snapshot. *)
Definition bookkeeping (self : Manager)
    : option Callable * option Callable * option Callable * bool :=
  (_originalRoutingIndexProperty self, _originalWriteCells self,
   _originalRouteTo self, _isRegistered self).

(** The handler's attributes other than the dimensions it holds. *)
Definition fixedPart (h : BrailleHandler.t)
    : option BrailleDisplayDriver.t * string * list Z :=
  (BrailleHandler.display h, BrailleHandler._rawText h, BrailleHandler.buffer h).

(** What one step of the host or of the manager may change besides the
    trace and the dimensions the handler holds: nothing but the snapshot,
    and the snapshot only to the configured set, through the installed
    dimension filter. *)
Definition Frame (w w' : World) : Prop :=
  entryPoints w' = entryPoints w
  ∧ profiles w' = profiles w
  ∧ filterRegistered w' = filterRegistered w
  ∧ fixedPart <$> handler w' = fixedPart <$> handler w
  ∧ bookkeeping (manager w') = bookkeeping (manager w)
  ∧ (_ignoredCells (manager w') = _ignoredCells (manager w)
     ∨ (filterRegistered w = true
        ∧ _ignoredCells (manager w') = configuredIgnored w)).

(** A computation respects the frame when every run of it does. *)
Definition preserves {A} (m : M A) : Prop := ∀ w, Frame w (m w).2.

(** The snapshot is up to date when, the dimension filter being installed,
    it is the configured set. *)
Definition UpToDate (w : World) : Prop :=
  filterRegistered w = true → _ignoredCells (manager w) = configuredIgnored w.

(** The world with other dimensions held by the handler. *)
Definition recache (held : option (option DisplayDimensions.t)) (w : World)
    : World :=
  withHandler (set_displayDimensions held) w.

(** The world after the dimension filter ran, when it is installed. *)
Definition refreshed (w : World) : World :=
  if filterRegistered w
  then withManager (set_ignoredCells (configuredIgnored w)) w
  else w.

(** The function objects of a host whose three entry points all hold one. *)
Definition hostEntryPoints (original : Callable * Callable * Callable)
    : option Callable * option Callable * option Callable :=
  (Some original.1.1, Some original.1.2, Some original.2).

(** The two states of the coordinator, relative to the function objects the
    host had in the three entry points before the manager touched them:
    registered, the three entry points are the patches, the saved originals
    are the host's and the dimension filter is installed; unregistered, the
    entry points are the host's. *)
Definition Consistent (original : Callable * Callable * Callable) (w : World)
    : Prop :=
  if _isRegistered (manager w) then
    entryPoints w
    = (Some PatchedWriteCells, Some PatchedRoutingIndex, Some PatchedRouteTo)
    ∧ (_originalWriteCells (manager w),
       _originalRoutingIndexProperty (manager w),
       _originalRouteTo (manager w))
      = hostEntryPoints original
    ∧ filterRegistered w = true
  else entryPoints w = hostEntryPoints original.

(** The steps that leave the saved configuration alone. *)
Definition keepsProfiles (op : Op) : bool :=
  match op with
  | SaveProfiles _ => false
  | _ => true
  end.

(** The cells handed to the device by the last part of [patchedWriteCells]. *)
Definition transmission (host : Host) (display : BrailleDisplayDriver.t)
    (cells : list Z) : list Event :=
  if BrailleDisplayDriver.isThreadSafe display then
    QueuedWrite cells ::
      (if BrailleDisplayDriver._awaitingAck display then []
       else [WriteCellsInBackground])
  else
    DisplayCall cells ::
      (if displayRaises host display cells
       then [LogError; HandleDisplayUnavailable] else []).

(** A single-row display driven by ["exampleDriver"], its handler, a profile
    for it, and the world of a freshly created manager around them. *)
Definition exampleDisplay (cells : Z) : BrailleDisplayDriver.t := {|
  BrailleDisplayDriver.name := "exampleDriver";
  BrailleDisplayDriver.numCells := cells;
  BrailleDisplayDriver.numRows := 1;
  BrailleDisplayDriver.numCols := cells;
  BrailleDisplayDriver.isThreadSafe := false;
  BrailleDisplayDriver._awaitingAck := false |}.

Definition exampleHandler (cells : Z) : BrailleHandler.t := {|
  BrailleHandler.display := Some (exampleDisplay cells);
  BrailleHandler._displayDimensions := Some None;
  BrailleHandler._rawText := "";
  BrailleHandler.buffer := [11; 12; 13; 14; 15; 16] |}.

Definition exampleProfile (cells : Z) (ignored : list Z)
    : Config.IgnoredCellsProfile := {|
  Config.driverName := "exampleDriver";
  Config.numCells := cells;
  Config.ignoredCells := ignored |}.

Definition exampleProfiles (cells : Z) (ignored : list Z)
    : gmap string Config.IgnoredCellsProfile :=
  {[ Config.key (exampleProfile cells ignored) := exampleProfile cells ignored ]}.

Definition exampleWorld (cells : Z) (ignored : list Z) : World := {|
  manager := __init__;
  handler := Some (exampleHandler cells);
  filterRegistered := false;
  _writeCells := Some (HostCallable "_writeCells");
  routingIndex := Some (HostCallable "routingIndex");
  routeTo := Some (HostCallable "routeTo");
  profiles := exampleProfiles cells ignored;
  trace := [] |}.

(** A host that never answers from the held dimensions, sizes a display as
    rows times columns, resizes a buffer by truncating or padding with
    blanks, and whose driver never raises. *)
Definition exampleHost : Host := {|
  servesFromCache := λ _, false;
  displaySizeOf := λ dims,
    DisplayDimensions.numRows dims * DisplayDimensions.numCols dims;
  _normalizeCellArraySize := λ cells _ _ newCols newRows,
    take (Z.to_nat (newCols * newRows))
      (cells ++ replicate (Z.to_nat (newCols * newRows)) 0);
  displayRaises := λ _ _, false |}.

(** Stand-ins for the two string built-ins on the strings the examples use,
    blanks and plain decimal digits: blanks are stripped at both ends, and a
    non-empty run of digits reads as its decimal value. *)
Fixpoint dropBlanks (s : string) : string :=
  match s with
  | String " " rest => dropBlanks rest
  | _ => s
  end.

Fixpoint digitsValue (acc : Z) (cs : list ascii) : option Z :=
  match cs with
  | [] => Some acc
  | c :: rest =>
      let n := Z.of_nat (nat_of_ascii c) in
      if decide (48 ≤ n ≤ 57) then digitsValue (10 * acc + (n - 48)) rest
      else None
  end.

Definition examplePy : Py.Str := {|
  Py.strip := λ s, String.rev (dropBlanks (String.rev (dropBlanks s)));
  Py.int := λ s,
    match Py.chars s with
    | [] => None
    | cs => digitsValue 0 cs
    end |}.

(** The panel as it opens on the example display of eight cells with
    nothing stored, the edit control holding [text]. *)
Definition examplePanel (text : string) : SettingsPanel.Panel := {|
  SettingsPanel._profiles := exampleProfiles 8 [];
  SettingsPanel._pendingChanges := [];
  SettingsPanel._currentDisplayKey := Some "exampleDriver:8";
  SettingsPanel._profileKeys := ["exampleDriver:8"];
  SettingsPanel._selectedIndex := 0;
  SettingsPanel._cellsEdit := text |}.

(** ** Forward remapping *)

Lemma remapLoop_emitted (L : list Z) (I : gset Z) (xs acc : list Z) (li : nat) :
  remapLoop L I xs acc li = Some (acc ++ emitted L I xs li).
Proof.
  revert acc li. induction xs as [|x xs IH]; intros acc li; simpl.
  - by rewrite app_nil_r.
  - destruct (decide (x ∈ I)).
    + by rewrite IH, <-app_assoc.
    + destruct (decide (li < length L)%nat) as [Hlt|Hge].
      * destruct (lookup_lt_is_Some_2 L li Hlt) as [c Hc].
        rewrite Hc. simpl. by rewrite IH, <-app_assoc.
      * rewrite (lookup_ge_None_2 L li) by lia. simpl.
        by rewrite IH, <-app_assoc.
Qed.

Lemma length_emitted (L : list Z) (I : gset Z) (xs : list Z) (li : nat) :
  length (emitted L I xs li) = length xs.
Proof.
  revert li. induction xs as [|x xs IH]; intros li; simpl; [done|].
  destruct (decide (x ∈ I)); simpl; by rewrite IH.
Qed.

Lemma emitted_lookup (L : list Z) (I : gset Z) (xs : list Z) (li j : nat) (x : Z) :
  xs !! j = Some x →
  emitted L I xs li !! j =
    Some (if decide (x ∈ I) then 0
          else default 0 (L !! (li + length (filter (λ y, y ∉ I) (take j xs)))%nat)).
Proof.
  revert li j. induction xs as [|y xs IH]; intros li j Hj; [done|].
  destruct j as [|j]; simpl in *.
  - injection Hj as ->. rewrite Nat.add_0_r.
    destruct (decide (x ∈ I)); done.
  - destruct (decide (y ∈ I)) as [Hy|Hy]; simpl.
    + rewrite filter_cons_False by (intros Hn; by apply Hn). by apply IH.
    + rewrite filter_cons_True by done. rewrite (IH _ _ Hj). simpl.
      by rewrite Nat.add_succ_r.
Qed.

Lemma emitted_agree (L L' : list Z) (I : gset Z) (xs : list Z) (li : nat) :
  let n := (li + length (filter (λ y, y ∉ I) xs))%nat in
  take n L' = take n L →
  emitted L' I xs li = emitted L I xs li.
Proof.
  revert li. induction xs as [|y xs IH]; intros li n Hn; simpl; [done|].
  subst n.
  destruct (decide (y ∈ I)) as [Hy|Hy].
  - rewrite filter_cons_False in Hn by (intros Hc; by apply Hc).
    f_equal. by apply IH.
  - rewrite filter_cons_True in Hn by done. simpl in Hn.
    rewrite Nat.add_succ_r in Hn. f_equal.
    + set (n := S (li + length (filter (λ y, y ∉ I) xs))) in Hn.
      rewrite <-(lookup_take_lt L' n li), <-(lookup_take_lt L n li), Hn
        by (subst n; lia).
      done.
    + apply IH. simpl. done.
Qed.

Lemma take_range (P i : Z) :
  0 ≤ i ≤ P → take (Z.to_nat i) (Py.range P) = Py.range i.
Proof.
  intros Hi. unfold Py.range.
  replace P with (i + (P - i)) by lia.
  rewrite seqZ_app by lia.
  apply take_app_length'. by rewrite length_seqZ.
Qed.

Lemma remapCellsToPhysical_emitted (L : list Z) (P : Z) (I : gset Z) :
  _remapCellsToPhysical L P I = Some (emitted L I (Py.range P) 0).
Proof. unfold _remapCellsToPhysical. by rewrite remapLoop_emitted. Qed.

Lemma emitted_at (L : list Z) (P : Z) (I : gset Z) (i : Z) :
  0 ≤ i < P →
  emitted L I (Py.range P) 0 !! Z.to_nat i =
    Some (if decide (i ∈ I) then 0 else default 0 (L !! validBefore I i)).
Proof.
  intros Hi.
  assert (Hlook : Py.range P !! Z.to_nat i = Some i).
  { unfold Py.range. rewrite lookup_seqZ_lt by lia. f_equal. lia. }
  rewrite (emitted_lookup L I _ 0 _ _ Hlook).
  by rewrite take_range by lia.
Qed.

(** C1: for [P >= 0], [_remapCellsToPhysical(L, P, I)] returns a list of
    length exactly [P]; at each physical index [i] in [0, P) it holds the
    blank filler [0] when [i] is ignored, and otherwise [L[k]] with [k] the
    number of non-ignored positions before [i], or [0] when [k >= len(L)];
    the elements of [L] beyond the number of non-ignored positions in
    [0, P) have no influence on the output. *)
Theorem remapCellsToPhysical_placement (L : list Z) (P : Z) (I : gset Z) :
  0 ≤ P →
  ∃ out,
    _remapCellsToPhysical L P I = Some out
    ∧ Z.of_nat (length out) = P
    ∧ (∀ i, 0 ≤ i < P →
         (i ∈ I → out !! Z.to_nat i = Some 0)
         ∧ (i ∉ I → (validBefore I i < length L)%nat →
              out !! Z.to_nat i = L !! validBefore I i)
         ∧ (i ∉ I → (length L ≤ validBefore I i)%nat →
              out !! Z.to_nat i = Some 0))
    ∧ (∀ L', take (validBefore I P) L' = take (validBefore I P) L →
         _remapCellsToPhysical L' P I = Some out).
Proof.
  intros HP. exists (emitted L I (Py.range P) 0).
  split; [apply remapCellsToPhysical_emitted|]. split; [|split].
  - rewrite length_emitted. unfold Py.range. rewrite length_seqZ. lia.
  - intros i Hi. rewrite (emitted_at L P I i Hi).
    split; [|split].
    + intros Hin. by rewrite decide_True.
    + intros Hnin Hlt. rewrite decide_False by done.
      destruct (lookup_lt_is_Some_2 L _ Hlt) as [c Hc]. by rewrite Hc.
    + intros Hnin Hge. rewrite decide_False by done.
      by rewrite (lookup_ge_None_2 L _ Hge).
  - intros L' HL'. rewrite remapCellsToPhysical_emitted. f_equal.
    apply emitted_agree. simpl. done.
Qed.

Lemma remapCellsToPhysical_placement_witness :
  let L := [11;12;13;14;15;16;17] in
  let I : gset Z := {[2;5]} in
  ∃ out,
    _remapCellsToPhysical L 8 I = Some out
    ∧ Z.of_nat (length out) = 8
    ∧ (∀ i, 0 ≤ i < 8 →
         (i ∈ I → out !! Z.to_nat i = Some 0)
         ∧ (i ∉ I → (validBefore I i < length L)%nat →
              out !! Z.to_nat i = L !! validBefore I i)
         ∧ (i ∉ I → (length L ≤ validBefore I i)%nat →
              out !! Z.to_nat i = Some 0))
    ∧ (∀ L', take (validBefore I 8) L' = take (validBefore I 8) L →
         _remapCellsToPhysical L' 8 I = Some out).
Proof.
  intros L I. apply (remapCellsToPhysical_placement L 8 I). lia.
Defined.

(** Over-length input: the seventh logical cell does not fit a device of
    eight cells with two of them ignored; under-length input is padded. *)
Example remap_8_2_5 :
  _remapCellsToPhysical [11;12;13;14;15;16;17] 8 {[2;5]}
    = Some [11;12;0;13;14;0;15;16]
  ∧ _remapCellsToPhysical [11;12;13] 8 {[2;5]}
    = Some [11;12;0;13;0;0;0;0]
  ∧ _remapCellsToPhysical [11;12;13] (-3) {[2;5]} = Some [].
Proof. vm_compute. done. Qed.

(** ** Reverse translation *)

Lemma sum_ones_length `(Q : A → Prop) `{!∀ x, Decision (Q x)} (xs : list A) :
  Py.sum_ones Q xs = Z.of_nat (length (filter Q xs)).
Proof.
  unfold Py.sum_ones, Py.sum.
  assert (Hgen : ∀ (l : list A) (a : Z),
    foldl Z.add a ((λ _, 1) <$> l) = a + Z.of_nat (length l)).
  { induction l as [|x l IH]; intros a; simpl; [lia|]. rewrite IH. lia. }
  rewrite Hgen. lia.
Qed.

Lemma filter_elements_size `{Countable A} (Q : A → Prop)
    `{!∀ x, Decision (Q x)} (X : gset A) :
  length (filter Q (elements X)) = size (filter Q X).
Proof.
  unfold size, set_size. simpl. apply Permutation_length.
  apply NoDup_Permutation.
  - apply NoDup_filter, NoDup_elements.
  - apply NoDup_elements.
  - intros x. rewrite list_elem_of_filter, !elem_of_elements, elem_of_filter.
    done.
Qed.

Lemma physicalToLogicalIndex_closed_form (self : Manager) (p : Z) :
  _physicalToLogicalIndex self p =
    if decide (p ∈ _ignoredCells self) then None
    else Some (p - Z.of_nat (size (filter (λ c, c < p) (_ignoredCells self)))).
Proof.
  unfold _physicalToLogicalIndex.
  destruct (decide (p ∈ _ignoredCells self)); [done|].
  by rewrite sum_ones_length, filter_elements_size.
Qed.

(** C2: [_physicalToLogicalIndex(p)] is [None] when [p] is ignored, and
    otherwise [p] minus the number of ignored positions strictly below [p];
    with the ignored set [{2, 5}]: 0 maps to 0, 2 to nothing, 3 to 2, 5 to
    nothing, 6 to 4. *)
Theorem physicalToLogicalIndex_spec :
  (∀ (self : Manager) (p : Z),
     _physicalToLogicalIndex self p =
       if decide (p ∈ _ignoredCells self) then None
       else Some (p - Z.of_nat (size (filter (λ c, c < p) (_ignoredCells self)))))
  ∧ (∀ self : Manager,
       let self := set_ignoredCells {[2;5]} self in
       _physicalToLogicalIndex self 0 = Some 0
       ∧ _physicalToLogicalIndex self 2 = None
       ∧ _physicalToLogicalIndex self 3 = Some 2
       ∧ _physicalToLogicalIndex self 5 = None
       ∧ _physicalToLogicalIndex self 6 = Some 4).
Proof.
  split.
  - apply physicalToLogicalIndex_closed_form.
  - intros self. vm_compute. done.
Qed.

(** ** Forward and reverse agree *)

(** Below [n], every position is either ignored or not: the non-ignored ones
    and the ignored ones below [n] add up to [n]. *)
Lemma validBefore_count (I : gset Z) (n : Z) :
  0 ≤ n → (∀ i, i ∈ I → 0 ≤ i) →
  Z.of_nat (validBefore I n) = n - Z.of_nat (size (filter (λ c, c < n) I)).
Proof.
  intros Hn Hpos. unfold validBefore, Py.range.
  pose proof (filter_app_complement (λ j, j ∈ I) (seqZ 0 n)) as Hsplit.
  apply Permutation_length in Hsplit.
  rewrite length_app, length_seqZ in Hsplit.
  assert (Hin : length (filter (λ j, j ∈ I) (seqZ 0 n))
                = size (filter (λ c, c < n) I)).
  { unfold size, set_size. simpl. apply Permutation_length.
    apply NoDup_Permutation.
    - apply NoDup_filter, NoDup_seqZ.
    - apply NoDup_elements.
    - intros x. rewrite list_elem_of_filter, elem_of_seqZ, elem_of_elements,
        elem_of_filter.
      split; [intros [? ?]; split; [lia|done]|].
      intros [? Hx]. specialize (Hpos x Hx). split; [done|lia]. }
  lia.
Qed.

Lemma validPositions_elem (P : Z) (I : gset Z) (p : Z) :
  p ∈ validPositions P I ↔ (p ∉ I) ∧ (0 ≤ p < P).
Proof.
  unfold validPositions, Py.range.
  rewrite list_elem_of_filter, elem_of_seqZ. simpl. intuition lia.
Qed.

(** A non-ignored position sits in [validPositions] at the rank given by the
    number of non-ignored positions before it. *)
Lemma validPositions_rank (P : Z) (I : gset Z) (p : Z) :
  0 ≤ p < P → p ∉ I →
  validPositions P I !! validBefore I p = Some p.
Proof.
  intros Hp Hnin. unfold validPositions, validBefore, Py.range.
  replace P with (p + (1 + (P - p - 1))) by lia.
  rewrite seqZ_app by lia. rewrite (seqZ_app (0 + p)) by lia.
  rewrite !filter_app.
  rewrite lookup_app_r by done. rewrite Nat.sub_diag.
  rewrite (seqZ_cons (0 + p) 1) by lia. rewrite (seqZ_nil _ (Z.pred 1)) by lia.
  rewrite filter_cons_True by (by rewrite Z.add_0_l).
  done.
Qed.

Lemma validPositions_lookup (P : Z) (I : gset Z) (k : nat) (p : Z) :
  validPositions P I !! k = Some p →
  (p ∉ I) ∧ (0 ≤ p < P) ∧ validBefore I p = k.
Proof.
  intros Hk.
  assert (Hel : p ∈ validPositions P I) by (by eapply list_elem_of_lookup_2).
  apply validPositions_elem in Hel as [Hnin Hp].
  split; [done|]. split; [done|].
  eapply NoDup_lookup; [|by apply validPositions_rank|done].
  apply NoDup_filter, NoDup_seqZ.
Qed.

Lemma validPositions_length (P : Z) (I : gset Z) :
  0 ≤ P → (∀ i, i ∈ I → 0 ≤ i < P) →
  Z.of_nat (length (validPositions P I)) = P - Z.of_nat (size I).
Proof.
  intros HP HI. change (length (validPositions P I)) with (validBefore I P).
  rewrite validBefore_count; [|done|intros i Hi; specialize (HI i Hi); lia].
  do 3 f_equal. apply set_eq. intros x. rewrite elem_of_filter.
  split; [tauto|]. intros Hx. split; [|done]. specialize (HI x Hx). lia.
Qed.

(** C3: for [I] within [0, P) and a logical buffer [L] of length
    [P - |I|], every rank [k] below [P - |I|] has a [k]-th non-ignored
    physical position [p]; forward remapping places [L[k]] at [p], and
    reverse translation sends [p] back to [k]. *)
Theorem reverse_translation_inverts_placement
    (P : Z) (I : gset Z) (L : list Z) (self : Manager) (k : nat) :
  (∀ i, i ∈ I → 0 ≤ i < P) →
  Z.of_nat (length L) = P - Z.of_nat (size I) →
  _ignoredCells self = I →
  Z.of_nat k < P - Z.of_nat (size I) →
  ∃ p out cell,
    validPositions P I !! k = Some p
    ∧ _remapCellsToPhysical L P I = Some out
    ∧ L !! k = Some cell
    ∧ out !! Z.to_nat p = Some cell
    ∧ _physicalToLogicalIndex self p = Some (Z.of_nat k).
Proof.
  intros HI HL Hself Hk.
  assert (HP : 0 ≤ P) by lia.
  assert (Hkl : (k < length (validPositions P I))%nat).
  { pose proof (validPositions_length P I HP HI). lia. }
  destruct (lookup_lt_is_Some_2 _ _ Hkl) as [p Hp].
  destruct (validPositions_lookup _ _ _ _ Hp) as (Hnin & Hrange & Hrank).
  destruct (lookup_lt_is_Some_2 L k ltac:(lia)) as [cell Hcell].
  exists p, (emitted L I (Py.range P) 0), cell.
  split; [done|]. split; [apply remapCellsToPhysical_emitted|].
  split; [done|]. split.
  - rewrite (emitted_at L P I p Hrange), decide_False by done.
    by rewrite Hrank, Hcell.
  - rewrite physicalToLogicalIndex_closed_form, Hself, decide_False by done.
    f_equal.
    rewrite <-Hrank. rewrite validBefore_count; [done|lia|].
    intros i Hi. specialize (HI i Hi). lia.
Qed.

Lemma reverse_translation_inverts_placement_witness :
  let I : gset Z := {[2;5]} in
  let L := [11;12;13;14;15;16] in
  ∃ p out cell,
    validPositions 8 I !! 4%nat = Some p
    ∧ _remapCellsToPhysical L 8 I = Some out
    ∧ L !! 4%nat = Some cell
    ∧ out !! Z.to_nat p = Some cell
    ∧ _physicalToLogicalIndex (set_ignoredCells I __init__) p = Some 4.
Proof.
  intros I L.
  apply (reverse_translation_inverts_placement 8 I L
           (set_ignoredCells I __init__) 4).
  - intros i Hi. subst I. set_unfold. lia.
  - vm_compute. reflexivity.
  - reflexivity.
  - vm_compute. reflexivity.
Defined.

(** The sixth physical cell of a device with cells 2 and 5 ignored is the
    fifth logical one. *)
Example round_trip_8_2_5 :
  validPositions 8 {[2;5]} = [0;1;3;4;6;7]
  ∧ _physicalToLogicalIndex (set_ignoredCells {[2;5]} __init__) 6 = Some 4
  ∧ _remapCellsToPhysical [11;12;13;14;15;16] 8 {[2;5]}
    = Some [11;12;0;13;14;0;15;16].
Proof. vm_compute. done. Qed.

(** ** Dimension adjustment *)

(** Unfolds the plumbing of the state monad. *)
Ltac run_monad :=
  cbv [mbind M_bind mret M_ret gets modify emit raise]; simpl.

(** The filter always stores the configured set, and answers from it. *)
Lemma filterDisplayDimensions_run (dims : DisplayDimensions.t) (w : World) :
  _filterDisplayDimensions dims w =
    (inr (if decide (configuredIgnored w = ∅) then dims
          else if decide (DisplayDimensions.numRows dims > 1) then dims
          else DisplayDimensions.mk 1
                 (Z.max 0 (DisplayDimensions.numCols dims
                    - Z.of_nat (size (filter
                        (λ i, 0 ≤ i < DisplayDimensions.numCols dims)
                        (configuredIgnored w)))))),
     withManager (set_ignoredCells (configuredIgnored w)) w).
Proof.
  unfold _filterDisplayDimensions. run_monad.
  replace (list_to_set _) with (configuredIgnored w)
    by (unfold configuredIgnored; by destruct (handler w)).
  destruct (decide (configuredIgnored w = ∅)); [done|].
  destruct (decide (DisplayDimensions.numRows dims > 1)); [done|].
  by rewrite sum_ones_length, filter_elements_size.
Qed.

(** C4: on a single-row device with [cols >= 0] and an ignored set [I] of
    non-negative positions, the dimension filter answers one row and
    [max(0, cols - |{i in I : 0 <= i < cols}|)] columns; eight columns with
    [{2,5}] give six, eight columns with [{2,5,9}] give six, four columns
    with [{0,1,2,3}] give none. *)
Theorem filterDisplayDimensions_single_row (w : World) (I : gset Z) (cols : Z) :
  configuredIgnored w = I →
  (∀ i, i ∈ I → 0 ≤ i) →
  0 ≤ cols →
  (_filterDisplayDimensions (DisplayDimensions.mk 1 cols) w).1
    = inr (DisplayDimensions.mk 1
             (Z.max 0 (cols - Z.of_nat (size (filter (λ i, 0 ≤ i < cols) I)))))
  ∧ (_filterDisplayDimensions (DisplayDimensions.mk 1 8)
       (exampleWorld 8 [3;6])).1 = inr (DisplayDimensions.mk 1 6)
  ∧ (_filterDisplayDimensions (DisplayDimensions.mk 1 8)
       (exampleWorld 8 [3;6;10])).1 = inr (DisplayDimensions.mk 1 6)
  ∧ (_filterDisplayDimensions (DisplayDimensions.mk 1 4)
       (exampleWorld 4 [1;2;3;4])).1 = inr (DisplayDimensions.mk 1 0).
Proof.
  intros HI Hpos Hcols. split; [|by vm_compute].
  rewrite filterDisplayDimensions_run, HI. simpl.
  destruct (decide (I = ∅)) as [->|Hne].
  - assert (Hnone : filter (λ i, 0 ≤ i < cols) (∅ : gset Z) = ∅).
    { apply set_eq. intros x. rewrite elem_of_filter, elem_of_empty. tauto. }
    rewrite Hnone, size_empty. do 2 f_equal. lia.
  - done.
Qed.

Lemma filterDisplayDimensions_single_row_witness :
  (_filterDisplayDimensions (DisplayDimensions.mk 1 8)
     (exampleWorld 8 [3;6;10])).1
    = inr (DisplayDimensions.mk 1
             (Z.max 0 (8 - Z.of_nat (size (filter (λ i, 0 ≤ i < 8)
                                             ({[2;5;9]} : gset Z))))))
  ∧ (_filterDisplayDimensions (DisplayDimensions.mk 1 8)
       (exampleWorld 8 [3;6])).1 = inr (DisplayDimensions.mk 1 6)
  ∧ (_filterDisplayDimensions (DisplayDimensions.mk 1 8)
       (exampleWorld 8 [3;6;10])).1 = inr (DisplayDimensions.mk 1 6)
  ∧ (_filterDisplayDimensions (DisplayDimensions.mk 1 4)
       (exampleWorld 4 [1;2;3;4])).1 = inr (DisplayDimensions.mk 1 0).
Proof.
  apply (filterDisplayDimensions_single_row (exampleWorld 8 [3;6;10])
           {[2;5;9]} 8).
  - vm_compute. reflexivity.
  - intros i Hi. set_unfold. lia.
  - lia.
Defined.

(** C5 as stated fails when the device reports no row at all: the guard of
    the filter is [numRows > 1], so dimensions of zero rows and eight columns
    come back as one row and six columns once cells 2 and 5 are ignored. *)
Lemma filterDisplayDimensions_zero_rows_counterexample :
  DisplayDimensions.numRows (DisplayDimensions.mk 0 8) ≠ 1
  ∧ (_filterDisplayDimensions (DisplayDimensions.mk 0 8)
       (exampleWorld 8 [3;6])).1 = inr (DisplayDimensions.mk 1 6)
  ∧ (_filterDisplayDimensions (DisplayDimensions.mk 0 8)
       (exampleWorld 8 [3;6])).1 ≠ inr (DisplayDimensions.mk 0 8).
Proof.
  split; [done|]. split; [by vm_compute|]. by vm_compute.
Qed.

(** C5 (amended): when the device reports more than one row, whatever the
    ignored set, the dimension filter returns its input unchanged; it does
    so too, whatever the rows, when the ignored set is empty. *)
Theorem filterDisplayDimensions_multi_row_bypass
    (w : World) (dims : DisplayDimensions.t) :
  DisplayDimensions.numRows dims > 1 ∨ configuredIgnored w = ∅ →
  (_filterDisplayDimensions dims w).1 = inr dims.
Proof.
  intros Hcase. rewrite filterDisplayDimensions_run. simpl.
  destruct (decide (configuredIgnored w = ∅)); [done|].
  destruct (decide (DisplayDimensions.numRows dims > 1)); [done|].
  by destruct Hcase.
Qed.

Lemma filterDisplayDimensions_multi_row_bypass_witness :
  (_filterDisplayDimensions (DisplayDimensions.mk 2 8)
     (exampleWorld 8 [3;6])).1 = inr (DisplayDimensions.mk 2 8).
Proof.
  apply (filterDisplayDimensions_multi_row_bypass (exampleWorld 8 [3;6])
           (DisplayDimensions.mk 2 8)).
  left. simpl. lia.
Defined.

(** ** Ignored positions outside the device *)

Lemma emitted_same_membership (L : list Z) (I I' : gset Z) (xs : list Z)
    (li : nat) :
  (∀ x, x ∈ xs → (x ∈ I' ↔ x ∈ I)) →
  emitted L I' xs li = emitted L I xs li.
Proof.
  revert li. induction xs as [|x xs IH]; intros li Hmem; simpl; [done|].
  assert (Hx : x ∈ I' ↔ x ∈ I) by (apply Hmem; left).
  assert (Hxs : ∀ y, y ∈ xs → (y ∈ I' ↔ y ∈ I))
    by (intros y Hy; apply Hmem; by right).
  destruct (decide (x ∈ I')), (decide (x ∈ I)); try tauto;
    f_equal; by apply IH.
Qed.

(** ** Absent and unmapped routing indices *)

(** What the patched route-to does with a concrete position: it calls the
    saved original with it, once. *)
Lemma patchedRouteTo_forwards (w : World) (pos : Z) :
  patchedRouteTo (Some pos) w =
    match _originalRouteTo (manager w) with
    | Some original => emit (RouteToCall original pos) w
    | None => (inl Py.TypeError, w)
    end.
Proof.
  unfold patchedRouteTo. run_monad. by destruct (_originalRouteTo (manager w)).
Qed.

(** C7: a gesture whose stored physical index is absent (the attribute is
    missing, or holds [None]) has routing index [None], whatever the state
    of the manager, so that nothing is translated; a present index is the
    only case that reaches the translation.  The patched route-to called
    with [None] returns normally and leaves the world as it was, its trace
    of host calls included: the original is not invoked, even where calling
    it would raise. *)
Theorem absent_index_is_consumed :
  (∀ manager : Manager,
     getRoutingIndex manager
       {| BrailleDisplayGesture._routingIndex := None |} = None
     ∧ getRoutingIndex manager
         {| BrailleDisplayGesture._routingIndex := Some None |} = None)
  ∧ (∀ (manager : Manager) (p : Z),
       getRoutingIndex manager
         {| BrailleDisplayGesture._routingIndex := Some (Some p) |}
       = _physicalToLogicalIndex manager p)
  ∧ (∀ w : World, patchedRouteTo None w = (inr tt, w))
  ∧ (∀ (w : World) (gesture : BrailleDisplayGesture.t),
       getRoutingIndex (manager w) gesture = None →
       patchedRouteTo (getRoutingIndex (manager w) gesture) w = (inr tt, w)).
Proof.
  split; [done|]. split; [done|]. split; [done|].
  intros w gesture ->. done.
Qed.

(** A press on an ignored cell, and a press on a valid one, with cells 2 and
    5 ignored and the original route-to saved by the patch. *)
Example routing_press_8_2_5 :
  let self := set_originalRouteTo (Some (HostCallable "routeTo"))
                (set_ignoredCells {[2;5]} __init__) in
  let w := withManager (λ _, self) (exampleWorld 8 [3;6]) in
  let press p := {| BrailleDisplayGesture._routingIndex := Some (Some p) |} in
  getRoutingIndex self (press 5) = None
  ∧ trace (patchedRouteTo (getRoutingIndex self (press 5)) w).2 = []
  ∧ getRoutingIndex self (press 6) = Some 4
  ∧ trace (patchedRouteTo (getRoutingIndex self (press 6)) w).2
    = [RouteToCall (HostCallable "routeTo") 4].
Proof. vm_compute. done. Qed.

(** ** The boundary with the configuration *)

Lemma zeroBased_comprehension (cells : list Z) :
  Config.zeroBased cells = (λ c, c - 1) <$> filter (λ c, c > 0) cells.
Proof.
  induction cells as [|c cells IH]; simpl; [done|].
  destruct (decide (c > 0)).
  - rewrite filter_cons_True by done. simpl. by rewrite IH.
  - by rewrite filter_cons_False.
Qed.

Lemma zeroBased_elem (cells : list Z) (x : Z) :
  x ∈ Config.zeroBased cells ↔ ∃ c, c ∈ cells ∧ 1 ≤ c ∧ x = c - 1.
Proof.
  rewrite zeroBased_comprehension, list_elem_of_fmap.
  setoid_rewrite list_elem_of_filter.
  split.
  - intros (c & -> & Hc & Hin). exists c. split; [done|]. lia.
  - intros (c & Hin & Hc & ->). exists c. split; [done|]. split; [lia|done].
Qed.

Lemma configuredIgnored_nonneg (w : World) (i : Z) :
  i ∈ configuredIgnored w → 0 ≤ i.
Proof.
  unfold configuredIgnored, Config.getIgnoredCellsForDisplay.
  rewrite elem_of_list_to_set.
  destruct (Config.getActiveProfile _ _) as [profile|].
  - unfold Config.getIgnoredCellsZeroBased. rewrite zeroBased_elem.
    intros (c & _ & Hc & ->). lia.
  - by intros ?%elem_of_nil.
Qed.

(** C6: ignored positions are non-negative integers, and the snapshot the
    code keeps never holds another: it is empty at creation and afterwards
    what the dimension filter stores, which comes from the 1-based cells
    above zero.  For every [P], every [I] and every set [J] of such
    positions outside [0, P), forward remapping under [I ∪ J] equals forward
    remapping under [I] for every [L], and reverse translation under
    [I ∪ J] equals reverse translation under [I] at every physical index in
    [0, P). *)
Theorem out_of_range_positions_discarded
    (L : list Z) (P : Z) (I J : gset Z) (self : Manager) :
  (∀ j, j ∈ J → 0 ≤ j) →
  (∀ j, j ∈ J → ¬ (0 ≤ j < P)) →
  _remapCellsToPhysical L P (I ∪ J) = _remapCellsToPhysical L P I
  ∧ (∀ p, 0 ≤ p < P →
       _physicalToLogicalIndex (set_ignoredCells (I ∪ J) self) p
       = _physicalToLogicalIndex (set_ignoredCells I self) p)
  ∧ (∀ i, i ∈ _ignoredCells __init__ → 0 ≤ i)
  ∧ (∀ (w : World) (dims : DisplayDimensions.t) i,
       i ∈ _ignoredCells (manager (_filterDisplayDimensions dims w).2) →
       0 ≤ i).
Proof.
  intros Hpos Hout.
  assert (Habove : ∀ j, j ∈ J → P ≤ j).
  { intros j Hj. specialize (Hpos j Hj). specialize (Hout j Hj). lia. }
  split; [|split; [|split]].
  - rewrite !remapCellsToPhysical_emitted. f_equal.
    apply emitted_same_membership. intros x Hx.
    apply elem_of_seqZ in Hx. rewrite elem_of_union.
    split; [|by left]. intros [?|HJ]; [done|].
    specialize (Hout x HJ). lia.
  - intros p Hp. rewrite !physicalToLogicalIndex_closed_form. simpl.
    assert (HpJ : p ∉ J) by (intros HJ; specialize (Habove p HJ); lia).
    assert (Hbelow : filter (λ c, c < p) (I ∪ J) = filter (λ c, c < p) I).
    { apply set_eq. intros x. rewrite !elem_of_filter, elem_of_union.
      split; [|tauto]. intros [Hlt [?|HJ]]; [done|].
      specialize (Habove x HJ). lia. }
    rewrite Hbelow.
    destruct (decide (p ∈ I ∪ J)) as [Hin|Hnin], (decide (p ∈ I)) as [?|?];
      try done.
    + apply elem_of_union in Hin as [?|?]; done.
    + exfalso. apply Hnin, elem_of_union. by left.
  - simpl. by intros i ?%elem_of_empty.
  - intros w dims i. rewrite filterDisplayDimensions_run. simpl.
    apply configuredIgnored_nonneg.
Qed.

Lemma out_of_range_positions_discarded_witness :
  let I : gset Z := {[2;5]} in
  let J : gset Z := {[9;12]} in
  _remapCellsToPhysical [11;12;13;14;15;16] 8 (I ∪ J)
    = _remapCellsToPhysical [11;12;13;14;15;16] 8 I
  ∧ (∀ p, 0 ≤ p < 8 →
       _physicalToLogicalIndex (set_ignoredCells (I ∪ J) __init__) p
       = _physicalToLogicalIndex (set_ignoredCells I __init__) p)
  ∧ (∀ i, i ∈ _ignoredCells __init__ → 0 ≤ i)
  ∧ (∀ (w : World) (dims : DisplayDimensions.t) i,
       i ∈ _ignoredCells (manager (_filterDisplayDimensions dims w).2) →
       0 ≤ i).
Proof.
  intros I J.
  apply (out_of_range_positions_discarded [11;12;13;14;15;16] 8 I J __init__);
    intros j Hj; subst J; set_unfold; lia.
Defined.

(** A configuration kept from a larger device: cells 3, 6, 10 and 13 on a
    device of eight cells are remapped and translated as cells 3 and 6. *)
Example stale_positions_8 :
  let stale : gset Z := list_to_set (Config.zeroBased [3; 6; 10; 13]) in
  let valid : gset Z := list_to_set (Config.zeroBased [3; 6]) in
  _remapCellsToPhysical [11;12;13;14;15;16] 8 stale
    = Some [11;12;0;13;14;0;15;16]
  ∧ _remapCellsToPhysical [11;12;13;14;15;16] 8 valid
    = Some [11;12;0;13;14;0;15;16]
  ∧ _physicalToLogicalIndex (set_ignoredCells stale __init__) <$> Py.range 8
    = _physicalToLogicalIndex (set_ignoredCells valid __init__) <$> Py.range 8.
Proof. vm_compute. done. Qed.

(** C10: [getIgnoredCellsZeroBased] returns [c - 1] for each configured
    [c > 0], in the configured order; every index it returns is
    non-negative, an index is returned exactly when it comes from a
    configured value of at least 1, and so every index that enters the core
    from the configuration of a display is non-negative. *)
Theorem getIgnoredCellsZeroBased_boundary :
  (∀ profile : Config.IgnoredCellsProfile,
     Config.getIgnoredCellsZeroBased profile
       = (λ c, c - 1) <$> filter (λ c, c > 0) (Config.ignoredCells profile)
     ∧ (∀ x, x ∈ Config.getIgnoredCellsZeroBased profile → 0 ≤ x)
     ∧ (∀ x, x ∈ Config.getIgnoredCellsZeroBased profile
             ↔ ∃ c, c ∈ Config.ignoredCells profile ∧ 1 ≤ c ∧ x = c - 1))
  ∧ (∀ (loaded : gmap string Config.IgnoredCellsProfile)
       (display : option BrailleDisplayDriver.t) (x : Z),
       x ∈ Config.getIgnoredCellsForDisplay loaded display → 0 ≤ x)
  ∧ Config.getIgnoredCellsZeroBased (exampleProfile 8 [6; 0; 3; -2; 1])
    = [5; 2; 0].
Proof.
  split; [|split; [|by vm_compute]].
  - intros profile. unfold Config.getIgnoredCellsZeroBased.
    split; [apply zeroBased_comprehension|]. split; [|apply zeroBased_elem].
    intros x (c & _ & Hc & ->)%zeroBased_elem. lia.
  - intros loaded display x. unfold Config.getIgnoredCellsForDisplay.
    destruct (Config.getActiveProfile _ _) as [profile|].
    + unfold Config.getIgnoredCellsZeroBased.
      intros (c & _ & Hc & ->)%zeroBased_elem. lia.
    + by intros ?%elem_of_nil.
Qed.

(** ** What a step can change *)

Lemma fixedPart_display (h h' : option BrailleHandler.t) :
  fixedPart <$> h' = fixedPart <$> h →
  h' ≫= BrailleHandler.display = h ≫= BrailleHandler.display.
Proof.
  destruct h as [h|], h' as [h'|]; simpl; try done.
  unfold fixedPart. intros [= -> _ _]. done.
Qed.

Lemma Frame_configuredIgnored (w w' : World) :
  Frame w w' → configuredIgnored w' = configuredIgnored w.
Proof.
  intros (_ & Hp & _ & Hh & _). unfold configuredIgnored.
  by rewrite Hp, (fixedPart_display _ _ Hh).
Qed.

Lemma Frame_refl (w : World) : Frame w w.
Proof. unfold Frame. tauto. Qed.

Lemma Frame_trans (w1 w2 w3 : World) :
  Frame w1 w2 → Frame w2 w3 → Frame w1 w3.
Proof.
  intros H12 H23. pose proof (Frame_configuredIgnored _ _ H12) as Hcfg.
  destruct H12 as (He & Hp & Hf & Hh & Hb & Hs).
  destruct H23 as (He' & Hp' & Hf' & Hh' & Hb' & Hs').
  unfold Frame. rewrite He', Hp', Hf', Hh', Hb'.
  do 5 (split; [done|]).
  destruct Hs' as [Hs'|[Hreg Hs']].
  - rewrite Hs'. done.
  - right. split; [congruence|]. by rewrite Hs', Hcfg.
Qed.

Lemma preserves_ret {A} (a : A) : preserves (mret a).
Proof. intros w. apply Frame_refl. Qed.

Lemma preserves_raise {A} (e : Py.Exn) : preserves (raise (A:=A) e).
Proof. intros w. apply Frame_refl. Qed.

Lemma preserves_gets {A} (f : World → A) : preserves (gets f).
Proof. intros w. apply Frame_refl. Qed.

Lemma preserves_emit (ev : Event) : preserves (emit ev).
Proof. intros w. unfold Frame. simpl. tauto. Qed.

Lemma preserves_bind {A B} (m : M A) (f : A → M B) :
  preserves m → (∀ a, preserves (f a)) → preserves (m ≫= f).
Proof.
  intros Hm Hf w. unfold mbind, M_bind.
  specialize (Hm w). destruct (m w) as [[e|a] w']; simpl in *; [done|].
  eapply Frame_trans; [done|]. apply Hf.
Qed.

Lemma preserves_recache (held : option (option DisplayDimensions.t)) :
  preserves (modify (recache held)).
Proof.
  intros w. unfold Frame. simpl.
  do 3 (split; [done|]). split; [|tauto].
  by destruct (handler w).
Qed.

Lemma filterDisplayDimensions_frame (dims : DisplayDimensions.t) (w : World) :
  filterRegistered w = true → Frame w (_filterDisplayDimensions dims w).2.
Proof.
  intros Hreg. rewrite filterDisplayDimensions_run. unfold Frame. simpl.
  do 5 (split; [done|]). by right.
Qed.

Section Frames.
Context (host : Host).

Lemma queryDisplayDimensions_run (h : BrailleHandler.t) (w : World) :
  ∃ dims, queryDisplayDimensions h w
          = (inr dims, recache (Some (Some dims)) (refreshed w)).
Proof.
  unfold queryDisplayDimensions, refreshed. run_monad.
  destruct (filterRegistered w).
  - rewrite filterDisplayDimensions_run. simpl. by eexists.
  - simpl. by eexists.
Qed.

Lemma handler_displayDimensions_cases (w : World) (h : BrailleHandler.t) :
  handler w = Some h →
  ∃ dims,
    handler_displayDimensions host w = (inr dims, w)
    ∨ handler_displayDimensions host w
      = (inr dims, recache (Some (Some dims)) (refreshed w)).
Proof.
  intros Hh. unfold handler_displayDimensions. run_monad. rewrite Hh.
  destruct (queryDisplayDimensions_run h w) as [dims Hq].
  destruct (BrailleHandler._displayDimensions h) as [[held|]|].
  - destruct (servesFromCache host h).
    + exists held. by left.
    + exists dims. by right.
  - exists dims. by right.
  - exists dims. by right.
Qed.

Lemma refreshed_frame (w : World) : Frame w (refreshed w).
Proof.
  unfold refreshed. destruct (filterRegistered w) eqn:Hreg.
  - unfold Frame. simpl. do 5 (split; [done|]). by right.
  - apply Frame_refl.
Qed.

Lemma recache_frame (held : option (option DisplayDimensions.t)) (w : World) :
  Frame w (recache held w).
Proof. apply (preserves_recache held w). Qed.

Lemma handler_displayDimensions_preserves :
  preserves (handler_displayDimensions host).
Proof.
  intros w. destruct (handler w) as [h|] eqn:Hh.
  - destruct (handler_displayDimensions_cases w h Hh) as [dims [-> | ->]].
    + apply Frame_refl.
    + simpl. eapply Frame_trans; [apply refreshed_frame|apply recache_frame].
  - unfold handler_displayDimensions. run_monad. rewrite Hh. apply Frame_refl.
Qed.

(** Splits a computation along its binds and branches. *)
Ltac frame :=
  repeat first
    [ apply preserves_ret | apply preserves_raise | apply preserves_gets
    | apply preserves_emit | apply handler_displayDimensions_preserves
    | apply preserves_recache
    | apply preserves_bind; [|intros ?]
    | match goal with
      | |- preserves (match ?x with _ => _ end) => destruct x
      end ].

Lemma handler_displaySize_preserves : preserves (handler_displaySize host).
Proof. unfold handler_displaySize. frame. Qed.

Lemma patchedWriteCells_preserves (cells : list Z) :
  preserves (patchedWriteCells host cells).
Proof.
  unfold patchedWriteCells. cbv zeta.
  apply preserves_bind; [apply handler_displaySize_preserves|intros ?].
  frame.
Qed.

Lemma handler_update_preserves : preserves (handler_update host).
Proof.
  unfold handler_update.
  apply preserves_bind; [frame|intros [h|]]; [|frame].
  apply preserves_bind; [frame|intros _].
  apply preserves_bind; [frame|intros write].
  destruct write as [[]|]; first [apply patchedWriteCells_preserves | frame].
Qed.

Lemma refreshDisplay_preserves : preserves (_refreshDisplay host).
Proof.
  unfold _refreshDisplay.
  apply preserves_bind; [frame|intros [h|]]; [|frame].
  destruct (BrailleHandler.display h); [|frame].
  apply preserves_bind; [frame|intros _].
  apply preserves_bind; [frame|intros _].
  apply handler_update_preserves.
Qed.

End Frames.

(** ** The coordinator *)

Lemma Consistent_frame (original : Callable * Callable * Callable)
    (w w' : World) :
  Frame w w' → Consistent original w → Consistent original w'.
Proof.
  intros (He & _ & Hf & _ & Hb & _). unfold Consistent, bookkeeping in *.
  injection Hb as -> -> -> ->. by rewrite He, Hf.
Qed.

Lemma patchedRouteTo_preserves (windowPos : option Z) :
  preserves (patchedRouteTo windowPos).
Proof.
  unfold patchedRouteTo. destruct windowPos; [|apply preserves_ret].
  apply preserves_bind; [apply preserves_gets|intros self].
  destruct (_originalRouteTo self);
    [apply preserves_emit|apply preserves_raise].
Qed.

Section Coordinator.
Context (host : Host).

Lemma registerHandlers_registered (w : World) :
  _isRegistered (manager w) = true → registerHandlers host w = (inr tt, w).
Proof. intros Hreg. unfold registerHandlers. run_monad. by rewrite Hreg. Qed.

Lemma unregisterHandlers_unregistered (w : World) :
  _isRegistered (manager w) = false → unregisterHandlers host w = (inr tt, w).
Proof. intros Hreg. unfold unregisterHandlers. run_monad. by rewrite Hreg. Qed.

Lemma registerHandlers_consistent (original : Callable * Callable * Callable)
    (w : World) :
  Consistent original w →
  Consistent original (registerHandlers host w).2
  ∧ _isRegistered (manager (registerHandlers host w).2) = true.
Proof.
  intros Hc. destruct (_isRegistered (manager w)) eqn:Hreg.
  - by rewrite registerHandlers_registered.
  - unfold registerHandlers. run_monad. rewrite Hreg.
    match goal with |- context [_refreshDisplay host ?wp] =>
      pose proof (refreshDisplay_preserves host wp) as Hframe;
      assert (Hp : Consistent original wp)
    end.
    { unfold Consistent in *. rewrite Hreg in Hc. simpl.
      unfold entryPoints in Hc. destruct original as [[? ?] ?].
      injection Hc as -> -> ->. done. }
    split; [by eapply Consistent_frame|].
    destruct Hframe as (_ & _ & _ & _ & Hb & _).
    unfold bookkeeping in Hb. by injection Hb as _ _ _ ->.
Qed.

Lemma unregisterHandlers_consistent (original : Callable * Callable * Callable)
    (w : World) :
  Consistent original w →
  Consistent original (unregisterHandlers host w).2
  ∧ _isRegistered (manager (unregisterHandlers host w).2) = false.
Proof.
  intros Hc. destruct (_isRegistered (manager w)) eqn:Hreg.
  - unfold Consistent in Hc. rewrite Hreg in Hc.
    destruct Hc as (_ & Horig & _). injection Horig as Hw Hi Hr.
    unfold unregisterHandlers, _unpatchWriteCells, _unpatchRoutingIndex,
      _unpatchRouteTo. run_monad. rewrite Hreg. simpl.
    rewrite Hw. simpl. rewrite Hi. simpl. rewrite Hr. simpl.
    match goal with |- context [_refreshDisplay host ?wp] =>
      pose proof (refreshDisplay_preserves host wp) as Hframe;
      assert (Hp : Consistent original wp)
    end.
    { unfold Consistent, entryPoints. simpl. by destruct original as [[? ?] ?]. }
    split; [by eapply Consistent_frame|].
    destruct Hframe as (_ & _ & _ & _ & Hb & _).
    unfold bookkeeping in Hb. by injection Hb as _ _ _ ->.
  - by rewrite unregisterHandlers_unregistered.
Qed.

Lemma step_consistent (original : Callable * Callable * Callable)
    (op : Op) (w : World) :
  Consistent original w → Consistent original (step host op w).2.
Proof.
  intros Hc. destruct op as [| | | | |windowPos|saved]; simpl.
  - by apply registerHandlers_consistent.
  - by apply unregisterHandlers_consistent.
  - eapply Consistent_frame; [apply refreshDisplay_preserves|done].
  - eapply Consistent_frame; [|done].
    apply (preserves_bind (handler_displayDimensions host) (λ _, mret tt));
      [apply handler_displayDimensions_preserves|intros; apply preserves_ret].
  - eapply Consistent_frame; [apply handler_update_preserves|done].
  - eapply Consistent_frame; [|done].
    apply (preserves_bind (gets routeTo)); [apply preserves_gets|].
    intros route.
    destruct route as [[]|];
      try apply patchedRouteTo_preserves; try apply preserves_raise;
      destruct windowPos; first [apply preserves_emit|apply preserves_raise].
  - done.
Qed.

Lemma run_consistent (original : Callable * Callable * Callable)
    (ops : list Op) (w : World) :
  Consistent original w → Consistent original (run host ops w).
Proof.
  revert w. induction ops as [|op ops IH]; intros w Hc; simpl; [done|].
  apply IH. by apply step_consistent.
Qed.

End Coordinator.

(** What [registerHandlers] leaves behind on an unregistered manager: the
    three patches installed, and saved what the entry points held, [None]
    included. *)
Lemma registerHandlers_saves (host : Host) (w : World) :
  _isRegistered (manager w) = false →
  let w1 := (registerHandlers host w).2 in
  entryPoints w1
  = (Some PatchedWriteCells, Some PatchedRoutingIndex, Some PatchedRouteTo)
  ∧ bookkeeping (manager w1) = (routingIndex w, _writeCells w, routeTo w, true).
Proof.
  intros Hreg. unfold registerHandlers. run_monad. rewrite Hreg.
  match goal with |- context [_refreshDisplay host ?wp] =>
    destruct (refreshDisplay_preserves host wp) as (He & _ & _ & _ & Hb & _)
  end.
  simpl. by rewrite He, Hb.
Qed.

(** What [unregisterHandlers] leaves behind on a registered manager: an
    entry point is given back its saved original when that is not [None],
    and is left as it stands when it is. *)
Lemma unregisterHandlers_restores (host : Host) (w : World) :
  _isRegistered (manager w) = true →
  let w2 := (unregisterHandlers host w).2 in
  _isRegistered (manager w2) = false
  ∧ _writeCells w2
    = from_option Some (_writeCells w) (_originalWriteCells (manager w))
  ∧ routingIndex w2
    = from_option Some (routingIndex w)
        (_originalRoutingIndexProperty (manager w))
  ∧ routeTo w2 = from_option Some (routeTo w) (_originalRouteTo (manager w)).
Proof.
  intros Hreg.
  unfold unregisterHandlers, _unpatchWriteCells, _unpatchRoutingIndex,
    _unpatchRouteTo. run_monad. rewrite Hreg. simpl.
  destruct (_originalWriteCells (manager w)); simpl;
    destruct (_originalRoutingIndexProperty (manager w)); simpl;
    destruct (_originalRouteTo (manager w)); simpl;
    match goal with |- context [_refreshDisplay host ?wp] =>
      destruct (refreshDisplay_preserves host wp) as (He & _ & _ & _ & Hb & _)
    end;
    unfold entryPoints, bookkeeping in He, Hb; simpl in He, Hb;
    injection He as -> -> ->; by injection Hb as _ _ _ ->.
Qed.

(** C8: the first two parts of the claim hold: a registered manager ignores
    [registerHandlers] and an unregistered one ignores
    [unregisterHandlers].  The third fails where the host holds [None] in
    [routingIndex]: registering saves that [None], and unregistering, which
    takes a saved [None] for nothing saved, leaves the patched property
    installed on an unregistered manager, so the entry points are not the
    host's again. *)
Theorem unregisterHandlers_skips_none_original (host : Host) (w0 : World) :
  _isRegistered (manager w0) = false →
  routingIndex w0 = None →
  let w1 := (registerHandlers host w0).2 in
  let w2 := (unregisterHandlers host w1).2 in
  registerHandlers host w1 = (inr tt, w1)
  ∧ unregisterHandlers host w0 = (inr tt, w0)
  ∧ _originalRoutingIndexProperty (manager w1) = None
  ∧ _isRegistered (manager w2) = false
  ∧ routingIndex w2 = Some PatchedRoutingIndex
  ∧ entryPoints w2 ≠ entryPoints w0.
Proof.
  intros Hreg Hnone w1 w2.
  destruct (registerHandlers_saves host w0 Hreg) as [He1 Hb1].
  fold w1 in He1, Hb1. unfold bookkeeping in Hb1.
  injection Hb1 as Hi1 Hw1 Hr1 Hreg1.
  destruct (unregisterHandlers_restores host w1 Hreg1)
    as (Hreg2 & _ & Hi2 & _). fold w2 in Hreg2, Hi2.
  unfold entryPoints in He1. injection He1 as _ Hp1 _.
  rewrite Hi1, Hnone in Hi2. simpl in Hi2. rewrite Hp1 in Hi2.
  split; [by apply registerHandlers_registered|].
  split; [by apply unregisterHandlers_unregistered|].
  split; [by rewrite Hi1|]. split; [done|]. split; [done|].
  unfold entryPoints. rewrite Hi2, Hnone. by intros [= _ ? _].
Qed.

Lemma unregisterHandlers_skips_none_original_witness :
  let host := exampleHost in
  let w0 := withRoutingIndex None (exampleWorld 8 [3;6]) in
  let w1 := (registerHandlers host w0).2 in
  let w2 := (unregisterHandlers host w1).2 in
  registerHandlers host w1 = (inr tt, w1)
  ∧ unregisterHandlers host w0 = (inr tt, w0)
  ∧ _originalRoutingIndexProperty (manager w1) = None
  ∧ _isRegistered (manager w2) = false
  ∧ routingIndex w2 = Some PatchedRoutingIndex
  ∧ entryPoints w2 ≠ entryPoints w0.
Proof.
  intros host w0.
  apply (unregisterHandlers_skips_none_original host w0); reflexivity.
Defined.

(** X19: when the host's three entry points hold function objects, the
    coordinator is a two-state machine.  A registered manager ignores
    [registerHandlers], an unregistered one ignores [unregisterHandlers]:
    the world, its trace of host calls included, stays as it was, so the
    hooks are installed and the originals saved once.  Along any history
    that starts unregistered the manager is either registered, with the
    three entry points patched, the host's originals saved and the filter
    installed, or unregistered, with the three entry points ([_writeCells],
    [routingIndex], [routeTo]) as the host had them.  [registerHandlers]
    leads to the first state, [unregisterHandlers] to the second, and
    registering then unregistering restores the three entry points. *)
Theorem coordinator_two_states (host : Host) (w0 : World) (ops : list Op)
    (original : Callable * Callable * Callable) :
  _isRegistered (manager w0) = false →
  entryPoints w0 = hostEntryPoints original →
  (∀ w, _isRegistered (manager w) = true →
        registerHandlers host w = (inr tt, w))
  ∧ (∀ w, _isRegistered (manager w) = false →
          unregisterHandlers host w = (inr tt, w))
  ∧ Consistent original (run host ops w0)
  ∧ _isRegistered (manager (run host (ops ++ [Register]) w0)) = true
  ∧ _isRegistered (manager (run host (ops ++ [Unregister]) w0)) = false
  ∧ entryPoints (run host (ops ++ [Unregister]) w0) = entryPoints w0
  ∧ entryPoints (run host [Register; Unregister] w0) = entryPoints w0.
Proof.
  intros Hreg Horiginal.
  assert (H0 : Consistent original w0)
    by (unfold Consistent; by rewrite Hreg).
  assert (Hops : Consistent original (run host ops w0))
    by (by apply run_consistent).
  assert (Hlast : ∀ op, run host (ops ++ [op]) w0
                        = (step host op (run host ops w0)).2)
    by (intros op; unfold run; by rewrite foldl_app).
  destruct (registerHandlers_consistent host _ _ Hops) as [_ Hr].
  destruct (unregisterHandlers_consistent host _ _ Hops) as [Hcu Hu].
  split; [apply registerHandlers_registered|].
  split; [apply unregisterHandlers_unregistered|].
  split; [done|]. rewrite !Hlast. simpl.
  split; [done|]. split; [done|]. rewrite Horiginal. split.
  - unfold Consistent in Hcu. by rewrite Hu in Hcu.
  - destruct (registerHandlers_consistent host _ _ H0) as [Hc1 _].
    destruct (unregisterHandlers_consistent host _ _ Hc1) as [Hc2 Hu2].
    unfold Consistent in Hc2. by rewrite Hu2 in Hc2.
Qed.

Lemma coordinator_two_states_witness :
  let host := exampleHost in
  let w0 := exampleWorld 8 [3;6] in
  let ops := [Register; Register; RefreshIgnoredCells] in
  let original :=
    (HostCallable "_writeCells", HostCallable "routingIndex",
     HostCallable "routeTo") in
  (∀ w, _isRegistered (manager w) = true →
        registerHandlers host w = (inr tt, w))
  ∧ (∀ w, _isRegistered (manager w) = false →
          unregisterHandlers host w = (inr tt, w))
  ∧ Consistent original (run host ops w0)
  ∧ _isRegistered (manager (run host (ops ++ [Register]) w0)) = true
  ∧ _isRegistered (manager (run host (ops ++ [Unregister]) w0)) = false
  ∧ entryPoints (run host (ops ++ [Unregister]) w0) = entryPoints w0
  ∧ entryPoints (run host [Register; Unregister] w0) = entryPoints w0.
Proof.
  intros host w0 ops original.
  apply (coordinator_two_states host w0 ops original); reflexivity.
Defined.

(** Registering on a device of eight cells with cells 2 and 5 ignored
    installs the filter and re-renders through the patched write; registering
    again adds nothing; unregistering restores the host's entry points and
    re-renders through the host's own write.  With [None] in the host's
    [routingIndex], unregistering restores the other two only. *)
Example register_unregister_8_2_5 :
  let w1 := run exampleHost [Register] (exampleWorld 8 [3;6]) in
  let w2 := run exampleHost [Register; Register] (exampleWorld 8 [3;6]) in
  let w3 := run exampleHost [Register; Unregister] (exampleWorld 8 [3;6]) in
  let w4 := run exampleHost [Register; Unregister]
              (withRoutingIndex None (exampleWorld 8 [3;6])) in
  trace w1 = [FilterRegister; HandlerUpdate;
              PreWriteCellsNotify [11;12;13;14;15;16] "" 6;
              DisplayCall [11;12;0;13;14;0;15;16]]
  ∧ entryPoints w1
    = (Some PatchedWriteCells, Some PatchedRoutingIndex, Some PatchedRouteTo)
  ∧ _ignoredCells (manager w1) = {[2;5]}
  ∧ w2 = w1
  ∧ entryPoints w3 = entryPoints (exampleWorld 8 [3;6])
  ∧ trace w3 = trace w1 ++
      [FilterUnregister; HandlerUpdate;
       WriteCellsCall (HostCallable "_writeCells") [11;12;13;14;15;16]]
  ∧ entryPoints w4
    = (Some (HostCallable "_writeCells"), Some PatchedRoutingIndex,
       Some (HostCallable "routeTo")).
Proof. vm_compute. done. Qed.

(** ** The snapshot and its single writer *)

Lemma UpToDate_refreshed (w : World) : UpToDate w → refreshed w = w.
Proof.
  intros Hup. unfold refreshed.
  destruct (filterRegistered w) eqn:Hreg; [|done].
  rewrite <-(Hup Hreg). by destruct w as [[] ? ? ? ? ? ? ?].
Qed.

Lemma recache_same (w : World) (h : BrailleHandler.t) :
  handler w = Some h → recache (BrailleHandler._displayDimensions h) w = w.
Proof.
  intros Hh. destruct w as [? hw ? ? ? ? ? ?]. simpl in Hh. subst hw.
  by destruct h.
Qed.

Section Snapshot.
Context (host : Host).

(** With the snapshot up to date, a dimension query changes nothing but the
    dimensions the handler holds. *)
Lemma handler_displayDimensions_stable (w : World) (h : BrailleHandler.t) :
  handler w = Some h → UpToDate w →
  ∃ dims held, handler_displayDimensions host w = (inr dims, recache held w).
Proof.
  intros Hh Hup.
  destruct (handler_displayDimensions_cases host w h Hh) as [dims [E|E]].
  - exists dims, (BrailleHandler._displayDimensions h).
    by rewrite recache_same.
  - exists dims, (Some (Some dims)). by rewrite E, UpToDate_refreshed.
Qed.

(** Runs the next dimension query of the goal, in a world whose handler and
    snapshot are those of the hypotheses. *)
Ltac query Hh Hd Hup :=
  match goal with
  | |- context [handler_displayDimensions ?hst ?W] =>
      let dims := fresh "dims" in
      let held := fresh "held" in
      let E := fresh "E" in
      edestruct (handler_displayDimensions_stable W) as (dims & held & E);
        [ simpl; rewrite Hh; reflexivity
        | unfold UpToDate, configuredIgnored; simpl; rewrite Hh; simpl;
          rewrite ?Hd; exact Hup
        | rewrite E; simpl ]
  end.

(** Runs the transmission at the end of [patchedWriteCells], for the given
    logical cell count and cells. *)
Ltac transmit hst d lc out :=
  let Ts := fresh "Ts" in
  let Ack := fresh "Ack" in
  let Rs := fresh "Rs" in
  destruct (BrailleDisplayDriver.isThreadSafe d) eqn:Ts;
  destruct (BrailleDisplayDriver._awaitingAck d) eqn:Ack;
  destruct (displayRaises hst d out) eqn:Rs;
  simpl; eexists _, lc, out; unfold transmission; rewrite ?Ts, ?Ack, ?Rs;
  (split; [reflexivity|]); (split; [reflexivity|]);
  (split; [simpl; by rewrite <-?app_assoc|]).

Lemma patchedWriteCells_run (cells : list Z) (w : World)
    (h : BrailleHandler.t) (d : BrailleDisplayDriver.t) :
  handler w = Some h →
  BrailleHandler.display h = Some d →
  BrailleDisplayDriver.numCells d ≠ 0 →
  UpToDate w →
  ∃ w' lc out,
    patchedWriteCells host cells w = (inr tt, w')
    ∧ manager w' = manager w
    ∧ trace w' = trace w
        ++ PreWriteCellsNotify cells (BrailleHandler._rawText h) lc
           :: transmission host d out
    ∧ ((_ignoredCells (manager w) ≠ ∅
        ∧ ∃ r1 r2,
            _remapCellsToPhysical
              (_normalizeCellArraySize host cells lc r1 lc r2)
              (BrailleDisplayDriver.numCells d) (_ignoredCells (manager w))
            = Some out)
       ∨ (∃ r, out = _normalizeCellArraySize host cells lc r
                       (BrailleDisplayDriver.numCells d)
                       (BrailleDisplayDriver.numRows d))).
Proof.
  intros Hh Hd Hcells Hup.
  assert (Hup' : filterRegistered w = true →
                 _ignoredCells (manager w)
                 = list_to_set (Config.getIgnoredCellsForDisplay (profiles w)
                                  (Some d))).
  { intros Hreg. rewrite (Hup Hreg). unfold configuredIgnored.
    rewrite Hh. simpl. by rewrite Hd. }
  unfold patchedWriteCells, handler_displaySize. run_monad.
  query Hh Hd Hup'. rewrite Hh. simpl. rewrite Hd. simpl.
  rewrite decide_False by done. simpl.
  destruct (decide (_ignoredCells (manager w) = ∅)) as [Hempty|Hne].
  - query Hh Hd Hup'.
    transmit host d (displaySizeOf host dims)
      (_normalizeCellArraySize host cells (displaySizeOf host dims)
         (DisplayDimensions.numRows dims0) (BrailleDisplayDriver.numCells d)
         (BrailleDisplayDriver.numRows d)); right; by eexists.
  - query Hh Hd Hup'.
    destruct (decide (DisplayDimensions.numRows dims0 = 1)) as [Hrow|Hrow];
      simpl.
    + query Hh Hd Hup'. query Hh Hd Hup'.
      rewrite remapCellsToPhysical_emitted. simpl.
      transmit host d (displaySizeOf host dims)
        (emitted
           (_normalizeCellArraySize host cells (displaySizeOf host dims)
              (DisplayDimensions.numRows dims1) (displaySizeOf host dims)
              (DisplayDimensions.numRows dims2))
           (_ignoredCells (manager w))
           (Py.range (BrailleDisplayDriver.numCells d)) 0);
        left; (split; [done|]); eexists _, _;
        apply remapCellsToPhysical_emitted.
    + query Hh Hd Hup'.
      transmit host d (displaySizeOf host dims)
        (_normalizeCellArraySize host cells (displaySizeOf host dims)
           (DisplayDimensions.numRows dims1) (BrailleDisplayDriver.numCells d)
           (BrailleDisplayDriver.numRows d)); right; by eexists.
Qed.

End Snapshot.

Section SingleWriter.
Context (host : Host).

(** After its guard, [registerHandlers] is a refresh in a world where the
    filter is installed and the snapshot, the configuration and the handler
    are as before. *)
Lemma registerHandlers_world (w : World) :
  _isRegistered (manager w) = false →
  ∃ wp, registerHandlers host w = _refreshDisplay host wp
        ∧ filterRegistered wp = true
        ∧ _ignoredCells (manager wp) = _ignoredCells (manager w)
        ∧ profiles wp = profiles w
        ∧ handler wp = handler w.
Proof.
  intros Hreg. unfold registerHandlers. run_monad. rewrite Hreg.
  eexists. split; [reflexivity|]. done.
Qed.

(** After its guard, [unregisterHandlers] is a refresh in a world where the
    filter is no longer installed. *)
Lemma unregisterHandlers_world (w : World) :
  _isRegistered (manager w) = true →
  ∃ wp, unregisterHandlers host w = _refreshDisplay host wp
        ∧ filterRegistered wp = false
        ∧ _ignoredCells (manager wp) = _ignoredCells (manager w)
        ∧ profiles wp = profiles w
        ∧ handler wp = handler w.
Proof.
  intros Hreg.
  unfold unregisterHandlers, _unpatchWriteCells, _unpatchRoutingIndex,
    _unpatchRouteTo. run_monad. rewrite Hreg. simpl.
  destruct (_originalWriteCells (manager w)); simpl;
    destruct (_originalRoutingIndexProperty (manager w)); simpl;
    destruct (_originalRouteTo (manager w)); simpl;
    (eexists; split; [reflexivity|done]).
Qed.

(** The steps that are neither a registration nor a saving respect the
    frame. *)
Lemma step_frame (op : Op) (w : World) :
  match op with
  | Register | Unregister | SaveProfiles _ => True
  | _ => Frame w (step host op w).2
  end.
Proof.
  destruct op as [| | | | |windowPos|saved]; simpl; try done.
  - apply refreshDisplay_preserves.
  - apply (preserves_bind (handler_displayDimensions host) (λ _, mret tt));
      [apply handler_displayDimensions_preserves|intros; apply preserves_ret].
  - apply handler_update_preserves.
  - apply (preserves_bind (gets routeTo)); [apply preserves_gets|].
    intros route.
    destruct route as [[]|];
      try apply patchedRouteTo_preserves; try apply preserves_raise;
      destruct windowPos; first [apply preserves_emit|apply preserves_raise].
Qed.

Lemma Frame_snapshot (w wp w' : World) :
  _ignoredCells (manager wp) = _ignoredCells (manager w) →
  profiles wp = profiles w →
  handler wp = handler w →
  Frame wp w' →
  fixedPart <$> handler w' = fixedPart <$> handler w
  ∧ profiles w' = profiles w
  ∧ (_ignoredCells (manager w') = _ignoredCells (manager w)
     ∨ _ignoredCells (manager w') = configuredIgnored w)
  ∧ (filterRegistered wp = false →
     _ignoredCells (manager w') = _ignoredCells (manager w)).
Proof.
  intros Hs Hp Hh (_ & Hp' & _ & Hh' & _ & Hs').
  rewrite Hh', Hp', Hh, Hp. do 2 (split; [done|]).
  assert (Hcfg : configuredIgnored wp = configuredIgnored w)
    by (unfold configuredIgnored; by rewrite Hp, Hh).
  rewrite <-Hs, <-Hcfg. split.
  - destruct Hs' as [?|[_ ?]]; [by left|by right].
  - intros Hreg. destruct Hs' as [?|[? _]]; [done|congruence].
Qed.

(** Every step leaves the snapshot as it was or sets it to the configured
    set; without the filter installed, only a registration changes it. *)
Lemma step_snapshot (op : Op) (w : World) :
  fixedPart <$> handler (step host op w).2 = fixedPart <$> handler w
  ∧ (keepsProfiles op = true → profiles (step host op w).2 = profiles w)
  ∧ (_ignoredCells (manager (step host op w).2) = _ignoredCells (manager w)
     ∨ _ignoredCells (manager (step host op w).2) = configuredIgnored w)
  ∧ (filterRegistered w = false → op ≠ Register →
     _ignoredCells (manager (step host op w).2) = _ignoredCells (manager w)).
Proof.
  pose proof (step_frame op w) as Hframe.
  destruct op as [| | | | |windowPos|saved]; simpl in *.
  - destruct (_isRegistered (manager w)) eqn:Hreg.
    + rewrite registerHandlers_registered by done. simpl. tauto.
    + destruct (registerHandlers_world w Hreg) as (wp & -> & _ & Hs & Hp & Hh).
      destruct (Frame_snapshot w wp _ Hs Hp Hh
                  (refreshDisplay_preserves host wp)) as (? & ? & ? & _).
      tauto.
  - destruct (_isRegistered (manager w)) eqn:Hreg.
    + destruct (unregisterHandlers_world w Hreg)
        as (wp & -> & Hoff & Hs & Hp & Hh).
      destruct (Frame_snapshot w wp _ Hs Hp Hh
                  (refreshDisplay_preserves host wp)) as (? & ? & ? & Hsame).
      specialize (Hsame Hoff). tauto.
    + rewrite unregisterHandlers_unregistered by done. simpl. tauto.
  - destruct (Frame_snapshot w w _ eq_refl eq_refl eq_refl Hframe)
      as (? & ? & ? & ?). tauto.
  - destruct (Frame_snapshot w w _ eq_refl eq_refl eq_refl Hframe)
      as (? & ? & ? & ?). tauto.
  - destruct (Frame_snapshot w w _ eq_refl eq_refl eq_refl Hframe)
      as (? & ? & ? & ?). tauto.
  - destruct (Frame_snapshot w w _ eq_refl eq_refl eq_refl Hframe)
      as (? & ? & ? & ?). tauto.
  - split; [done|]. split; [done|]. split; [by left|done].
Qed.

(** A history that saves no configuration keeps a current snapshot
    current. *)
Lemma run_current (ops : list Op) (w : World) :
  forallb keepsProfiles ops = true →
  _ignoredCells (manager w) = configuredIgnored w →
  _ignoredCells (manager (run host ops w)) = _ignoredCells (manager w)
  ∧ profiles (run host ops w) = profiles w
  ∧ fixedPart <$> handler (run host ops w) = fixedPart <$> handler w.
Proof.
  revert w. induction ops as [|op ops IH]; intros w Hops Hcur; simpl; [done|].
  simpl in Hops. apply andb_true_iff in Hops as [Hop Hops].
  destruct (step_snapshot op w) as (Hh & Hp & Hs & _).
  specialize (Hp Hop).
  assert (Hs' : _ignoredCells (manager (step host op w).2)
                = _ignoredCells (manager w))
    by (destruct Hs as [?|?]; congruence).
  assert (Hcfg : configuredIgnored (step host op w).2 = configuredIgnored w)
    by (unfold configuredIgnored; by rewrite Hp, (fixedPart_display _ _ Hh)).
  destruct (IH (step host op w).2 Hops) as (IHs & IHp & IHh);
    [congruence|].
  fold (run host ops (step host op w).2).
  rewrite IHs, IHp, IHh. done.
Qed.

End SingleWriter.

Lemma fixedPart_Some (o : option BrailleHandler.t) (h : BrailleHandler.t) :
  fixedPart <$> o = fixedPart <$> Some h →
  ∃ h', o = Some h'
        ∧ BrailleHandler.display h' = BrailleHandler.display h
        ∧ BrailleHandler._rawText h' = BrailleHandler._rawText h.
Proof.
  destruct o as [h'|]; simpl; [|done]. unfold fixedPart.
  intros [= Hd Ht _]. by exists h'.
Qed.

(** C9: the manual refresh notification respects the frame: of the manager
    it changes at most the snapshot, and that only to the configured set and
    only with the dimension filter installed; without the filter it leaves
    the snapshot alone.  No step of a history sets the snapshot to anything
    but the configured set, and without the filter installed only a
    registration changes it, while the dimension filter always stores the
    configured set.  After a notification, a run of the dimension filter
    under a saved configuration stores the set of that configuration, it
    stays the snapshot along any further history that saves nothing, and a
    write that follows hands the device either the buffer remapped with that
    set or, when remapping is bypassed, the resized buffer. *)
Theorem snapshot_single_writer (host : Host) (w : World)
    (h : BrailleHandler.t) (d : BrailleDisplayDriver.t)
    (saved : gmap string Config.IgnoredCellsProfile)
    (dims : DisplayDimensions.t) (ops : list Op) (cells : list Z) :
  handler w = Some h →
  BrailleHandler.display h = Some d →
  BrailleDisplayDriver.numCells d ≠ 0 →
  forallb keepsProfiles ops = true →
  Frame w (refreshIgnoredCells host w).2
  ∧ (filterRegistered w = false →
     _ignoredCells (manager (refreshIgnoredCells host w).2)
     = _ignoredCells (manager w))
  ∧ (∀ op v,
       _ignoredCells (manager (step host op v).2) = _ignoredCells (manager v)
       ∨ _ignoredCells (manager (step host op v).2) = configuredIgnored v)
  ∧ (∀ op v, filterRegistered v = false → op ≠ Register →
       _ignoredCells (manager (step host op v).2) = _ignoredCells (manager v))
  ∧ (∀ query v,
       _ignoredCells (manager (_filterDisplayDimensions query v).2)
       = configuredIgnored v)
  ∧ (let C : gset Z :=
       list_to_set (Config.getIgnoredCellsForDisplay saved (Some d)) in
     let w1 := (refreshIgnoredCells host w).2 in
     let w2 := (_filterDisplayDimensions dims (withProfiles saved w1)).2 in
     let w3 := run host ops w2 in
     _ignoredCells (manager w2) = C
     ∧ _ignoredCells (manager w3) = C
     ∧ ∃ w4 lc out,
         patchedWriteCells host cells w3 = (inr tt, w4)
         ∧ trace w4 = trace w3
             ++ PreWriteCellsNotify cells (BrailleHandler._rawText h) lc
                :: transmission host d out
         ∧ ((C ≠ ∅
             ∧ ∃ r1 r2,
                 _remapCellsToPhysical
                   (_normalizeCellArraySize host cells lc r1 lc r2)
                   (BrailleDisplayDriver.numCells d) C = Some out)
            ∨ (∃ r, out = _normalizeCellArraySize host cells lc r
                            (BrailleDisplayDriver.numCells d)
                            (BrailleDisplayDriver.numRows d)))).
Proof.
  intros Hh Hd Hcells Hops.
  pose proof (refreshDisplay_preserves host w) as Hframe.
  split; [done|]. split.
  { intros Hoff. destruct Hframe as (_ & _ & _ & _ & _ & [?|[? _]]);
      [done|congruence]. }
  split; [intros op v; by destruct (step_snapshot host op v) as (_ & _ & ? & _)|].
  split; [intros op v; by destruct (step_snapshot host op v) as (_ & _ & _ & ?)|].
  split; [intros query v; by rewrite filterDisplayDimensions_run|].
  intros C w1 w2 w3.
  assert (Hh1 : fixedPart <$> handler w1 = fixedPart <$> Some h).
  { subst w1. unfold refreshIgnoredCells.
    destruct Hframe as (_ & _ & _ & Hfix & _). by rewrite Hfix, Hh. }
  destruct (fixedPart_Some _ _ Hh1) as (h1 & Hw1 & Hd1 & Ht1).
  assert (Hcfg2 : configuredIgnored w2 = C).
  { subst w2. rewrite filterDisplayDimensions_run. unfold configuredIgnored.
    simpl. rewrite Hw1. simpl. by rewrite Hd1, Hd. }
  assert (Hs2 : _ignoredCells (manager w2) = C).
  { subst w2. rewrite filterDisplayDimensions_run. simpl.
    unfold configuredIgnored. simpl. rewrite Hw1. simpl. by rewrite Hd1, Hd. }
  assert (Hh2 : handler w2 = Some h1)
    by (subst w2; by rewrite filterDisplayDimensions_run).
  destruct (run_current host ops w2 Hops) as (Hs3 & Hp3 & Hh3);
    [congruence|].
  fold w3 in Hs3, Hp3, Hh3. rewrite Hh2 in Hh3.
  destruct (fixedPart_Some _ _ Hh3) as (h3 & Hw3 & Hd3 & Ht3).
  assert (Hcfg3 : configuredIgnored w3 = C).
  { rewrite <-Hcfg2. unfold configuredIgnored.
    by rewrite Hp3, Hw3, Hh2; simpl; rewrite Hd3. }
  split; [done|]. split; [congruence|].
  destruct (patchedWriteCells_run host cells w3 h3 d Hw3) as
    (w4 & lc & out & Hrun & _ & Htrace & Hout);
    [congruence|done|intros _; congruence|].
  exists w4, lc, out. split; [done|].
  split; [by rewrite Htrace, Ht3, Ht1|].
  by rewrite Hs3, Hs2 in Hout.
Qed.

Lemma snapshot_single_writer_witness :
  let host := exampleHost in
  let w := run exampleHost [Register] (exampleWorld 8 [3;6]) in
  let h := exampleHandler 8 in
  let d := exampleDisplay 8 in
  let saved := exampleProfiles 8 [1;4] in
  let dims := DisplayDimensions.mk 1 8 in
  let ops := [Render; RouteTo None; DimensionQuery] in
  let cells := [21;22;23;24;25;26] in
  Frame w (refreshIgnoredCells host w).2
  ∧ (filterRegistered w = false →
     _ignoredCells (manager (refreshIgnoredCells host w).2)
     = _ignoredCells (manager w))
  ∧ (∀ op v,
       _ignoredCells (manager (step host op v).2) = _ignoredCells (manager v)
       ∨ _ignoredCells (manager (step host op v).2) = configuredIgnored v)
  ∧ (∀ op v, filterRegistered v = false → op ≠ Register →
       _ignoredCells (manager (step host op v).2) = _ignoredCells (manager v))
  ∧ (∀ query v,
       _ignoredCells (manager (_filterDisplayDimensions query v).2)
       = configuredIgnored v)
  ∧ (let C : gset Z :=
       list_to_set (Config.getIgnoredCellsForDisplay saved (Some d)) in
     let w1 := (refreshIgnoredCells host w).2 in
     let w2 := (_filterDisplayDimensions dims (withProfiles saved w1)).2 in
     let w3 := run host ops w2 in
     _ignoredCells (manager w2) = C
     ∧ _ignoredCells (manager w3) = C
     ∧ ∃ w4 lc out,
         patchedWriteCells host cells w3 = (inr tt, w4)
         ∧ trace w4 = trace w3
             ++ PreWriteCellsNotify cells (BrailleHandler._rawText h) lc
                :: transmission host d out
         ∧ ((C ≠ ∅
             ∧ ∃ r1 r2,
                 _remapCellsToPhysical
                   (_normalizeCellArraySize host cells lc r1 lc r2)
                   (BrailleDisplayDriver.numCells d) C = Some out)
            ∨ (∃ r, out = _normalizeCellArraySize host cells lc r
                            (BrailleDisplayDriver.numCells d)
                            (BrailleDisplayDriver.numRows d)))).
Proof.
  intros host w h d saved dims ops cells.
  apply (snapshot_single_writer host w
           (set_displayDimensions (Some (Some (DisplayDimensions.mk 1 6))) h)
           d saved dims ops cells).
  - vm_compute. reflexivity.
  - reflexivity.
  - simpl. lia.
  - reflexivity.
Defined.

(** The user replaces the ignored cells 2 and 5 by 0 and 3 and saves: the
    notification alone re-renders with the new set, and nothing the old set
    placed survives. *)
Example refresh_after_save_8 :
  let w := run exampleHost [Register] (exampleWorld 8 [3;6]) in
  let w' := run exampleHost
              [SaveProfiles (exampleProfiles 8 [1;4]); RefreshIgnoredCells] w in
  _ignoredCells (manager w) = {[2;5]}
  ∧ _ignoredCells (manager w') = {[0;3]}
  ∧ trace w' = trace w ++
      [HandlerUpdate; PreWriteCellsNotify [11;12;13;14;15;16] "" 6;
       DisplayCall [0;11;12;0;13;14;15;16]]
  ∧ _ignoredCells
      (manager (run exampleHost
                  [Unregister; SaveProfiles (exampleProfiles 8 [1;4]);
                   RefreshIgnoredCells] w)) = {[2;5]}.
Proof. vm_compute. done. Qed.

(** ** Further properties of the reverse translation *)

Lemma ignored_between_size (I : gset Z) (p q : Z) :
  p < q → p ∉ I →
  Z.of_nat (size (filter (λ c, c < q) I))
  ≤ Z.of_nat (size (filter (λ c, c < p) I)) + (q - p - 1).
Proof.
  intros Hpq Hp.
  set (between := list_to_set (seqZ (p + 1) (q - p - 1)) : gset Z).
  assert (Hsub : filter (λ c, c < q) I ⊆ filter (λ c, c < p) I ∪ between).
  { intros x. rewrite elem_of_union, !elem_of_filter. intros [Hx HI].
    destruct (decide (x < p)); [by left|]. right.
    subst between. rewrite elem_of_list_to_set, elem_of_seqZ.
    assert (x ≠ p) by congruence. lia. }
  apply subseteq_size in Hsub.
  pose proof (size_union_alt (filter (λ c, c < p) I) between) as Hun.
  assert (Hb : (size between ≤ Z.to_nat (q - p - 1))%nat).
  { subst between. rewrite <-(length_seqZ (p + 1)).
    rewrite size_list_to_set by apply NoDup_seqZ. done. }
  set (below := filter (λ c, c < p) I) in *.
  assert (Hd : (size (between ∖ below) ≤ size between)%nat)
    by (apply subseteq_size; intros x Hx;
        apply elem_of_difference in Hx; tauto).
  lia.
Qed.

(** X1: reverse translation is strictly increasing on the positions it
    maps: two distinct pressable cells never route to the same logical
    cell, and their order is kept. *)
Theorem physicalToLogicalIndex_strictly_increasing
    (self : Manager) (p q a b : Z) :
  p < q →
  _physicalToLogicalIndex self p = Some a →
  _physicalToLogicalIndex self q = Some b →
  a < b.
Proof.
  intros Hpq. rewrite !physicalToLogicalIndex_closed_form.
  destruct (decide (p ∈ _ignoredCells self)) as [|Hp]; [done|].
  destruct (decide (q ∈ _ignoredCells self)); [done|].
  intros [= <-] [= <-].
  pose proof (ignored_between_size (_ignoredCells self) p q Hpq Hp). lia.
Qed.

Lemma physicalToLogicalIndex_strictly_increasing_witness :
  _physicalToLogicalIndex (set_ignoredCells {[2;5]} __init__) 6 = Some 4
  ∧ _physicalToLogicalIndex (set_ignoredCells {[2;5]} __init__) 9 = Some 7
  ∧ 4 < 7.
Proof.
  split; [by vm_compute|]. split; [by vm_compute|].
  apply (physicalToLogicalIndex_strictly_increasing
           (set_ignoredCells {[2;5]} __init__) 6 9 4 7);
    [lia|by vm_compute|by vm_compute].
Defined.

(** The logical columns the filter announces for one row of [P] columns are
    the non-ignored positions of the configured set. *)
Lemma filterDisplayDimensions_columns (w : World) (P : Z) :
  0 ≤ P →
  (_filterDisplayDimensions (DisplayDimensions.mk 1 P) w).1
  = inr (DisplayDimensions.mk 1
           (Z.of_nat (length (validPositions P (configuredIgnored w))))).
Proof.
  intros HP. rewrite filterDisplayDimensions_run. simpl.
  change (length (validPositions P (configuredIgnored w)))
    with (validBefore (configuredIgnored w) P).
  rewrite validBefore_count by (done || apply configuredIgnored_nonneg).
  assert (Hsame : filter (λ i, 0 ≤ i < P) (configuredIgnored w)
                  = filter (λ c, c < P) (configuredIgnored w)).
  { apply set_eq. intros x. rewrite !elem_of_filter.
    split; [intros [? ?]; split; [lia|done]|].
    intros [? Hx]. pose proof (configuredIgnored_nonneg w x Hx).
    split; [lia|done]. }
  rewrite Hsame.
  assert (Hle : Z.of_nat (size (filter (λ c, c < P) (configuredIgnored w))) ≤ P).
  { pose proof (validBefore_count (configuredIgnored w) P HP
                  (configuredIgnored_nonneg w)). lia. }
  destruct (decide (configuredIgnored w = ∅)) as [Hempty|Hne].
  - rewrite Hempty.
    assert (Hnone : filter (λ c, c < P) (∅ : gset Z) = ∅).
    { apply set_eq. intros x. rewrite elem_of_filter, elem_of_empty. tauto. }
    rewrite Hnone, size_empty. do 2 f_equal. lia.
  - do 2 f_equal. lia.
Qed.

(** X2: after a dimension query for one row of [P] columns, a press on any
    physical cell in [0, P) either is discarded (the cell is ignored) or
    routes to a valid index of the logical display the query announced. *)
Theorem routing_index_within_logical_display (w : World) (P p : Z) :
  0 ≤ p < P →
  let answer := _filterDisplayDimensions (DisplayDimensions.mk 1 P) w in
  let press := {| BrailleDisplayGesture._routingIndex := Some (Some p) |} in
  (p ∈ _ignoredCells (manager answer.2)
   ∧ getRoutingIndex (manager answer.2) press = None)
  ∨ (∃ k cols,
       answer.1 = inr (DisplayDimensions.mk 1 cols)
       ∧ getRoutingIndex (manager answer.2) press = Some k
       ∧ 0 ≤ k < cols).
Proof.
  intros Hp answer press.
  pose proof (filterDisplayDimensions_columns w P ltac:(lia)) as Hcols.
  fold answer in Hcols.
  assert (Hsnap : _ignoredCells (manager answer.2) = configuredIgnored w)
    by (subst answer; by rewrite filterDisplayDimensions_run).
  subst press. unfold getRoutingIndex. simpl.
  rewrite physicalToLogicalIndex_closed_form, Hsnap.
  destruct (decide (p ∈ configuredIgnored w)) as [Hin|Hnin]; [by left|].
  right. eexists _, _. split; [done|]. split; [done|].
  pose proof (validBefore_count (configuredIgnored w) p ltac:(lia)
                (configuredIgnored_nonneg w)) as Hcount.
  pose proof (validPositions_rank P (configuredIgnored w) p Hp Hnin) as Hrank.
  apply lookup_lt_Some in Hrank. lia.
Qed.

Lemma routing_index_within_logical_display_witness :
  let answer := _filterDisplayDimensions (DisplayDimensions.mk 1 8)
                  (exampleWorld 8 [3;6]) in
  let press := {| BrailleDisplayGesture._routingIndex := Some (Some 7) |} in
  (7 ∈ _ignoredCells (manager answer.2)
   ∧ getRoutingIndex (manager answer.2) press = None)
  ∨ (∃ k cols,
       answer.1 = inr (DisplayDimensions.mk 1 cols)
       ∧ getRoutingIndex (manager answer.2) press = Some k
       ∧ 0 ≤ k < cols).
Proof.
  apply (routing_index_within_logical_display (exampleWorld 8 [3;6]) 8 7).
  lia.
Defined.

(** ** Reading a remapped buffer back *)

Lemma emitted_read_back (L : list Z) (P : Z) (I : gset Z) :
  0 ≤ P →
  (λ p, default 0 (emitted L I (Py.range P) 0 !! Z.to_nat p))
    <$> validPositions P I
  = take (length (validPositions P I))
      (L ++ replicate (length (validPositions P I)) 0).
Proof.
  intros HP. set (N := length (validPositions P I)).
  apply list_eq. intros k. rewrite list_lookup_fmap.
  destruct (validPositions P I !! k) as [p|] eqn:Hk; simpl.
  - destruct (validPositions_lookup _ _ _ _ Hk) as (Hnin & Hp & Hrank).
    assert (HkN : (k < N)%nat) by (by eapply lookup_lt_Some).
    rewrite (emitted_at L P I p Hp), decide_False by done. simpl.
    rewrite Hrank, lookup_take_lt by done.
    destruct (decide (k < length L)%nat) as [Hlt|Hge].
    + rewrite lookup_app_l by done.
      destruct (lookup_lt_is_Some_2 L k Hlt) as [c ->]. done.
    + rewrite lookup_app_r, (lookup_ge_None_2 L k) by lia. simpl.
      by rewrite lookup_replicate_2 by lia.
  - apply lookup_ge_None in Hk. symmetry. apply lookup_ge_None.
    rewrite length_take. lia.
Qed.

(** X3: reading the remapped buffer at the non-ignored positions, in
    increasing order, gives the logical cells in their order, cut or padded
    with blanks to the number of those positions: nothing is reordered,
    repeated or skipped. *)
Theorem remapCellsToPhysical_read_back (L : list Z) (P : Z) (I : gset Z) :
  0 ≤ P →
  ∃ out,
    _remapCellsToPhysical L P I = Some out
    ∧ (λ p, default 0 (out !! Z.to_nat p)) <$> validPositions P I
      = take (length (validPositions P I))
          (L ++ replicate (length (validPositions P I)) 0).
Proof.
  intros HP. exists (emitted L I (Py.range P) 0).
  split; [apply remapCellsToPhysical_emitted|by apply emitted_read_back].
Qed.

Lemma remapCellsToPhysical_read_back_witness :
  let L := [11;12;13] in
  let I : gset Z := {[2;5]} in
  ∃ out,
    _remapCellsToPhysical L 8 I = Some out
    ∧ (λ p, default 0 (out !! Z.to_nat p)) <$> validPositions 8 I
      = take (length (validPositions 8 I))
          (L ++ replicate (length (validPositions 8 I)) 0).
Proof.
  intros L I. apply (remapCellsToPhysical_read_back L 8 I). lia.
Defined.

(** X4: a buffer of exactly the size the dimension filter announced for one
    row of [P] columns is placed whole by the remapping that follows: the
    physical buffer has [P] cells and reading its non-ignored positions in
    order gives the buffer back. *)
Theorem announced_size_is_placed_whole (w : World) (P cols : Z) (L : list Z) :
  0 ≤ P →
  (_filterDisplayDimensions (DisplayDimensions.mk 1 P) w).1
    = inr (DisplayDimensions.mk 1 cols) →
  Z.of_nat (length L) = cols →
  let I := _ignoredCells
             (manager (_filterDisplayDimensions (DisplayDimensions.mk 1 P) w).2) in
  ∃ out,
    _remapCellsToPhysical L P I = Some out
    ∧ Z.of_nat (length out) = P
    ∧ (λ p, default 0 (out !! Z.to_nat p)) <$> validPositions P I = L.
Proof.
  intros HP Hanswer HL I.
  rewrite filterDisplayDimensions_columns in Hanswer by done.
  injection Hanswer as Hcols.
  assert (HI : I = configuredIgnored w)
    by (subst I; by rewrite filterDisplayDimensions_run).
  rewrite HI.
  exists (emitted L (configuredIgnored w) (Py.range P) 0).
  split; [apply remapCellsToPhysical_emitted|]. split.
  - rewrite length_emitted. unfold Py.range. rewrite length_seqZ. lia.
  - rewrite emitted_read_back by done.
    replace (length (validPositions P (configuredIgnored w)))
      with (length L) by lia.
    by rewrite take_app_length.
Qed.

Lemma announced_size_is_placed_whole_witness :
  let w := exampleWorld 8 [3;6] in
  let L := [11;12;13;14;15;16] in
  let I := _ignoredCells
             (manager (_filterDisplayDimensions (DisplayDimensions.mk 1 8) w).2) in
  ∃ out,
    _remapCellsToPhysical L 8 I = Some out
    ∧ Z.of_nat (length out) = 8
    ∧ (λ p, default 0 (out !! Z.to_nat p)) <$> validPositions 8 I = L.
Proof.
  intros w L.
  apply (announced_size_is_placed_whole w 8 6 L);
    [lia|by vm_compute|reflexivity].
Defined.

(** ** Further properties of the refresh and of the write hook *)

Lemma refreshed_handler (w : World) : handler (refreshed w) = handler w.
Proof. unfold refreshed. by destruct (filterRegistered w). Qed.

Lemma refreshed_trace (w : World) : trace (refreshed w) = trace w.
Proof. unfold refreshed. by destruct (filterRegistered w). Qed.

Section WriteHook.
Context (host : Host).

(** A dimension query on a present handler returns, leaves the trace alone
    and changes of the handler only the dimensions it holds. *)
Lemma handler_displayDimensions_returns (w : World) (h : BrailleHandler.t) :
  handler w = Some h →
  ∃ dims w1 h1,
    handler_displayDimensions host w = (inr dims, w1)
    ∧ handler w1 = Some h1
    ∧ fixedPart h1 = fixedPart h
    ∧ trace w1 = trace w.
Proof.
  intros Hh.
  destruct (handler_displayDimensions_cases host w h Hh) as [dims [E|E]].
  - by exists dims, w, h.
  - exists dims, (recache (Some (Some dims)) (refreshed w)),
      (set_displayDimensions (Some (Some dims)) h).
    split; [done|]. simpl. rewrite refreshed_handler, refreshed_trace, Hh.
    done.
Qed.

(** A query that cannot be answered from held dimensions runs the installed
    filter. *)
Lemma handler_displayDimensions_recomputes (w : World) (h : BrailleHandler.t) :
  handler w = Some h →
  (∀ held, BrailleHandler._displayDimensions h ≠ Some (Some held)) →
  ∃ dims, handler_displayDimensions host w
          = (inr dims, recache (Some (Some dims)) (refreshed w)).
Proof.
  intros Hh Hnone. unfold handler_displayDimensions. run_monad. rewrite Hh.
  destruct (queryDisplayDimensions_run h w) as [dims Hq].
  destruct (BrailleHandler._displayDimensions h) as [[held|]|] eqn:Hheld;
    [by destruct (Hnone held)|by exists dims..].
Qed.

(** The refresh stores the configured set. *)
Lemma refreshIgnoredCells_snapshot (w : World) (h : BrailleHandler.t)
    (d : BrailleDisplayDriver.t) :
  filterRegistered w = true →
  handler w = Some h →
  BrailleHandler.display h = Some d →
  _ignoredCells (manager (refreshIgnoredCells host w).2) = configuredIgnored w.
Proof.
  intros Hreg Hh Hd.
  unfold refreshIgnoredCells, _refreshDisplay. run_monad.
  rewrite Hh. simpl. rewrite Hd. simpl.
  assert (Hgoal : ∀ w0 h0,
    handler w0 = Some h0 →
    (∀ held, BrailleHandler._displayDimensions h0 ≠ Some (Some held)) →
    filterRegistered w0 = true →
    configuredIgnored w0 = configuredIgnored w →
    _ignoredCells
      (manager
         (let (s, w') := handler_displayDimensions host w0 in
          match s with
          | inl e => (inl e, w')
          | inr _ => handler_update host w'
          end).2) = configuredIgnored w).
  { intros w0 h0 Hh0 Hnone Hreg0 Hcfg.
    destruct (handler_displayDimensions_recomputes w0 h0 Hh0 Hnone)
      as [dims ->].
    set (w1 := recache (Some (Some dims)) (refreshed w0)).
    assert (Hs1 : _ignoredCells (manager w1) = configuredIgnored w).
    { subst w1. unfold refreshed. rewrite Hreg0. simpl. done. }
    assert (Hc1 : configuredIgnored w1 = configuredIgnored w).
    { rewrite <-Hcfg. apply Frame_configuredIgnored.
      eapply Frame_trans; [apply refreshed_frame|apply recache_frame]. }
    destruct (handler_update_preserves host w1)
      as (_ & _ & _ & _ & _ & [Hs|[_ Hs]]); congruence. }
  destruct (BrailleHandler._displayDimensions h) as [c|] eqn:Hc; simpl.
  - eapply Hgoal; [simpl; by rewrite Hh|simpl; by intros|done|].
    unfold configuredIgnored. simpl. by rewrite Hh.
  - eapply Hgoal; [done|by rewrite Hc|done|done].
Qed.

(** X5: with the dimension filter installed and a display connected, the
    refresh notification leaves the snapshot equal to the configured set,
    whatever the snapshot was and however the host caches dimensions. *)
Theorem refreshIgnoredCells_recomputes (w : World) (h : BrailleHandler.t)
    (d : BrailleDisplayDriver.t) :
  filterRegistered w = true →
  handler w = Some h →
  BrailleHandler.display h = Some d →
  _ignoredCells (manager (refreshIgnoredCells host w).2) = configuredIgnored w.
Proof. apply refreshIgnoredCells_snapshot. Qed.

End WriteHook.

Lemma refreshIgnoredCells_recomputes_witness :
  let w := withProfiles (exampleProfiles 8 [1;4])
             (run exampleHost [Register] (exampleWorld 8 [3;6])) in
  _ignoredCells (manager (refreshIgnoredCells exampleHost w).2)
  = configuredIgnored w.
Proof.
  intros w.
  apply (refreshIgnoredCells_recomputes exampleHost w
           (set_displayDimensions (Some (Some (DisplayDimensions.mk 1 6)))
              (exampleHandler 8))
           (exampleDisplay 8));
    [reflexivity|by vm_compute|reflexivity].
Defined.

(** X6: without a handler, without a display, or with the ["noBraille"]
    driver, no profile applies whatever is stored: the dimension filter
    answers its input unchanged and empties the snapshot. *)
Theorem filterDisplayDimensions_without_display
    (w : World) (dims : DisplayDimensions.t) :
  (handler w ≫= BrailleHandler.display = None
   ∨ ∃ d, handler w ≫= BrailleHandler.display = Some d
          ∧ BrailleDisplayDriver.name d = "noBraille") →
  _filterDisplayDimensions dims w
  = (inr dims, withManager (set_ignoredCells ∅) w).
Proof.
  intros Hnone.
  assert (Hcfg : configuredIgnored w = ∅).
  { unfold configuredIgnored, Config.getIgnoredCellsForDisplay,
      Config.getActiveProfile.
    destruct Hnone as [->|(d & -> & Hname)]; [done|].
    by rewrite decide_True. }
  rewrite filterDisplayDimensions_run, Hcfg. by rewrite decide_True.
Qed.

Lemma filterDisplayDimensions_without_display_witness :
  let w := withHandler (λ h, {|
             BrailleHandler.display := None;
             BrailleHandler._displayDimensions :=
               BrailleHandler._displayDimensions h;
             BrailleHandler._rawText := BrailleHandler._rawText h;
             BrailleHandler.buffer := BrailleHandler.buffer h |})
             (withManager (set_ignoredCells {[2;5]}) (exampleWorld 8 [3;6])) in
  _filterDisplayDimensions (DisplayDimensions.mk 1 8) w
  = (inr (DisplayDimensions.mk 1 8), withManager (set_ignoredCells ∅) w).
Proof.
  intros w.
  apply (filterDisplayDimensions_without_display w (DisplayDimensions.mk 1 8)).
  left. reflexivity.
Defined.

Section WriteHookRuns.
Context (host : Host).

(** Runs the next dimension query of the goal on a present handler. *)
Ltac query_any dims w1 h1 E Hh Hf Ht :=
  match goal with
  | |- context [handler_displayDimensions ?hst ?W] =>
      edestruct (handler_displayDimensions_returns hst W)
        as (dims & w1 & h1 & E & Hh & Hf & Ht);
        [ simpl; eassumption | rewrite E; simpl ]
  end.

(** Closes a run of the write hook once the cells to transmit are known. *)
Ltac hand_over d Hno :=
  destruct (BrailleDisplayDriver.isThreadSafe d),
    (BrailleDisplayDriver._awaitingAck d);
    try match goal with
      | |- context [displayRaises ?a ?b ?c] => destruct (displayRaises a b c)
      end;
    simpl; eexists _, _, _;
    (split; [reflexivity|]); simpl;
    repeat match goal with H : trace _ = _ |- _ => rewrite H; clear H end;
    simpl; rewrite <-?app_assoc; simpl;
    (split; [reflexivity|by intros ?%Hno]).

(** The write hook returns on a present handler, whatever the snapshot and
    the dimensions held, and the first thing it does is the host's pre-write
    notification with the cells it was given. *)
Lemma patchedWriteCells_returns (cells : list Z) (w : World)
    (h : BrailleHandler.t) :
  handler w = Some h →
  ∃ w' lc rest,
    patchedWriteCells host cells w = (inr tt, w')
    ∧ trace w' = trace w
        ++ PreWriteCellsNotify cells (BrailleHandler._rawText h) lc :: rest
    ∧ ((BrailleHandler.display h = None
        ∨ ∃ d, BrailleHandler.display h = Some d
               ∧ BrailleDisplayDriver.numCells d = 0) → rest = []).
Proof.
  intros Hh0.
  unfold patchedWriteCells, handler_displaySize. run_monad.
  query_any dims1 w1 h1 E1 Hh1 Hf1 Ht1. rewrite Hh1. simpl.
  assert (Hd : BrailleHandler.display h1 = BrailleHandler.display h
               ∧ BrailleHandler._rawText h1 = BrailleHandler._rawText h)
    by (unfold fixedPart in Hf1; by injection Hf1 as -> -> _).
  destruct Hd as [Hd Hraw]. rewrite Hd, Hraw.
  destruct (BrailleHandler.display h) as [d|] eqn:Hdisp; simpl;
    [|eexists _, _, []; by rewrite Ht1].
  destruct (decide (BrailleDisplayDriver.numCells d = 0)) as [Hz|Hnz]; simpl;
    [eexists _, _, []; by rewrite Ht1|].
  assert (Hno : (Some d = None
                 ∨ ∃ d0, Some d = Some d0
                         ∧ BrailleDisplayDriver.numCells d0 = 0) → False)
    by (intros [?|(d0 & [= <-] & ?)]; done).
  destruct (decide (_ignoredCells (manager w1) = ∅)); simpl.
  - query_any dims2 w2 h2 E2 Hh2 Hf2 Ht2. hand_over d Hno.
  - query_any dims2 w2 h2 E2 Hh2 Hf2 Ht2.
    destruct (decide (DisplayDimensions.numRows dims2 = 1)); simpl.
    + query_any dims3 w3 h3 E3 Hh3 Hf3 Ht3.
      query_any dims4 w4 h4 E4 Hh4 Hf4 Ht4.
      rewrite remapCellsToPhysical_emitted. simpl. hand_over d Hno.
    + query_any dims3 w3 h3 E3 Hh3 Hf3 Ht3. hand_over d Hno.
Qed.

End WriteHookRuns.

(** X7: on a present handler the write hook never raises, whatever the
    snapshot, the cells and the host's answers ([IndexError] cannot come
    out of the remapping), and it starts with the host's pre-write
    notification, carrying the cells as they were given. *)
Theorem patchedWriteCells_never_raises (host : Host) (cells : list Z)
    (w : World) (h : BrailleHandler.t) :
  handler w = Some h →
  ∃ w' lc rest,
    patchedWriteCells host cells w = (inr tt, w')
    ∧ trace w' = trace w
        ++ PreWriteCellsNotify cells (BrailleHandler._rawText h) lc :: rest.
Proof.
  intros Hh.
  destruct (patchedWriteCells_returns host cells w h Hh)
    as (w' & lc & rest & Hrun & Htrace & _).
  by exists w', lc, rest.
Qed.

Lemma patchedWriteCells_never_raises_witness :
  let w := withManager (set_ignoredCells {[2;5;40]}) (exampleWorld 8 [3;6]) in
  ∃ w' lc rest,
    patchedWriteCells exampleHost [21;22;23] w = (inr tt, w')
    ∧ trace w' = trace w
        ++ PreWriteCellsNotify [21;22;23]
             (BrailleHandler._rawText (exampleHandler 8)) lc :: rest.
Proof.
  intros w.
  apply (patchedWriteCells_never_raises exampleHost [21;22;23] w
           (exampleHandler 8)).
  reflexivity.
Defined.

(** X8: when the handler has no display, or a display of zero cells, the
    write hook makes the pre-write notification and nothing else: no cells
    are handed to a driver and none are queued. *)
Theorem patchedWriteCells_without_device (host : Host) (cells : list Z)
    (w : World) (h : BrailleHandler.t) :
  handler w = Some h →
  (BrailleHandler.display h = None
   ∨ ∃ d, BrailleHandler.display h = Some d
          ∧ BrailleDisplayDriver.numCells d = 0) →
  ∃ w' lc,
    patchedWriteCells host cells w = (inr tt, w')
    ∧ trace w' = trace w
        ++ [PreWriteCellsNotify cells (BrailleHandler._rawText h) lc].
Proof.
  intros Hh Hnone.
  destruct (patchedWriteCells_returns host cells w h Hh)
    as (w' & lc & rest & Hrun & Htrace & Hrest).
  exists w', lc. split; [done|]. by rewrite Htrace, (Hrest Hnone).
Qed.

Lemma patchedWriteCells_without_device_witness :
  let w := exampleWorld 0 [3;6] in
  ∃ w' lc,
    patchedWriteCells exampleHost [21;22;23] w = (inr tt, w')
    ∧ trace w' = trace w
        ++ [PreWriteCellsNotify [21;22;23]
              (BrailleHandler._rawText (exampleHandler 0)) lc].
Proof.
  intros w.
  apply (patchedWriteCells_without_device exampleHost [21;22;23] w
           (exampleHandler 0)).
  - reflexivity.
  - right. exists (exampleDisplay 0). split; reflexivity.
Defined.

(** X9: with an up-to-date snapshot, the cells the write hook hands to the
    device are either the host's resizing of the given cells to the physical
    shape (remapping bypassed), or a buffer of exactly [numCells] cells
    that is blank at every ignored position of the device. *)
Theorem patchedWriteCells_hands_over_physical_shape (host : Host)
    (cells : list Z) (w : World) (h : BrailleHandler.t)
    (d : BrailleDisplayDriver.t) :
  handler w = Some h →
  BrailleHandler.display h = Some d →
  BrailleDisplayDriver.numCells d ≠ 0 →
  UpToDate w →
  ∃ w' lc out,
    patchedWriteCells host cells w = (inr tt, w')
    ∧ trace w' = trace w
        ++ PreWriteCellsNotify cells (BrailleHandler._rawText h) lc
           :: transmission host d out
    ∧ ((_ignoredCells (manager w) ≠ ∅
        ∧ Z.of_nat (length out) = Z.max 0 (BrailleDisplayDriver.numCells d)
        ∧ ∀ i, i ∈ _ignoredCells (manager w) →
               0 ≤ i < BrailleDisplayDriver.numCells d →
               out !! Z.to_nat i = Some 0)
       ∨ (∃ r, out = _normalizeCellArraySize host cells lc r
                       (BrailleDisplayDriver.numCells d)
                       (BrailleDisplayDriver.numRows d))).
Proof.
  intros Hh Hd Hcells Hup.
  destruct (patchedWriteCells_run host cells w h d Hh Hd Hcells Hup)
    as (w' & lc & out & Hrun & _ & Htrace & Hout).
  exists w', lc, out. split; [done|]. split; [done|].
  destruct Hout as [[Hne (r1 & r2 & Hremap)]|Hdirect]; [left|by right].
  split; [done|].
  rewrite remapCellsToPhysical_emitted in Hremap. injection Hremap as <-.
  split.
  - rewrite length_emitted. unfold Py.range. rewrite length_seqZ. lia.
  - intros i Hi Hrange. rewrite emitted_at by done. by rewrite decide_True.
Qed.

Lemma patchedWriteCells_hands_over_physical_shape_witness :
  let w := withManager (set_ignoredCells {[2;5]}) (exampleWorld 8 [3;6]) in
  let h := exampleHandler 8 in
  let d := exampleDisplay 8 in
  ∃ w' lc out,
    patchedWriteCells exampleHost [21;22;23] w = (inr tt, w')
    ∧ trace w' = trace w
        ++ PreWriteCellsNotify [21;22;23] (BrailleHandler._rawText h) lc
           :: transmission exampleHost d out
    ∧ ((_ignoredCells (manager w) ≠ ∅
        ∧ Z.of_nat (length out) = Z.max 0 (BrailleDisplayDriver.numCells d)
        ∧ ∀ i, i ∈ _ignoredCells (manager w) →
               0 ≤ i < BrailleDisplayDriver.numCells d →
               out !! Z.to_nat i = Some 0)
       ∨ (∃ r, out = _normalizeCellArraySize exampleHost [21;22;23] lc r
                       (BrailleDisplayDriver.numCells d)
                       (BrailleDisplayDriver.numRows d))).
Proof.
  intros w h d.
  apply (patchedWriteCells_hands_over_physical_shape exampleHost [21;22;23]
           w h d); [reflexivity|reflexivity|simpl; lia|].
  intros _. by vm_compute.
Defined.

(** ** Stored profiles *)

Lemma sorted_set_elem (xs : list Z) (x : Z) : x ∈ Py.sorted_set xs ↔ x ∈ xs.
Proof.
  unfold Py.sorted_set. rewrite merge_sort_Permutation, elem_of_elements.
  apply elem_of_list_to_set.
Qed.

Lemma sorted_set_increasing (xs : list Z) :
  StronglySorted Z.lt (Py.sorted_set xs).
Proof.
  unfold Py.sorted_set.
  set (l := elements (list_to_set xs : gset Z)).
  assert (Hnd : NoDup (merge_sort Z.le l)).
  { rewrite merge_sort_Permutation. apply NoDup_elements. }
  pose proof (StronglySorted_merge_sort Z.le l) as Hs.
  induction Hs as [|x k Hs IH Hall]; [constructor|].
  apply NoDup_cons in Hnd as [Hx Hnd].
  constructor; [by apply IH|].
  apply Forall_forall. intros y Hy.
  assert (x ≤ y) by (by eapply Forall_forall in Hall).
  assert (x ≠ y) by (intros ->; done). lia.
Qed.

(** X10: a profile parsed from the configuration has its ignored cells in
    strictly increasing order, hence without repetition, whatever the order
    and repetitions of what was stored; parsed from a list of integers, it
    has exactly the integers of the list. *)
Theorem parseProfile_cells_increasing (py : Py.Str) (key : string)
    (cellList : Config.ConfValue) (profile : Config.IgnoredCellsProfile) :
  Config._parseProfileFromNewFormat py key cellList = Some profile →
  StronglySorted Z.lt (Config.ignoredCells profile)
  ∧ (∀ cells, cellList = Config.ValueList (Config.ItemInt <$> cells) →
       ∀ x, x ∈ Config.ignoredCells profile ↔ x ∈ cells).
Proof.
  unfold Config._parseProfileFromNewFormat.
  destruct (Py.split1 ":" key) as [|part0 [|part1 [|? ?]]]; try done.
  destruct (Py.int py (Py.strip py part1)) as [numCells|]; simpl; [|done].
  intros Hparse.
  match type of Hparse with
  | context [mbind _ ?m] => destruct m as [cells|] eqn:Hcells
  end; simpl in Hparse; [|done].
  injection Hparse as <-. simpl.
  split; [apply sorted_set_increasing|].
  intros ints ->. intros x. rewrite sorted_set_elem.
  rewrite mapM_fmap_Some in Hcells by done. by injection Hcells as <-.
Qed.

Lemma parseProfile_cells_increasing_witness :
  let profile := exampleProfile 8 [3;6] in
  StronglySorted Z.lt (Config.ignoredCells profile)
  ∧ (∀ cells,
       Config.ValueList (Config.ItemInt <$> [6;3;6])
       = Config.ValueList (Config.ItemInt <$> cells) →
       ∀ x, x ∈ Config.ignoredCells profile ↔ x ∈ cells).
Proof.
  intros profile.
  apply (parseProfile_cells_increasing examplePy " exampleDriver : 8 "
           (Config.ValueList (Config.ItemInt <$> [6;3;6])) profile).
  by vm_compute.
Defined.

(** A stored string is read like a stored list; a key without a colon, a
    cell count that is no number and a list with a bad item give no
    profile. *)
Example parseProfile_examples :
  Config._parseProfileFromNewFormat examplePy "exampleDriver:8"
    (Config.ValueStr "6, 3,,6 ") = Some (exampleProfile 8 [3;6])
  ∧ Config._parseProfileFromNewFormat examplePy "exampleDriver"
      (Config.ValueStr "3") = None
  ∧ Config._parseProfileFromNewFormat examplePy "exampleDriver:x8"
      (Config.ValueStr "3") = None
  ∧ Config._parseProfileFromNewFormat examplePy "a:b:8"
      (Config.ValueStr "3") = None
  ∧ Config._parseProfileFromNewFormat examplePy "exampleDriver:8"
      (Config.ValueList [Config.ItemInt 3; Config.ItemOther]) = None.
Proof. vm_compute. done. Qed.

Lemma chars_app (s1 s2 : string) :
  Py.chars (s1 +:+ s2) = Py.chars s1 ++ Py.chars s2.
Proof. induction s1 as [|c s1 IH]; simpl; [done|]. by rewrite <-IH. Qed.

Lemma pretty_N_go_chars (Q : ascii → Prop) (x : N) (s : string) :
  (∀ n, Q (pretty_N_char n)) →
  Forall Q (Py.chars s) → Forall Q (Py.chars (pretty_N_go x s)).
Proof.
  intros Hdigit. revert s.
  induction (N.lt_wf_0 x) as [x _ IH]; intros s Hs.
  assert (x = 0 ∨ 0 < x)%N as [->|Hpos] by lia.
  - by rewrite pretty_N_go_0.
  - rewrite pretty_N_go_step by done. apply IH.
    + by apply N.div_lt.
    + simpl. by constructor.
Qed.

Lemma pretty_Z_no_colon (n : Z) : ":"%char ∉ Py.chars (pretty n).
Proof.
  assert (Hdigit : ∀ k, pretty_N_char k ≠ ":"%char)
    by (intros k; unfold pretty_N_char; by repeat case_match).
  assert (HN : ∀ k : N, Forall (λ c, c ≠ ":"%char) (Py.chars (pretty k))).
  { intros k. unfold pretty, pretty_N. case_decide.
    - simpl. by repeat constructor.
    - by apply pretty_N_go_chars. }
  intros Hin.
  assert (Hall : Forall (λ c, c ≠ ":"%char) (Py.chars (pretty n))).
  { destruct n as [|q|q]; unfold pretty, pretty_Z.
    - simpl. by repeat constructor.
    - apply (HN (N.pos q)).
    - rewrite chars_app. apply Forall_app. split.
      + simpl. by repeat constructor.
      + apply (HN (N.pos q)). }
  by eapply Forall_forall in Hall.
Qed.

Lemma colon_cut_inj (a b x y : string) :
  ":"%char ∉ Py.chars x → ":"%char ∉ Py.chars y →
  a +:+ ":" +:+ x = b +:+ ":" +:+ y → a = b ∧ x = y.
Proof.
  intros Hx Hy. revert b.
  assert (Hcut : ∀ s t, ":"%char ∈ Py.chars (s +:+ ":" +:+ t)).
  { intros s t. rewrite chars_app. apply elem_of_app. right.
    change (":" +:+ t) with (String ":" t). simpl. by left. }
  induction a as [|c a IH]; intros [|c' b].
  - change (String ":" x = String ":" y → "" = "" ∧ x = y). by intros [= ->].
  - change (String ":" x = String c' (b +:+ ":" +:+ y) → "" = String c' b ∧ x = y).
    intros [= _ Heq]. exfalso. apply Hx. rewrite Heq. apply Hcut.
  - change (String c (a +:+ ":" +:+ x) = String ":" y → String c a = "" ∧ x = y).
    intros [= _ Heq]. exfalso. apply Hy. rewrite <-Heq. apply Hcut.
  - change (String c (a +:+ ":" +:+ x) = String c' (b +:+ ":" +:+ y)
            → String c a = String c' b ∧ x = y).
    intros [= -> Heq]. destruct (IH _ Heq) as [-> ->]. done.
Qed.

Lemma key_inj (p q : Config.IgnoredCellsProfile) :
  Config.key p = Config.key q →
  Config.driverName p = Config.driverName q
  ∧ Config.numCells p = Config.numCells q.
Proof.
  unfold Config.key. intros Heq.
  apply colon_cut_inj in Heq as [Hname Hcount];
    [|apply pretty_Z_no_colon..].
  split; [done|]. by apply (inj pretty).
Qed.

Lemma parseProfile_cells_sorted (py : Py.Str) (key : string)
    (cellList : Config.ConfValue) (profile : Config.IgnoredCellsProfile) :
  Config._parseProfileFromNewFormat py key cellList = Some profile →
  StronglySorted Z.lt (Config.ignoredCells profile).
Proof.
  unfold Config._parseProfileFromNewFormat.
  destruct (Py.split1 ":" key) as [|part0 [|part1 [|? ?]]]; try done.
  destruct (Py.int py (Py.strip py part1)) as [numCells|]; simpl; [|done].
  intros Hparse.
  match type of Hparse with
  | context [mbind _ ?m] => destruct m as [cells|] eqn:Hcells
  end; simpl in Hparse; [|done].
  injection Hparse as <-. simpl. apply sorted_set_increasing.
Qed.

Lemma loadProfiles_fold (py : Py.Str) (data l : list (string * Config.ConfValue))
    (m : gmap string Config.IgnoredCellsProfile) :
  let Inv (m : gmap string Config.IgnoredCellsProfile) :=
    ∀ k p, m !! k = Some p →
      k = Config.key p
      ∧ ∃ entry, entry ∈ data
          ∧ Config._parseProfileFromNewFormat py entry.1 entry.2 = Some p in
  (∀ entry, entry ∈ l → entry ∈ data) →
  Inv m →
  Inv (foldl
         (λ profiles entry,
            match Config._parseProfileFromNewFormat py entry.1 entry.2 with
            | Some profile => <[Config.key profile := profile]> profiles
            | None => profiles
            end) m l).
Proof.
  intros Inv. revert m.
  induction l as [|entry l IH]; intros m Hsub Hm; simpl; [done|].
  apply IH.
  - intros e He. apply Hsub. by right.
  - destruct (Config._parseProfileFromNewFormat py entry.1 entry.2)
      as [profile|] eqn:Hparse; [|done].
    intros k p Hk.
    destruct (decide (k = Config.key profile)) as [->|Hne].
    + rewrite lookup_insert_eq in Hk. injection Hk as <-.
      split; [done|]. exists entry. split; [|done]. apply Hsub. by left.
    + rewrite lookup_insert_ne in Hk by done. by apply Hm.
Qed.

(** X11: every profile that [loadProfiles] returns is filed under its own
    key (the driver name and cell count it carries, whatever the spelling of
    the stored key), is the parse of one of the stored entries, and has its
    ignored cells in strictly increasing order. *)
Theorem loadProfiles_entries (py : Py.Str)
    (stored : option (list (string * Config.ConfValue)))
    (k : string) (p : Config.IgnoredCellsProfile) :
  Config.loadProfiles py stored !! k = Some p →
  k = Config.key p
  ∧ StronglySorted Z.lt (Config.ignoredCells p)
  ∧ ∃ data entry, stored = Some data ∧ entry ∈ data
      ∧ Config._parseProfileFromNewFormat py entry.1 entry.2 = Some p.
Proof.
  destruct stored as [data|]; simpl; [|by rewrite lookup_empty].
  intros Hk.
  pose proof (loadProfiles_fold py data data ∅) as Hfold. simpl in Hfold.
  destruct (Hfold (λ _ H, H)) with (k := k) (p := p)
    as (Hkey & entry & Hin & Hparse); [|done|].
  { intros k' p'. by rewrite lookup_empty. }
  split; [done|]. split.
  - by apply (parseProfile_cells_sorted py entry.1 entry.2).
  - by exists data, entry.
Qed.

Lemma loadProfiles_entries_witness :
  let p := exampleProfile 8 [3;6] in
  "exampleDriver:8" = Config.key p
  ∧ StronglySorted Z.lt (Config.ignoredCells p)
  ∧ ∃ data entry,
      Some [(" exampleDriver : 8 ", Config.ValueStr "6, 3,,6 ")] = Some data
      ∧ entry ∈ data
      ∧ Config._parseProfileFromNewFormat examplePy entry.1 entry.2 = Some p.
Proof.
  intros p.
  apply (loadProfiles_entries examplePy
           (Some [(" exampleDriver : 8 ", Config.ValueStr "6, 3,,6 ")])
           "exampleDriver:8" p).
  by vm_compute.
Defined.

(** X12: the profile chosen for a display carries exactly that display's
    driver name and cell count, whatever is stored and however the stored
    keys are spelled: a display never gets the profile of another driver or
    of another size, and the [noBraille] driver never gets one. *)
Theorem getActiveProfile_matches_display (py : Py.Str)
    (stored : option (list (string * Config.ConfValue)))
    (display : option BrailleDisplayDriver.t)
    (p : Config.IgnoredCellsProfile) :
  Config.getActiveProfile (Config.loadProfiles py stored) display = Some p →
  ∃ d, display = Some d
    ∧ BrailleDisplayDriver.name d ≠ "noBraille"
    ∧ Config.driverName p = BrailleDisplayDriver.name d
    ∧ Config.numCells p = BrailleDisplayDriver.numCells d.
Proof.
  unfold Config.getActiveProfile.
  destruct display as [d|]; [|done].
  case_decide as Hname; [done|]. simpl. intros Hk.
  pose proof (loadProfiles_fold py (default [] stored) (default [] stored) ∅)
    as Hfold. simpl in Hfold.
  assert (Hkey : BrailleDisplayDriver.name d +:+ ":"
                   +:+ pretty (BrailleDisplayDriver.numCells d)
                 = Config.key p).
  { destruct stored as [data|]; simpl in *; [|by rewrite lookup_empty in Hk].
    destruct (Hfold (λ _ H, H)) with (k := BrailleDisplayDriver.name d +:+ ":"
                   +:+ pretty (BrailleDisplayDriver.numCells d)) (p := p)
      as [Hkey _]; [|done..].
    intros k' p'. by rewrite lookup_empty. }
  destruct (key_inj
              {| Config.driverName := BrailleDisplayDriver.name d;
                 Config.numCells := BrailleDisplayDriver.numCells d;
                 Config.ignoredCells := [] |} p Hkey) as [Hn Hc].
  exists d. by repeat split.
Qed.

Lemma getActiveProfile_matches_display_witness :
  ∃ d, Some (exampleDisplay 8) = Some d
    ∧ BrailleDisplayDriver.name d ≠ "noBraille"
    ∧ Config.driverName (exampleProfile 8 [3;6]) = BrailleDisplayDriver.name d
    ∧ Config.numCells (exampleProfile 8 [3;6]) = BrailleDisplayDriver.numCells d.
Proof.
  apply (getActiveProfile_matches_display examplePy
           (Some [(" exampleDriver : 8 ", Config.ValueStr "6, 3,,6 ");
                  ("exampleDriver:40", Config.ValueStr "1")])
           (Some (exampleDisplay 8)) (exampleProfile 8 [3;6])).
  by vm_compute.
Defined.

Lemma sorted_set_of_increasing (cells : list Z) :
  StronglySorted Z.lt cells → Py.sorted_set cells = cells.
Proof.
  intros Hs. unfold Py.sorted_set.
  apply (StronglySorted_unique Z.le).
  - apply (StronglySorted_merge_sort Z.le).
  - induction Hs as [|x l Hs IH Hall]; constructor; [done|].
    eapply Forall_impl; [done|]. intros y Hy. simpl in Hy. lia.
  - rewrite merge_sort_Permutation. apply elements_list_to_set.
    induction Hs as [|x l Hs IH Hall]; constructor; [|done].
    intros Hx. eapply Forall_forall in Hall; [|done]. lia.
Qed.

Lemma split1_cut (a x : string) :
  ":"%char ∉ Py.chars a → Py.split1 ":" (a +:+ ":" +:+ x) = [a; x].
Proof.
  induction a as [|c a IH]; intros Ha.
  - reflexivity.
  - change (Py.split1 ":" (String c (a +:+ ":" +:+ x)) = [String c a; x]).
    simpl in Ha. apply not_elem_of_cons in Ha as [Hc Ha].
    cbn [Py.split1]. rewrite decide_False by done. by rewrite IH.
Qed.

Lemma parse_of_saved (py : Py.Str) (p : Config.IgnoredCellsProfile) :
  ":"%char ∉ Py.chars (Config.driverName p) →
  Py.strip py (Config.driverName p) = Config.driverName p →
  Py.int py (Py.strip py (pretty (Config.numCells p)))
    = Some (Config.numCells p) →
  StronglySorted Z.lt (Config.ignoredCells p) →
  Config._parseProfileFromNewFormat py (Config.key p)
    (Config.ValueList (Config.ItemInt <$> Config.ignoredCells p)) = Some p.
Proof.
  intros Hcolon Hstrip Hint Hsorted.
  unfold Config._parseProfileFromNewFormat, Config.key.
  rewrite split1_cut by done. rewrite Hint. simpl.
  assert (Hcells : mapM (Config.intOfItem py)
                     (Config.ItemInt <$> Config.ignoredCells p)
                   = Some (Config.ignoredCells p))
    by (by apply mapM_fmap_Some).
  rewrite Hcells. simpl.
  rewrite Hstrip, sorted_set_of_increasing by done. by destruct p.
Qed.

Lemma loadProfiles_fold_saved (py : Py.Str)
    (target : gmap string Config.IgnoredCellsProfile)
    (l : list (string * Config.ConfValue))
    (m : gmap string Config.IgnoredCellsProfile) :
  (∀ entry, entry ∈ l →
     ∃ p, target !! entry.1 = Some p ∧ Config.key p = entry.1
          ∧ Config._parseProfileFromNewFormat py entry.1 entry.2 = Some p) →
  m ⊆ target →
  let loaded :=
    foldl
      (λ profiles entry,
         match Config._parseProfileFromNewFormat py entry.1 entry.2 with
         | Some profile => <[Config.key profile := profile]> profiles
         | None => profiles
         end) m l in
  loaded ⊆ target
  ∧ ∀ k, is_Some (m !! k) ∨ k ∈ l.*1 → is_Some (loaded !! k).
Proof.
  revert m. induction l as [|entry l IH]; intros m Hl Hm; simpl.
  - split; [done|]. intros k [Hk|Hk]; [done|]. by apply elem_of_nil in Hk.
  - destruct (Hl entry) as (p & Hp & Hkey & Hparse); [by left|].
    rewrite Hparse, Hkey.
    destruct (IH (<[entry.1 := p]> m)) as [Hsub Hdom].
    + intros e He. apply Hl. by right.
    + by apply insert_subseteq_l.
    + split; [done|]. intros k Hk. apply Hdom.
      destruct (decide (k = entry.1)) as [->|Hne].
      * left. by rewrite lookup_insert_eq.
      * rewrite lookup_insert_ne by done.
        destruct Hk as [Hk|Hk]; [by left|]. right.
        apply elem_of_cons in Hk as [Hk|Hk]; done.
Qed.

(** Loading what was saved. *)
Lemma loadProfiles_of_saved (py : Py.Str)
    (profiles : gmap string Config.IgnoredCellsProfile)
    (data : list (string * Config.ConfValue)) :
  (∀ k p, profiles !! k = Some p →
     k = Config.key p
     ∧ (":"%char ∉ Py.chars (Config.driverName p))
     ∧ Py.strip py (Config.driverName p) = Config.driverName p
     ∧ Py.int py (Py.strip py (pretty (Config.numCells p)))
         = Some (Config.numCells p)
     ∧ StronglySorted Z.lt (Config.ignoredCells p)) →
  data ≡ₚ map_to_list
            ((λ cells, Config.ValueList (Config.ItemInt <$> cells))
               <$> Config.saveProfiles profiles) →
  Config.loadProfiles py (Some data)
  = filter (λ entry, Config.ignoredCells entry.2 ≠ []) profiles.
Proof.
  intros Hprofiles Hdata. unfold Config.saveProfiles in Hdata.
  set (target := filter (λ entry : string * Config.IgnoredCellsProfile,
                           Config.ignoredCells entry.2 ≠ []) profiles) in *.
  assert (Hentry : ∀ k v, (k, v) ∈ data ↔
            ∃ p, target !! k = Some p
                 ∧ v = Config.ValueList (Config.ItemInt <$> Config.ignoredCells p)).
  { intros k v. rewrite Hdata, elem_of_map_to_list, !lookup_fmap.
    destruct (target !! k) as [p|]; simpl.
    - split; [intros [= <-]; by exists p|]. by intros (? & [= <-] & ->).
    - split; [done|]. by intros (? & ? & _). }
  destruct (loadProfiles_fold_saved py target data ∅) as [Hsub Hdom].
  { intros [k v] Hin. apply Hentry in Hin as (p & Hp & ->). simpl.
    exists p. split; [done|].
    apply map_lookup_filter_Some in Hp as [Hp _].
    destruct (Hprofiles k p Hp) as (-> & Hcolon & Hstrip & Hint & Hsorted).
    split; [done|]. by apply parse_of_saved. }
  { apply map_empty_subseteq. }
  simpl. apply map_eq. intros k.
  destruct (target !! k) as [p|] eqn:Hk.
  - destruct (Hdom k) as [q Hq].
    { right. apply list_elem_of_fmap.
      exists (k, Config.ValueList (Config.ItemInt <$> Config.ignoredCells p)).
      split; [done|]. apply Hentry. by exists p. }
    rewrite Hq. pose proof (lookup_weaken _ _ _ _ Hq Hsub) as Hq'.
    by rewrite Hk in Hq'.
  - match goal with |- ?m !! k = None => destruct (m !! k) as [q|] eqn:Hq end;
      [|done].
    pose proof (lookup_weaken _ _ _ _ Hq Hsub) as Hq'. by rewrite Hk in Hq'.
Qed.

(** X13: saving and loading again gives back the profiles that have ignored
    cells, and only those.  The profiles are filed under their own keys,
    their driver names have no colon and nothing to strip, their cell
    counts print to numerals that [int] reads back, and their cells are in
    strictly increasing order; the saved lists are read back as lists of
    integers, in any order of iteration. *)
Theorem save_then_load (py : Py.Str)
    (profiles : gmap string Config.IgnoredCellsProfile)
    (data : list (string * Config.ConfValue)) :
  (∀ k p, profiles !! k = Some p →
     k = Config.key p
     ∧ (":"%char ∉ Py.chars (Config.driverName p))
     ∧ Py.strip py (Config.driverName p) = Config.driverName p
     ∧ Py.int py (Py.strip py (pretty (Config.numCells p)))
         = Some (Config.numCells p)
     ∧ StronglySorted Z.lt (Config.ignoredCells p)) →
  data ≡ₚ map_to_list
            ((λ cells, Config.ValueList (Config.ItemInt <$> cells))
               <$> Config.saveProfiles profiles) →
  Config.loadProfiles py (Some data)
  = filter (λ entry, Config.ignoredCells entry.2 ≠ []) profiles.
Proof. apply loadProfiles_of_saved. Qed.

Lemma save_then_load_witness :
  let profiles : gmap string Config.IgnoredCellsProfile :=
    <["exampleDriver:40" := exampleProfile 40 []]> (exampleProfiles 8 [3;6]) in
  let data :=
    [("exampleDriver:8", Config.ValueList [Config.ItemInt 3; Config.ItemInt 6])] in
  Config.loadProfiles examplePy (Some data)
  = filter (λ entry, Config.ignoredCells entry.2 ≠ []) profiles.
Proof.
  intros profiles data.
  apply (save_then_load examplePy profiles data).
  - intros k p Hk.
    apply lookup_insert_Some in Hk as [[<- <-]|[_ Hk]];
      [|unfold exampleProfiles in Hk;
        apply lookup_singleton_Some in Hk as [<- <-]].
    + repeat split; try done; [|repeat constructor].
      apply (bool_decide_unpack _). by vm_compute.
    + repeat split; try done; [|repeat constructor].
      apply (bool_decide_unpack _). by vm_compute.
  - by vm_compute.
Defined.

(** ** The settings panel *)

Lemma parseParts_accepted (py : Py.Str) (maxCells : Z) (parts : list string)
    (cells0 out0 cells out : list Z) :
  let ok c := 1 ≤ c ∧ (maxCells ≠ 0 → c ≤ maxCells) in
  SettingsPanel.parseParts py maxCells parts cells0 out0 = inr (cells, out) →
  Forall ok cells0 → Forall ok cells.
Proof.
  intros ok. revert cells0 out0.
  induction parts as [|part parts IH]; intros cells0 out0; simpl.
  - by intros [= <- <-].
  - case_decide; [by apply IH|].
    destruct (Py.int py (Py.strip py part)) as [value|]; [|done].
    case_decide; [done|]. case_decide as Hrange.
    + by apply IH.
    + intros Hrun Hok. apply (IH _ _ Hrun). apply Forall_app. split; [done|].
      constructor; [|done]. split; [lia|]. intros Hmax.
      destruct (decide (value > maxCells)); [|lia]. by destruct Hrange.
Qed.

Lemma parseParts_rejected (py : Py.Str) (maxCells : Z) (parts : list string)
    (cells0 out0 cells out : list Z) :
  let beyond c := maxCells ≠ 0 ∧ maxCells < c in
  SettingsPanel.parseParts py maxCells parts cells0 out0 = inr (cells, out) →
  Forall beyond out0 → Forall beyond out.
Proof.
  intros beyond. revert cells0 out0.
  induction parts as [|part parts IH]; intros cells0 out0; simpl.
  - by intros [= <- <-].
  - case_decide; [by apply IH|].
    destruct (Py.int py (Py.strip py part)) as [value|]; [|done].
    case_decide; [done|]. case_decide as Hrange.
    + intros Hrun Hout. apply (IH _ _ Hrun). apply Forall_app. split; [done|].
      constructor; [|done]. destruct Hrange. split; [done|lia].
    + by apply IH.
Qed.

Lemma parseParts_error (py : Py.Str) (maxCells : Z) (parts : list string)
    (cells0 out0 : list Z) (error : SettingsPanel.ParseError) :
  SettingsPanel.parseParts py maxCells parts cells0 out0 = inl error →
  error = SettingsPanel.BelowOne ∨ ∃ value, error = SettingsPanel.NotANumber value.
Proof.
  revert cells0 out0.
  induction parts as [|part parts IH]; intros cells0 out0; simpl; [done|].
  case_decide; [by apply IH|].
  destruct (Py.int py (Py.strip py part)) as [value|];
    [|intros [= <-]; right; by eexists].
  case_decide; [intros [= <-]; by left|]. case_decide; by apply IH.
Qed.

Lemma parseCellsFromInput_accepted_cells (py : Py.Str)
    (self : SettingsPanel.Panel) (cells : list Z) :
  SettingsPanel._parseCellsFromInput py self = inr cells →
  StronglySorted Z.lt cells
  ∧ ∀ c, c ∈ cells →
      1 ≤ c
      ∧ (SettingsPanel._getCurrentDisplayCellCount self ≠ 0 →
         c ≤ SettingsPanel._getCurrentDisplayCellCount self).
Proof.
  unfold SettingsPanel._parseCellsFromInput.
  case_decide; [intros [= <-]; split; [constructor|]; by intros c ?%elem_of_nil|].
  destruct (negb _); [done|].
  destruct (SettingsPanel.parseParts _ _ _ _ _) as [?|[parsed out]] eqn:Hrun;
    [done|].
  case_decide; [done|]. intros [= <-].
  split; [apply sorted_set_increasing|].
  intros c Hc. rewrite sorted_set_elem in Hc.
  apply parseParts_accepted in Hrun; [|constructor].
  rewrite Forall_forall in Hrun. by apply Hrun.
Qed.

(** X14: the cells the panel accepts are in strictly increasing order, each
    is at least 1, and, when the connected display has a cell count, none
    is beyond it; and when the panel reports cells beyond the display, the
    display has a cell count, which is the one reported, and every reported
    cell is beyond it. *)
Theorem parseCellsFromInput_range (py : Py.Str) (self : SettingsPanel.Panel) :
  let maxCells := SettingsPanel._getCurrentDisplayCellCount self in
  match SettingsPanel._parseCellsFromInput py self with
  | inr cells =>
      StronglySorted Z.lt cells
      ∧ ∀ c, c ∈ cells → 1 ≤ c ∧ (maxCells ≠ 0 → c ≤ maxCells)
  | inl (SettingsPanel.ExceedsDisplay outOfRange max) =>
      max = maxCells ∧ maxCells ≠ 0 ∧ outOfRange ≠ []
      ∧ ∀ c, c ∈ outOfRange → maxCells < c
  | inl _ => True
  end.
Proof.
  intros maxCells.
  destruct (SettingsPanel._parseCellsFromInput py self) as [error|cells]
    eqn:Hparse; [|by apply (parseCellsFromInput_accepted_cells py)].
  destruct error as [| | |outOfRange max]; try done.
  unfold SettingsPanel._parseCellsFromInput in Hparse. fold maxCells in Hparse.
  case_decide; [done|]. destruct (negb _); [done|].
  destruct (SettingsPanel.parseParts _ _ _ _ _) as [?|[parsed out]] eqn:Hrun;
    [injection Hparse as ->; by apply parseParts_error in Hrun as [?|[? ?]]|].
  case_decide as Hout; [|done]. injection Hparse as <- <-.
  apply parseParts_rejected in Hrun; [|constructor].
  rewrite Forall_forall in Hrun.
  destruct out as [|c out]; [done|].
  destruct (Hrun c ltac:(by left)) as [Hmax _].
  repeat split; try done. intros x Hx. by apply Hrun.
Qed.

(** What the panel answers on the example display of eight cells. *)
Example parseCellsFromInput_examples :
  SettingsPanel._parseCellsFromInput examplePy (examplePanel "  ") = inr []
  ∧ SettingsPanel._parseCellsFromInput examplePy (examplePanel "8,1") = inr [1; 8]
  ∧ SettingsPanel._parseCellsFromInput examplePy (examplePanel "3;4")
    = inl SettingsPanel.InvalidCharacters
  ∧ SettingsPanel._parseCellsFromInput examplePy (examplePanel "3, 0")
    = inl SettingsPanel.BelowOne
  ∧ SettingsPanel._parseCellsFromInput examplePy (examplePanel "9, 3, 12")
    = inl (SettingsPanel.ExceedsDisplay [9; 12] 8)
  ∧ SettingsPanel._parseCellsFromInput examplePy (examplePanel "3 4")
    = inl (SettingsPanel.NotANumber "3 4").
Proof. vm_compute. done. Qed.

Lemma increasing_NoDup (cells : list Z) :
  StronglySorted Z.lt cells → NoDup cells.
Proof.
  induction 1 as [|x l Hs IH Hall]; constructor; [|done].
  intros Hx. eapply Forall_forall in Hall; [|done]. lia.
Qed.

Lemma zeroBased_of_positive (cells : list Z) :
  (∀ c, c ∈ cells → 1 ≤ c) → Config.zeroBased cells = (λ c, c - 1) <$> cells.
Proof.
  intros Hpos. induction cells as [|c cells IH]; simpl; [done|].
  rewrite decide_True by (specialize (Hpos c ltac:(by left)); lia).
  rewrite IH; [done|]. intros x Hx. apply Hpos. by right.
Qed.

(** X15: when the profile in force for a display holds cells the panel
    accepted for that display's cell count [P], a dimension query for one
    row of [P] columns announces [P] minus the number of accepted cells,
    and the snapshot is the accepted cells, each moved down by one and
    within the device. *)
Theorem accepted_cells_shrink_display (py : Py.Str)
    (self : SettingsPanel.Panel) (cells : list Z) (w : World)
    (profile : Config.IgnoredCellsProfile) :
  let P := SettingsPanel._getCurrentDisplayCellCount self in
  SettingsPanel._parseCellsFromInput py self = inr cells →
  0 < P →
  Config.getActiveProfile (profiles w) (handler w ≫= BrailleHandler.display)
    = Some profile →
  Config.ignoredCells profile = cells →
  let answer := _filterDisplayDimensions (DisplayDimensions.mk 1 P) w in
  answer.1 = inr (DisplayDimensions.mk 1 (P - Z.of_nat (length cells)))
  ∧ (∀ i, i ∈ _ignoredCells (manager answer.2) ↔ i + 1 ∈ cells)
  ∧ (∀ i, i ∈ _ignoredCells (manager answer.2) → 0 ≤ i < P).
Proof.
  intros P Hparse HP Hactive Hcells answer.
  destruct (parseCellsFromInput_accepted_cells py self cells Hparse)
    as [Hsorted Hrange]. fold P in Hrange.
  assert (Hconf : configuredIgnored w = list_to_set ((λ c, c - 1) <$> cells)).
  { unfold configuredIgnored, Config.getIgnoredCellsForDisplay.
    rewrite Hactive. unfold Config.getIgnoredCellsZeroBased.
    rewrite Hcells, zeroBased_of_positive; [done|].
    intros c Hc. by apply Hrange. }
  assert (Hsnap : _ignoredCells (manager answer.2) = configuredIgnored w)
    by (subst answer; by rewrite filterDisplayDimensions_run).
  assert (Helem : ∀ i, i ∈ configuredIgnored w ↔ i + 1 ∈ cells).
  { intros i. rewrite Hconf, elem_of_list_to_set, list_elem_of_fmap. split.
    - intros (c & -> & Hc). by replace (c - 1 + 1) with c by lia.
    - intros Hi. exists (i + 1). split; [lia|done]. }
  assert (Hwithin : ∀ i, i ∈ configuredIgnored w → 0 ≤ i < P).
  { intros i Hi. apply Helem in Hi. destruct (Hrange _ Hi) as [? Hmax].
    specialize (Hmax ltac:(lia)). lia. }
  split; [|rewrite Hsnap; by split].
  subst answer. rewrite filterDisplayDimensions_columns by lia.
  change (length (validPositions P (configuredIgnored w)))
    with (validBefore (configuredIgnored w) P).
  rewrite validBefore_count by (lia || apply configuredIgnored_nonneg).
  assert (Hall : filter (λ c, c < P) (configuredIgnored w) = configuredIgnored w).
  { apply set_eq. intros x. rewrite elem_of_filter. split; [by intros [_ ?]|].
    intros Hx. split; [|done]. apply Hwithin in Hx. lia. }
  rewrite Hall, Hconf, size_list_to_set, length_fmap; [done|].
  apply NoDup_fmap_2; [intros ? ? ?; lia|]. by apply increasing_NoDup.
Qed.

Lemma accepted_cells_shrink_display_witness :
  let answer :=
    _filterDisplayDimensions (DisplayDimensions.mk 1 8) (exampleWorld 8 [3;6]) in
  answer.1 = inr (DisplayDimensions.mk 1 6)
  ∧ (∀ i, i ∈ _ignoredCells (manager answer.2) ↔ i + 1 ∈ [3; 6])
  ∧ (∀ i, i ∈ _ignoredCells (manager answer.2) → 0 ≤ i < 8).
Proof.
  apply (accepted_cells_shrink_display examplePy (examplePanel "6, 3")
           [3; 6] (exampleWorld 8 [3;6]) (exampleProfile 8 [3;6]));
    by vm_compute.
Defined.

(** ** Saving from the panel *)

Lemma dict_set_keys_NoDup {A} (key : string) (value : A)
    (d : list (string * A)) :
  NoDup d.*1 → NoDup (Py.dict_set key value d).*1
  ∧ ∀ k, k ∈ (Py.dict_set key value d).*1 ↔ k = key ∨ k ∈ d.*1.
Proof.
  induction d as [|[k0 v0] d IH]; simpl; intros Hnd.
  - split; [apply NoDup_singleton|]. intros k.
    rewrite list_elem_of_singleton, elem_of_nil. tauto.
  - apply NoDup_cons in Hnd as [Hk0 Hnd]. destruct (IH Hnd) as [IHnd IHin].
    case_decide as Hk; simpl.
    + subst k0. split; [by apply NoDup_cons|]. intros k.
      rewrite elem_of_cons. tauto.
    + split.
      * apply NoDup_cons. split; [|done]. rewrite IHin. intros [?|?]; done.
      * intros k. rewrite !elem_of_cons, IHin. tauto.
Qed.

Lemma dict_set_elem {A} (key : string) (value : A) (d : list (string * A))
    (k : string) (v : A) :
  NoDup d.*1 →
  (k, v) ∈ Py.dict_set key value d
  ↔ (k = key ∧ v = value) ∨ (k ≠ key ∧ (k, v) ∈ d).
Proof.
  induction d as [|[k0 v0] d IH]; simpl; intros Hnd.
  - rewrite list_elem_of_singleton, elem_of_nil. split.
    + intros [= -> ->]. by left.
    + intros [[-> ->]|[_ []]]. done.
  - apply NoDup_cons in Hnd as [Hk0 Hnd]. specialize (IH Hnd).
    case_decide as Hk; rewrite !elem_of_cons.
    + subst k0. split.
      * intros [[= -> ->]|Hin]; [by left|]. right. split; [|by right].
        intros ->. apply Hk0. apply list_elem_of_fmap. by exists (key, v).
      * intros [[-> ->]|[Hne [[= ? ?]|Hin]]]; [by left|done|by right].
    + rewrite IH. split.
      * intros [[= -> ->]|[[-> ->]|[Hne Hin]]].
        -- right. split; [done|by left].
        -- by left.
        -- right. split; [done|by right].
      * intros [[-> ->]|[Hne [[= -> ->]|Hin]]].
        -- right. by left.
        -- by left.
        -- right. right. by split.
Qed.

Lemma saveProfiles_lookup (profiles : gmap string Config.IgnoredCellsProfile)
    (k : string) :
  Config.saveProfiles profiles !! k
  = profile ← profiles !! k;
    if decide (Config.ignoredCells profile = []) then None
    else Some (Config.ignoredCells profile).
Proof.
  unfold Config.saveProfiles. rewrite lookup_fmap, map_lookup_filter.
  destruct (profiles !! k) as [profile|]; simpl; [|done].
  case_decide; [by rewrite option_guard_False by (simpl; tauto)|].
  by rewrite option_guard_True.
Qed.

(** The loop of [onSave] on pending changes whose keys all have a profile:
    it does not raise, gives each pending key its pending cells and leaves
    the other profiles alone. *)
Lemma applyAllPending_known (py : Py.Str)
    (pending : list (string * list Z))
    (profiles : gmap string Config.IgnoredCellsProfile) :
  NoDup pending.*1 →
  (∀ k, k ∈ pending.*1 → is_Some (profiles !! k)) →
  ∃ changed,
    SettingsPanel.applyAllPending py profiles pending = Some changed
    ∧ (∀ k cells, (k, cells) ∈ pending →
         ∃ p, profiles !! k = Some p
              ∧ changed !! k
                = Some {| Config.driverName := Config.driverName p;
                          Config.numCells := Config.numCells p;
                          Config.ignoredCells := cells |})
    ∧ (∀ k, k ∉ pending.*1 → changed !! k = profiles !! k).
Proof.
  revert profiles.
  induction pending as [|[k0 c0] pending IH]; intros profiles Hnd Hknown.
  - exists profiles. simpl. split; [done|]. split; [|done].
    by intros k cells ?%elem_of_nil.
  - simpl in Hnd. apply NoDup_cons in Hnd as [Hk0 Hnd].
    destruct (Hknown k0) as [p0 Hp0]; [by left|].
    simpl. unfold SettingsPanel.applyPending at 1. simpl. rewrite Hp0. simpl.
    set (profiles1 := <[k0 := _]> profiles).
    destruct (IH profiles1 Hnd) as (changed & Hrun & Hset & Hkeep).
    { intros k Hk. subst profiles1.
      destruct (decide (k = k0)) as [->|Hne];
        [by rewrite lookup_insert_eq|rewrite lookup_insert_ne by done].
      apply Hknown. by right. }
    exists changed. split; [done|]. split.
    + intros k cells [[= -> ->]|Hin]%elem_of_cons.
      * exists p0. split; [done|]. rewrite Hkeep by done.
        subst profiles1. by rewrite lookup_insert_eq.
      * assert (k ≠ k0).
        { intros ->. apply Hk0. apply list_elem_of_fmap. by exists (k0, cells). }
        destruct (Hset k cells Hin) as (p & Hp & Hc). exists p.
        split; [|done]. subst profiles1. by rewrite lookup_insert_ne in Hp.
    + intros k Hk. apply not_elem_of_cons in Hk as [Hne Hk].
      rewrite Hkeep by done. subst profiles1. by rewrite lookup_insert_ne.
Qed.

Lemma saveProfiles_filtered (profiles : gmap string Config.IgnoredCellsProfile) :
  Config.saveProfiles
    (filter (λ entry, Config.ignoredCells entry.2 ≠ []) profiles)
  = Config.saveProfiles profiles.
Proof.
  apply map_eq. intros k. rewrite !saveProfiles_lookup, map_lookup_filter.
  destruct (profiles !! k) as [p|]; simpl; [|done].
  destruct (decide (Config.ignoredCells p = [])) as [Hnil|Hcells].
  - by rewrite option_guard_False by (simpl; tauto).
  - rewrite option_guard_True by done. simpl. by rewrite decide_False.
Qed.

Lemma saveCurrentEdits_accepted (py : Py.Str) (self : SettingsPanel.Panel)
    (key : string) (cells : list Z) :
  SettingsPanel._currentDisplayKey self = Some key →
  0 ≤ SettingsPanel._selectedIndex self →
  SettingsPanel._profileKeys self !! Z.to_nat (SettingsPanel._selectedIndex self)
    = Some key →
  SettingsPanel._parseCellsFromInput py self = inr cells →
  SettingsPanel._saveCurrentEdits py self
  = SettingsPanel.set_pendingChanges
      (Py.dict_set key cells (SettingsPanel._pendingChanges self)) self.
Proof.
  intros Hkey Hidx Hsel Hparse. unfold SettingsPanel._saveCurrentEdits.
  pose proof (lookup_lt_Some _ _ _ Hsel) as Hlt.
  rewrite decide_False by lia.
  rewrite Hsel, Hkey, decide_True by done. by rewrite Hparse.
Qed.

(** What [onSave] does when the connected display is the one selected, its
    input is accepted and every pending key has a profile. *)
Lemma onSave_run (py : Py.Str) (self : SettingsPanel.Panel)
    (key : string) (cells : list Z) :
  SettingsPanel._currentDisplayKey self = Some key →
  0 ≤ SettingsPanel._selectedIndex self →
  SettingsPanel._profileKeys self !! Z.to_nat (SettingsPanel._selectedIndex self)
    = Some key →
  SettingsPanel._parseCellsFromInput py self = inr cells →
  NoDup (SettingsPanel._pendingChanges self).*1 →
  (∀ k, k = key ∨ k ∈ (SettingsPanel._pendingChanges self).*1 →
        is_Some (SettingsPanel._profiles self !! k)) →
  ∃ self' changed,
    SettingsPanel.onSave py self = Some (self', Config.saveProfiles changed)
    ∧ SettingsPanel._profiles self' = changed
    ∧ (∀ k new, (k = key ∧ new = cells)
                ∨ (k ≠ key ∧ (k, new) ∈ SettingsPanel._pendingChanges self) →
         ∃ p, SettingsPanel._profiles self !! k = Some p
              ∧ changed !! k
                = Some {| Config.driverName := Config.driverName p;
                          Config.numCells := Config.numCells p;
                          Config.ignoredCells := new |})
    ∧ (∀ k, k ≠ key → k ∉ (SettingsPanel._pendingChanges self).*1 →
            changed !! k = SettingsPanel._profiles self !! k).
Proof.
  intros Hkey Hidx Hsel Hparse Hnd Hknown.
  unfold SettingsPanel.onSave.
  rewrite (saveCurrentEdits_accepted py self key cells) by done. simpl.
  set (pending := Py.dict_set key cells (SettingsPanel._pendingChanges self)).
  destruct (dict_set_keys_NoDup key cells (SettingsPanel._pendingChanges self) Hnd)
    as [Hnd' Hkeys]. fold pending in Hnd', Hkeys.
  destruct (applyAllPending_known py pending (SettingsPanel._profiles self) Hnd')
    as (changed & -> & Hset & Hkeep).
  { intros k Hk. apply Hknown. by apply Hkeys. }
  simpl. rewrite saveProfiles_filtered.
  eexists _, changed. split; [done|]. split; [done|]. split.
  - intros k new Hk. apply Hset. subst pending. by apply dict_set_elem.
  - intros k Hne Hk. apply Hkeep. rewrite Hkeys. tauto.
Qed.

(** X16: when the connected display is the one selected and its input is
    accepted, [onSave] does not raise and writes under the display's key
    exactly the accepted cells, or nothing when none were entered; keys
    without a pending change are written as they would be without the
    edit, and no empty list is ever written. *)
Theorem onSave_writes_entered_cells (py : Py.Str)
    (self : SettingsPanel.Panel) (key : string) (cells : list Z) :
  SettingsPanel._currentDisplayKey self = Some key →
  0 ≤ SettingsPanel._selectedIndex self →
  SettingsPanel._profileKeys self !! Z.to_nat (SettingsPanel._selectedIndex self)
    = Some key →
  SettingsPanel._parseCellsFromInput py self = inr cells →
  NoDup (SettingsPanel._pendingChanges self).*1 →
  (∀ k, k = key ∨ k ∈ (SettingsPanel._pendingChanges self).*1 →
        is_Some (SettingsPanel._profiles self !! k)) →
  ∃ self' saved,
    SettingsPanel.onSave py self = Some (self', saved)
    ∧ saved !! key = (if decide (cells = []) then None else Some cells)
    ∧ (∀ k, k ≠ key → k ∉ (SettingsPanel._pendingChanges self).*1 →
            saved !! k = Config.saveProfiles (SettingsPanel._profiles self) !! k)
    ∧ (∀ k written, saved !! k = Some written → written ≠ []).
Proof.
  intros Hkey Hidx Hsel Hparse Hnd Hknown.
  destruct (onSave_run py self key cells) as
    (self' & changed & Hrun & _ & Hset & Hkeep); try done.
  exists self', (Config.saveProfiles changed). split; [done|]. split; [|split].
  - rewrite saveProfiles_lookup.
    destruct (Hset key cells) as (p & _ & ->); [by left|]. done.
  - intros k Hne Hk. rewrite !saveProfiles_lookup. by rewrite Hkeep.
  - intros k written. rewrite saveProfiles_lookup.
    destruct (changed !! k) as [p|]; simpl; [|done].
    case_decide; [done|]. by intros [= <-].
Qed.

Lemma onSave_writes_entered_cells_witness :
  ∃ self' saved,
    SettingsPanel.onSave examplePy (examplePanel "6, 3") = Some (self', saved)
    ∧ saved !! "exampleDriver:8"
      = (if decide ([3; 6] = []) then None else Some [3; 6])
    ∧ (∀ k, k ≠ "exampleDriver:8" →
            k ∉ (SettingsPanel._pendingChanges (examplePanel "6, 3")).*1 →
            saved !! k
            = Config.saveProfiles
                (SettingsPanel._profiles (examplePanel "6, 3")) !! k)
    ∧ (∀ k written, saved !! k = Some written → written ≠ []).
Proof.
  apply (onSave_writes_entered_cells examplePy (examplePanel "6, 3")
           "exampleDriver:8" [3; 6]);
    [reflexivity|simpl; lia|reflexivity|by vm_compute|apply NoDup_nil_2|].
  intros k [->|Hk]; [vm_compute; by eexists|by apply elem_of_nil in Hk].
Defined.

(** X17: from the edit control to the snapshot.  The connected display is
    the one selected in the panel and its input is accepted; the panel's
    profiles are filed under their own keys, with driver names that have no
    colon and nothing to strip, cell counts whose numerals [int] reads back
    and increasing cells; the only pending change, if any, is the
    display's.  Then [onSave] does not raise and, once the written lists
    are read back as lists of integers, the refresh that follows leaves in
    the snapshot exactly the accepted cells, each moved down by one. *)
Theorem entered_cells_reach_snapshot (host : Host) (py : Py.Str)
    (self : SettingsPanel.Panel) (cells : list Z)
    (w : World) (h : BrailleHandler.t) (d : BrailleDisplayDriver.t) :
  let key := BrailleDisplayDriver.name d +:+ ":"
               +:+ pretty (BrailleDisplayDriver.numCells d) in
  filterRegistered w = true →
  handler w = Some h →
  BrailleHandler.display h = Some d →
  BrailleDisplayDriver.name d ≠ "noBraille" →
  SettingsPanel._currentDisplayKey self = Some key →
  0 ≤ SettingsPanel._selectedIndex self →
  SettingsPanel._profileKeys self !! Z.to_nat (SettingsPanel._selectedIndex self)
    = Some key →
  is_Some (SettingsPanel._profiles self !! key) →
  NoDup (SettingsPanel._pendingChanges self).*1 →
  (∀ entry, entry ∈ SettingsPanel._pendingChanges self → entry.1 = key) →
  (∀ k p, SettingsPanel._profiles self !! k = Some p →
     k = Config.key p
     ∧ (":"%char ∉ Py.chars (Config.driverName p))
     ∧ Py.strip py (Config.driverName p) = Config.driverName p
     ∧ Py.int py (Py.strip py (pretty (Config.numCells p)))
         = Some (Config.numCells p)
     ∧ StronglySorted Z.lt (Config.ignoredCells p)) →
  SettingsPanel._parseCellsFromInput py self = inr cells →
  ∃ self' saved,
    SettingsPanel.onSave py self = Some (self', saved)
    ∧ ∀ data,
        data ≡ₚ map_to_list
                  ((λ cells, Config.ValueList (Config.ItemInt <$> cells))
                     <$> saved) →
        let w' := withProfiles (Config.loadProfiles py (Some data)) w in
        ∀ i, i ∈ _ignoredCells (manager (refreshIgnoredCells host w').2)
             ↔ i + 1 ∈ cells.
Proof.
  intros key Hreg Hh Hd Hname Hkey Hidx Hsel [p0 Hp0] Hnd Hpending Hprofiles
    Hparse.
  assert (Hother : ∀ k, k ∈ (SettingsPanel._pendingChanges self).*1 → k = key).
  { intros k (entry & -> & Hin)%list_elem_of_fmap. by apply Hpending. }
  destruct (onSave_run py self key cells) as
    (self' & changed & Hrun & _ & Hset & Hkeep); try done.
  { intros k [->|Hk]; [by exists p0|]. rewrite (Hother k Hk). by exists p0. }
  destruct (Hset key cells) as (p & Hp & Hchanged); [by left|].
  rewrite Hp0 in Hp. injection Hp as <-.
  destruct (parseCellsFromInput_accepted_cells py self cells Hparse)
    as [Hsorted Hrange].
  exists self', (Config.saveProfiles changed). split; [done|].
  intros data Hdata w' i.
  rewrite (refreshIgnoredCells_snapshot host w' h d) by done.
  assert (Hload : profiles w'
                  = filter (λ entry, Config.ignoredCells entry.2 ≠ []) changed);
    [clear i|].
  { apply (loadProfiles_of_saved py changed data); [|done].
    intros k p Hk.
    destruct (decide (k = key)) as [->|Hne].
    - rewrite Hchanged in Hk. injection Hk as <-.
      destruct (Hprofiles key p0 Hp0) as (Hk0 & ? & ? & ? & _). done.
    - rewrite Hkeep in Hk; [by apply Hprofiles|done|].
      intros Hin. by apply Hne, Hother. }
  unfold configuredIgnored. rewrite Hload.
  replace (handler w') with (Some h) by done. simpl. rewrite Hd.
  - unfold Config.getIgnoredCellsForDisplay, Config.getActiveProfile.
    rewrite decide_False by done. fold key.
    rewrite map_lookup_filter, Hchanged. simpl.
    destruct (decide (cells = [])) as [->|Hcells].
    + rewrite option_guard_False by (simpl; tauto). simpl.
      rewrite elem_of_empty, elem_of_nil. done.
    + rewrite option_guard_True by done. simpl.
      unfold Config.getIgnoredCellsZeroBased. simpl.
      rewrite zeroBased_of_positive by (intros c Hc; by apply Hrange).
      rewrite elem_of_list_to_set, list_elem_of_fmap. split.
      * intros (c & -> & Hc). by replace (c - 1 + 1) with c by lia.
      * intros Hi. exists (i + 1). split; [lia|done].
Qed.

Lemma entered_cells_reach_snapshot_witness :
  let w := run exampleHost [Register] (exampleWorld 8 []) in
  ∃ self' saved,
    SettingsPanel.onSave examplePy (examplePanel "6, 3") = Some (self', saved)
    ∧ ∀ data,
        data ≡ₚ map_to_list
                  ((λ cells, Config.ValueList (Config.ItemInt <$> cells))
                     <$> saved) →
        let w' := withProfiles (Config.loadProfiles examplePy (Some data)) w in
        ∀ i, i ∈ _ignoredCells (manager (refreshIgnoredCells exampleHost w').2)
             ↔ i + 1 ∈ [3; 6].
Proof.
  intros w.
  apply (entered_cells_reach_snapshot exampleHost examplePy
           (examplePanel "6, 3") [3; 6] w
           (set_displayDimensions (Some (Some (DisplayDimensions.mk 1 8)))
              (exampleHandler 8))
           (exampleDisplay 8));
    [reflexivity|by vm_compute|reflexivity|done|by vm_compute|simpl; lia
    |reflexivity|vm_compute; by eexists|apply NoDup_nil_2
    |by intros entry ?%elem_of_nil| |by vm_compute].
  intros k p Hk. unfold examplePanel, exampleProfiles in Hk. simpl in Hk.
  apply lookup_singleton_Some in Hk as [<- <-].
  repeat split; try done; [|repeat constructor].
  apply (bool_decide_unpack _). by vm_compute.
Defined.

(** ** Registering the panel *)

Lemma list_remove_appended `{EqDecision A} (x : A) (l : list A) :
  ∃ l', Py.list_remove x (l ++ [x]) = Some l'
        ∧ filter (λ y, y ≠ x) l' = filter (λ y, y ≠ x) l
        ∧ length l' = length l
        ∧ (x ∉ l → l' = l).
Proof.
  induction l as [|y l (l' & Hrun & Hothers & Hlen & Hsame)]; simpl.
  - exists []. by rewrite decide_True.
  - destruct (decide (y = x)) as [->|Hne].
    + exists (l ++ [x]). split; [done|]. split; [|split].
      * rewrite filter_app, filter_cons_False, filter_cons_False, filter_nil
          by (intros ?; done).
        by rewrite app_nil_r.
      * rewrite length_app. simpl. lia.
      * intros Hin. exfalso. apply Hin. by left.
    + exists (y :: l'). rewrite Hrun. simpl. split; [done|]. split; [|split].
      * by rewrite !filter_cons_True, Hothers by done.
      * simpl. by rewrite Hlen.
      * intros Hin. apply not_elem_of_cons in Hin as [_ Hin].
        by rewrite Hsame.
Qed.

Lemma list_remove_absent `{EqDecision A} (x : A) (l : list A) :
  x ∉ l → Py.list_remove x l = None.
Proof.
  induction l as [|y l IH]; simpl; [done|].
  intros [Hne Hin]%not_elem_of_cons.
  rewrite decide_False by done. by rewrite IH.
Qed.

(** X18: unregistering after registering clears the module's manager,
    keeps the host's other panel classes in their order and the list at its
    length, and restores the list exactly when the panel was not in it
    before; unregistering when the panel is not in the list does not raise
    and leaves the list alone. *)
Theorem register_then_unregister (registry : SettingsPanel.Registry) :
  let panel := SettingsPanel.BrailleCellIgnorerSettingsPanel in
  let before := SettingsPanel.categoryClasses registry in
  let after :=
    SettingsPanel.unregister (SettingsPanel.register registry) in
  SettingsPanel._cellManager after = false
  ∧ filter (λ c, c ≠ panel) (SettingsPanel.categoryClasses after)
    = filter (λ c, c ≠ panel) before
  ∧ length (SettingsPanel.categoryClasses after) = length before
  ∧ (panel ∉ before → SettingsPanel.categoryClasses after = before)
  ∧ (panel ∉ before →
     SettingsPanel.categoryClasses (SettingsPanel.unregister registry) = before).
Proof.
  intros panel before after. split; [done|].
  destruct (list_remove_appended panel before)
    as (l' & Hrun & Hothers & Hlen & Hsame).
  subst after. unfold SettingsPanel.unregister, SettingsPanel.register. simpl.
  fold panel before. rewrite Hrun.
  repeat split; try done.
  intros Hin. by rewrite list_remove_absent.
Qed.

(** A panel class already in the list moves to the end. *)
Example register_then_unregister_reorders :
  let panel := SettingsPanel.BrailleCellIgnorerSettingsPanel in
  SettingsPanel.categoryClasses
    (SettingsPanel.unregister
       (SettingsPanel.register
          {| SettingsPanel._cellManager := false;
             SettingsPanel.categoryClasses := [panel; "BrailleSettingsPanel"] |}))
  = ["BrailleSettingsPanel"; panel].
Proof. reflexivity. Qed.
